(** * openapi-multi-swagger: the specification-rewriting and proxying server

    A shallow embedding of [server.go] (package [swagger]) and of the
    properties its specification states about it.

    - Go strings are byte strings: [string].
    - [map[string]T] is a [gmap string T]; a slice is a [list].
    - A decoded JSON document ([map[string]interface{}]) is a
      [gmap string json], with [json] the variant of values that
      [encoding/json] produces.
    - A handler writes to its [http.ResponseWriter], logs and performs
      outbound HTTP calls; it never reads any of that back, so a handler is
      modelled by the ordered list of effects ([Event]) it performs.
    - The functions of Go's standard library that the server calls
      ([url.Parse], [URL.ResolveReference], [URL.String],
      [URL.Query], JSON decoding) are an interface ([GoLib]); the network
      ([http.Get], [Client.Do]) is a parameter of the handlers.
      The theorems hold for every implementation; a reference
      implementation ([RefLib.lib]) runs the server on concrete inputs.
    - The embedded file system ([swaggerUI.ReadFile]) and [filepath.Join]
      are parameters of the handlers of the assets.
    - The polling loop of [cmd/main.go] is modelled on the results of the
      successive calls of [loadSpecs]. *)

From Stdlib Require Import PrimFloat Ascii.
From stdpp Require Import base option list strings gmap fin_maps pretty.

Open Scope string_scope.
Open Scope list_scope.

#[local] Set Warnings "-register-all".

(** ** Go values *)

(** The text of a Go [error], as printed by [%v]. *)
Definition error := string.

(** A Go result pair [(T, error)]. *)
Inductive result (A : Type) :=
| Ok (a : A)
| Err (e : error).
Arguments Ok {A} a.
Arguments Err {A} e.

(** What [encoding/json] decodes into an [interface{}]. *)
Inductive json :=
| JNull
| JBool (b : bool)
| JNumber (f : float)
| JString (s : string)
| JArray (l : list json)
| JObject (m : gmap string json).

(** [v, ok := x.(string)] on the result of a map index. *)
Definition asString (x : option json) : option string :=
  match x with
  | Some (JString s) => Some s
  | _ => None
  end.

(** [v, ok := x.([]interface{})]. *)
Definition asArray (x : option json) : option (list json) :=
  match x with
  | Some (JArray l) => Some l
  | _ => None
  end.

(** [v, ok := x.(map[string]interface{})]. *)
Definition asObject (x : option json) : option (gmap string json) :=
  match x with
  | Some (JObject m) => Some m
  | _ => None
  end.

(** [url.Userinfo]: a user name and an optional password. *)
Record Userinfo := {
  username : string;
  password : option string;
}.

(** [url.URL]. *)
Record URL := {
  Scheme : string;
  Opaque : string;
  User : option Userinfo;
  Host : string;
  Path : string;
  RawPath : string;
  OmitHost : bool;
  ForceQuery : bool;
  RawQuery : string;
  Fragment : string;
  RawFragment : string;
}.

(** [url.URL{Path: p}]: every other field has its zero value. *)
Definition URL_of_Path (p : string) : URL :=
  {| Scheme := ""; Opaque := ""; User := None; Host := ""; Path := p;
     RawPath := ""; OmitHost := false; ForceQuery := false; RawQuery := "";
     Fragment := ""; RawFragment := "" |}.

(** [u.Path = p] on a copy of [u]. *)
Definition set_Path (u : URL) (p : string) : URL :=
  {| Scheme := Scheme u; Opaque := Opaque u; User := User u; Host := Host u;
     Path := p; RawPath := RawPath u; OmitHost := OmitHost u;
     ForceQuery := ForceQuery u; RawQuery := RawQuery u;
     Fragment := Fragment u; RawFragment := RawFragment u |}.

(** [URL.IsAbs]. *)
Definition IsAbs (u : URL) : bool := negb (String.eqb (Scheme u) "").

(** [url.Values] and [http.Header]: a key maps to its values in order. *)
Abbreviation url_Values := (gmap string (list string)).
Abbreviation http_Header := (gmap string (list string)).

(** [Values.Get]: the first value of the key, the empty string when there
    is none. *)
Definition Values_Get (v : url_Values) (key : string) : string :=
  match v !! key with
  | Some (x :: _) => x
  | _ => ""
  end.

(** The standard-library functions the server relies on. *)
Class GoLib := {
  url_Parse : string -> result URL;
  URL_ResolveReference : URL -> URL -> URL;
  URL_String : URL -> string;
  URL_Query : URL -> url_Values;
  CanonicalMIMEHeaderKey : string -> string;
  json_Decode : string -> result (gmap string json);
}.

(** ** String helpers of package [strings] *)

(** [strings.HasPrefix s p]. *)
Fixpoint HasPrefix (s p : string) {struct p} : bool :=
  match p, s with
  | EmptyString, _ => true
  | String _ _, EmptyString => false
  | String c p', String d s' => Ascii.eqb d c && HasPrefix s' p'
  end.

(** [strings.TrimPrefix s p]. *)
Definition TrimPrefix (s p : string) : string :=
  if HasPrefix s p
  then String.substring (String.length p) (String.length s - String.length p) s
  else s.

(** [s[len(s)-1]], for a non-empty [s]. *)
Fixpoint last_byte (s : string) : option ascii :=
  match s with
  | EmptyString => None
  | String c EmptyString => Some c
  | String _ s' => last_byte s'
  end.

(** [s[0]], for a non-empty [s]. *)
Definition first_byte (s : string) : option ascii :=
  match s with
  | EmptyString => None
  | String c _ => Some c
  end.

(** ** Rewriting the location fields *)

Section Rewrite.
Context `{GoLib}.

(** [makeServerURL]. *)
Definition makeServerURL (metadataURL : URL) (pathComponent : string) : string :=
  if String.eqb pathComponent "" then
    Scheme metadataURL +:+ "://" +:+ Host metadataURL
  else
    let absolute :=
      match url_Parse pathComponent with
      | Ok parsedPathComponent => IsAbs parsedPathComponent
      | Err _ => false
      end in
    if absolute then pathComponent
    else
      let base :=
        if String.eqb (Path metadataURL) ""
           || negb (bool_decide (last_byte (Path metadataURL) = Some "/"%char))
        then
          if negb (String.eqb pathComponent "")
             && ((String.length pathComponent =? 0)%nat
                 || negb (bool_decide (first_byte pathComponent = Some "/"%char)))
          then set_Path metadataURL (Path metadataURL +:+ "/")
          else metadataURL
        else metadataURL in
      if HasPrefix pathComponent "/" then
        Scheme metadataURL +:+ "://" +:+ Host metadataURL +:+ pathComponent
      else
        URL_String (URL_ResolveReference base (URL_of_Path pathComponent)).

(** The one-field object [map[string]interface{}{"url": u}]. *)
Definition server_entry (u : string) : json :=
  JObject {[ "url" := JString u ]}.

(** [updateSpecServerInfo]; the map is updated in place in the source and
    returned here. *)
Definition updateSpecServerInfo (spec : gmap string json) (metadataURL : URL)
  : gmap string json :=
  let openAPIVersion := default "" (asString (spec !! "openapi")) in
  let swaggerVersion := default "" (asString (spec !! "swagger")) in
  if negb (String.eqb openAPIVersion "") && HasPrefix openAPIVersion "3." then
    let existingServers := default [] (asArray (spec !! "servers")) in
    let newServers : list json := [] in
    let newServers :=
      match existingServers with
      | first :: _ =>
          match asObject (Some first) with
          | Some firstServer =>
              match asString (firstServer !! "url") with
              | Some serverURL =>
                  newServers ++ [server_entry (makeServerURL metadataURL serverURL)]
              | None => newServers
              end
          | None => newServers
          end
      | [] => newServers
      end in
    let newServers :=
      if (length newServers =? 0)%nat
      then newServers ++ [server_entry (makeServerURL metadataURL "")]
      else newServers in
    let newServers := newServers ++ existingServers in
    <["servers" := JArray newServers]> spec
  else if String.eqb swaggerVersion "2.0" then
    <["host" := JString (Host metadataURL)]> spec
  else
    match asString (spec !! "basePath") with
    | Some basePath =>
        <["basePath" := JString (makeServerURL metadataURL basePath)]> spec
    | None => spec
    end.

End Rewrite.

(** ** The registry *)

(** [APIMetadata]. *)
Module APIMetadata.
Record t := {
  Name : string;
  URL : string;
  Title : string;
  Version : string;
  Description : string;
  ResourceType : string;
  ResourceName : string;
  Namespace : string;
  LastUpdated : string;
  AllowedMethods : list string;
  Error : string;
}.
End APIMetadata.

(** [Server]; the mutex and the logger carry no data of the model. *)
Record Server := {
  specs : gmap string APIMetadata.t;
  basePath : string;
}.

(** Log levels of the logger calls the server makes. *)
Inductive Level := DebugLevel | InfoLevel | WarnLevel | ErrorLevel.

(** [http.Request], inbound and outbound. [Body] is [None] for a nil body,
    and otherwise what [io.ReadAll] returns on it. *)
Module Request.
Record t := {
  Method : string;
  URL : URL;
  Header : http_Header;
  Body : option (result string);
}.
End Request.

(** [http.Response], with its body read to the end. *)
Module Response.
Record t := {
  StatusCode : Z;
  Header : http_Header;
  Body : string;
}.
End Response.

(** What a handler hands to [w.Write]: bytes, or the JSON encoding (by
    [json.Encoder.Encode]) of a document or of the registry. *)
Inductive Payload :=
| Bytes (data : string)
| JSONDoc (doc : gmap string json)
| JSONSpecs (m : gmap string APIMetadata.t).

(** The effects of the server, in the order they happen. *)
Inductive Event :=
| Log (level : Level) (msg : string)
| HeaderSet (key value : string)
| HeaderAdd (key value : string)
| WriteHeader (statusCode : Z)
| Write (p : Payload)
| Get (url : string)
| Do (req : Request.t).

(** [UpdateSpecs]: the record stored for an accepted candidate. *)
Definition UpdateSpecs_metadata (api : APIMetadata.t) : APIMetadata.t :=
  {| APIMetadata.Name := APIMetadata.Name api;
     APIMetadata.URL := APIMetadata.URL api;
     APIMetadata.Title := APIMetadata.Name api;
     APIMetadata.Version := "";
     APIMetadata.Description :=
       "API from " +:+ APIMetadata.Namespace api +:+ "/" +:+ APIMetadata.ResourceName api;
     APIMetadata.ResourceType := APIMetadata.ResourceType api;
     APIMetadata.ResourceName := APIMetadata.ResourceName api;
     APIMetadata.Namespace := APIMetadata.Namespace api;
     APIMetadata.LastUpdated := APIMetadata.LastUpdated api;
     APIMetadata.AllowedMethods := APIMetadata.AllowedMethods api;
     APIMetadata.Error := "" |}.

(** [UpdateSpecs]: one iteration of the loop over the candidates, on the map
    under construction and the log. *)
Definition UpdateSpecs_step (acc : gmap string APIMetadata.t * list Event)
    (api : APIMetadata.t) : gmap string APIMetadata.t * list Event :=
  let (newSpecs, log) := acc in
  if negb (String.eqb (APIMetadata.Error api) "") then
    (newSpecs,
     log ++ [Log WarnLevel ("Skipping API spec for " +:+ APIMetadata.Name api
                            +:+ " due to existing error: " +:+ APIMetadata.Error api)])
  else
    (<[APIMetadata.Name api := UpdateSpecs_metadata api]> newSpecs, log).

(** [UpdateSpecs]: the server after the call, and what was logged. *)
Definition UpdateSpecs (s : Server) (apis : list APIMetadata.t) : Server * list Event :=
  let (newSpecs, log) := foldl UpdateSpecs_step (∅, []) apis in
  ({| specs := newSpecs; basePath := basePath s |},
   log ++ [Log InfoLevel ("API specs updated. Total specs: " +:+ pretty (size newSpecs))]).

(** ** [net/http] as the server uses it *)

Definition StatusOK : Z := 200.
Definition StatusBadRequest : Z := 400.
Definition StatusNotFound : Z := 404.
Definition StatusInternalServerError : Z := 500.
Definition MethodOptions : string := "OPTIONS".

(** The double quote of [%q]. *)
Definition dquote : string := String (ascii_of_nat 34) "".

(** [httpguts.IsTokenRune] on a byte. *)
Definition isTokenByte (c : ascii) : bool :=
  let n := nat_of_ascii c in
  ((48 <=? n) && (n <=? 57) || (65 <=? n) && (n <=? 90) || (97 <=? n) && (n <=? 122))%nat
  || bool_decide (c ∈ String.list_ascii_of_string "!#$%&'*+-.^_`|~").

(** [validMethod] of [net/http]. *)
Definition validMethod (method : string) : bool :=
  (0 <? String.length method)%nat && forallb isTokenByte (String.list_ascii_of_string method).

(** [strings.LastIndex s (String c "")], with [None] for -1. *)
Fixpoint LastIndexByte_from (i : nat) (s : string) (c : ascii) : option nat :=
  match s with
  | EmptyString => None
  | String a s' =>
      match LastIndexByte_from (S i) s' c with
      | Some j => Some j
      | None => if Ascii.eqb a c then Some i else None
      end
  end.
Definition LastIndexByte (s : string) (c : ascii) : option nat :=
  LastIndexByte_from 0 s c.

(** [hasPort] of [net/http]: the last colon comes after the last closing
    bracket. *)
Definition hasPort (s : string) : bool :=
  match LastIndexByte s ":"%char, LastIndexByte s "]"%char with
  | Some i, Some j => (j <? i)%nat
  | Some _, None => true
  | None, _ => false
  end.

(** [removeEmptyPort] of [net/http]: drops a trailing colon of a host that
    has a port separator. *)
Definition removeEmptyPort (host : string) : string :=
  if hasPort host && bool_decide (last_byte host = Some ":"%char)
  then String.substring 0 (String.length host - 1) host
  else host.

(** [u.Host = h] on a copy of [u]. *)
Definition set_Host (u : URL) (h : string) : URL :=
  {| Scheme := Scheme u; Opaque := Opaque u; User := User u; Host := h;
     Path := Path u; RawPath := RawPath u; OmitHost := OmitHost u;
     ForceQuery := ForceQuery u; RawQuery := RawQuery u;
     Fragment := Fragment u; RawFragment := RawFragment u |}.

(** [bodyAllowedForStatus] of [net/http]. *)
Definition bodyAllowedForStatus (status : Z) : bool :=
  negb ((100 <=? status) && (status <=? 199) || (status =? 204) || (status =? 304))%Z.

(** An informational status: [w.WriteHeader] sends it at once and leaves the
    status of the response open. *)
Definition informational (status : Z) : bool :=
  ((100 <=? status) && (status <=? 199) && negb (status =? 101))%Z.

(** A status that [w.WriteHeader] fixes as the status of the response. *)
Definition final_status (status : Z) : bool :=
  ((status =? 101) || (200 <=? status) && (status <=? 999))%Z.

(** [len(data) == 0] for what is handed to [w.Write]. *)
Definition payload_empty (p : Payload) : bool :=
  match p with
  | Bytes data => String.eqb data ""
  | _ => false
  end.

(** The state of an [http.ResponseWriter]: the header map handlers edit, the
    status line and header once sent, and what was written after them. *)
Record ResponseWriter := {
  rw_header : http_Header;
  rw_sent : option (Z * http_Header);
  rw_body : list Payload;
}.

Definition rw_init : ResponseWriter :=
  {| rw_header := ∅; rw_sent := None; rw_body := [] |}.

Section Http.
Context `{GoLib}.

(** [Header.Set]. *)
Definition Header_Set (h : http_Header) (key value : string) : http_Header :=
  <[CanonicalMIMEHeaderKey key := [value]]> h.

(** [Header.Add]. *)
Definition Header_Add (h : http_Header) (key value : string) : http_Header :=
  let k := CanonicalMIMEHeaderKey key in
  <[k := default [] (h !! k) ++ [value]]> h.

(** [http.NewRequest]. *)
Definition http_NewRequest (method url : string) (body : option string)
  : result Request.t :=
  let method := if String.eqb method "" then "GET" else method in
  if negb (validMethod method) then
    Err ("net/http: invalid method " +:+ dquote +:+ method +:+ dquote)
  else
    match url_Parse url with
    | Err err => Err err
    | Ok u =>
        Ok {| Request.Method := method;
              Request.URL := set_Host u (removeEmptyPort (Host u));
              Request.Header := ∅;
              Request.Body := Ok <$> body |}
    end.

(** [w.WriteHeader]: the first call with a status that is not informational
    sends the status and the header map as it is then; later calls are
    ignored. (On a status outside 100 to 999 the library panics; the
    theorems on relayed statuses take a final status.) *)
Definition rw_WriteHeader (w : ResponseWriter) (statusCode : Z) : ResponseWriter :=
  match rw_sent w with
  | Some _ => w
  | None =>
      if informational statusCode then w
      else
        {| rw_header := rw_header w;
           rw_sent := Some (statusCode, rw_header w);
           rw_body := rw_body w |}
  end.

(** The effect of one event on the response writer. [w.Write] before any
    [w.WriteHeader] sends status 200 first; it writes nothing when it is
    given no data, or when the status allows no body. *)
Definition rw_step (w : ResponseWriter) (e : Event) : ResponseWriter :=
  match e with
  | HeaderSet k v =>
      {| rw_header := Header_Set (rw_header w) k v;
         rw_sent := rw_sent w; rw_body := rw_body w |}
  | HeaderAdd k v =>
      {| rw_header := Header_Add (rw_header w) k v;
         rw_sent := rw_sent w; rw_body := rw_body w |}
  | WriteHeader c => rw_WriteHeader w c
  | Write p =>
      let w' := rw_WriteHeader w StatusOK in
      let allowed :=
        match rw_sent w' with
        | Some (status, _) => bodyAllowedForStatus status
        | None => true
        end in
      if payload_empty p || negb allowed then w'
      else {| rw_header := rw_header w'; rw_sent := rw_sent w';
              rw_body := rw_body w' ++ [p] |}
  | Log _ _ | Get _ | Do _ => w
  end.

(** The response writer after a handler ran. *)
Definition rw_run (evs : list Event) : ResponseWriter := foldl rw_step rw_init evs.

(** What the client receives. *)
Definition client_status (evs : list Event) : option Z := fst <$> rw_sent (rw_run evs).
Definition client_header (evs : list Event) : option http_Header :=
  snd <$> rw_sent (rw_run evs).
Definition client_body (evs : list Event) : list Payload := rw_body (rw_run evs).

(** The outbound calls of a handler, in order. *)
Definition is_outbound (e : Event) : bool :=
  match e with Get _ | Do _ => true | _ => false end.
Definition outbound (evs : list Event) : list Event := List.filter is_outbound evs.

(** What went to the server log. *)
Definition logged (evs : list Event) : list string :=
  omap (λ e, match e with Log _ msg => Some msg | _ => None end) evs.

(** [http.Error]. *)
Definition http_Error (error : string) (code : Z) : list Event :=
  [ HeaderSet "Content-Type" "text/plain; charset=utf-8";
    HeaderSet "X-Content-Type-Options" "nosniff";
    WriteHeader code;
    Write (Bytes (error +:+ String (ascii_of_nat 10) "")) ].

End Http.

(** ** The handlers *)

Definition httpPathRoot : string := "/".
Definition httpPathIndexHTML : string := "/index.html".
Definition httpPathSwaggerSpecs : string := "/swagger-specs".
Definition httpPathAPI : string := "/api/".
Definition httpPathProxy : string := "/proxy/".
Definition queryParamProxyURL : string := "proxyUrl".

Definition headerContentType : string := "Content-Type".
Definition headerAccessControlAllowOrigin : string := "Access-Control-Allow-Origin".
Definition headerAccessControlAllowMethods : string := "Access-Control-Allow-Methods".
Definition headerAccessControlAllowHeaders : string := "Access-Control-Allow-Headers".
Definition headerAccessControlExposeHeaders : string := "Access-Control-Expose-Headers".
Definition contentTypeJSON : string := "application/json".
Definition corsAllowOriginAll : string := "*".
Definition corsAllowMethodsDefault : string := "GET, POST, OPTIONS".
Definition corsAllowHeadersDefault : string := "Content-Type, Authorization".
Definition corsExposeHeadersDefault : string := "Content-Length".

Definition errMsgFailedToEncodeSpecs : string := "Failed to encode specs".
Definition errMsgAPINotFound : string := "API not found".
Definition errMsgFailedToFetchSpec (err : error) : string :=
  "Failed to fetch spec: " +:+ err.
Definition errMsgFailedToFetchSpecStatus (status : Z) : string :=
  "Failed to fetch spec, status: " +:+ pretty status.
Definition errMsgFailedToParseMetaURL (err : error) : string :=
  "Failed to parse metadata URL: " +:+ err.
Definition errMsgFailedToDecodeOpenAPISpec (err : error) : string :=
  "Failed to decode OpenAPI spec: " +:+ err.
Definition errMsgProxyURLRequired : string :=
  "proxyUrl query parameter is required for all requests".
Definition errMsgFailedToCreateProxyReq (err : error) : string :=
  "Failed to create proxy request: " +:+ err.
Definition errMsgFailedToForwardProxyReq (err : error) : string :=
  "Failed to forward request: " +:+ err.

(** [stripBasePath]. *)
Definition stripBasePath (s : Server) (path : string) : string :=
  if negb (String.eqb (basePath s) "") && HasPrefix path (basePath s)
  then TrimPrefix path (basePath s)
  else path.

(** [logAndSendError]. *)
Definition logAndSendError (r : Request.t) (statusCode : Z)
    (internalFullLogMsg userMsg : string) : list Event :=
  Log ErrorLevel ("[" +:+ Request.Method r +:+ " " +:+ Path (Request.URL r)
                  +:+ "] HTTP " +:+ pretty statusCode +:+ " - " +:+ internalFullLogMsg)
  :: http_Error userMsg statusCode.

(** The entries of a header map in the order a [range] loop visits them. Go
    leaves that order unspecified; the results below do not depend on it. *)
Definition Header_range (h : http_Header) : list (string * list string) :=
  map_to_list h.

Section Handlers.
Context `{GoLib}.

(** The network: [http.Get] and [Client.Do]. *)
Variable http_Get : string -> result Response.t.
Variable client_Do : Request.t -> result Response.t.

(** The handlers of the embedded static assets, outside the core. *)
Variable serveIndex serveStaticFiles : Server -> Request.t -> list Event.

(** [serveSpecs]. *)
Definition serveSpecs (s : Server) (r : Request.t) : list Event :=
  [ HeaderSet headerContentType contentTypeJSON; Write (JSONSpecs (specs s)) ].

(** [serveIndividualSpec]. The development-mode block of the source is
    empty, and encoding a decoded document does not fail. *)
Definition serveIndividualSpec (s : Server) (r : Request.t) : list Event :=
  let apiName := TrimPrefix (Path (Request.URL r)) httpPathAPI in
  match specs s !! apiName with
  | None =>
      logAndSendError r StatusNotFound
        (errMsgAPINotFound +:+ ": " +:+ apiName) errMsgAPINotFound
  | Some metadata =>
      let urlStr := APIMetadata.URL metadata in
      Get urlStr ::
      match http_Get urlStr with
      | Err err =>
          logAndSendError r StatusInternalServerError
            (errMsgFailedToFetchSpec err) (errMsgFailedToFetchSpec err)
      | Ok resp =>
          if negb (Response.StatusCode resp =? StatusOK)%Z then
            logAndSendError r (Response.StatusCode resp)
              (errMsgFailedToFetchSpecStatus (Response.StatusCode resp))
              (errMsgFailedToFetchSpecStatus (Response.StatusCode resp))
          else
            match url_Parse (APIMetadata.URL metadata) with
            | Err err =>
                logAndSendError r StatusInternalServerError
                  (errMsgFailedToParseMetaURL err) (errMsgFailedToParseMetaURL err)
            | Ok metadataURL =>
                match json_Decode (Response.Body resp) with
                | Err err =>
                    logAndSendError r StatusInternalServerError
                      (errMsgFailedToDecodeOpenAPISpec err)
                      (errMsgFailedToDecodeOpenAPISpec err)
                | Ok spec =>
                    [ Log DebugLevel ("Updating server info for spec: " +:+ apiName);
                      HeaderSet headerContentType contentTypeJSON;
                      Write (JSONDoc (updateSpecServerInfo spec metadataURL)) ]
                end
            end
      end
  end.

(** [proxyRequest]: the header of the outbound request, built by
    [Header.Add] for every value of every inbound header. *)
Definition proxy_copy_header (entries : list (string * list string))
    (dst : http_Header) : http_Header :=
  foldl (λ h '(name, values), foldl (λ h value, Header_Add h name value) h values)
    dst entries.

(** [proxyRequest]: the [w.Header().Add] calls relaying the upstream
    response header. *)
Definition proxy_relay_header (entries : list (string * list string)) : list Event :=
  flat_map (λ '(name, values), map (HeaderAdd name) values) entries.

(** [r.Header = h] on a copy of [r]. *)
Definition set_Header (r : Request.t) (h : http_Header) : Request.t :=
  {| Request.Method := Request.Method r; Request.URL := Request.URL r;
     Request.Header := h; Request.Body := Request.Body r |}.

(** [proxyRequest]. The development-mode block of the source is empty. *)
Definition proxyRequest (s : Server) (r : Request.t) : list Event :=
  let targetProxyURL := Values_Get (URL_Query (Request.URL r)) queryParamProxyURL in
  if String.eqb targetProxyURL "" then
    logAndSendError r StatusBadRequest errMsgProxyURLRequired errMsgProxyURLRequired
  else
    let finalTargetURL := targetProxyURL in
    Log DebugLevel ("Proxying request for " +:+ Path (Request.URL r)
                    +:+ " to " +:+ finalTargetURL) ::
    let body :=
      match Request.Body r with
      | None => Ok None
      | Some (Ok bodyBytes) => Ok (Some bodyBytes)
      | Some (Err err) => Err err
      end in
    match body with
    | Err err =>
        logAndSendError r StatusInternalServerError
          ("Failed to read request body for proxy: " +:+ err)
          "Failed to read request body"
    | Ok reqBodyReader =>
        match http_NewRequest (Request.Method r) finalTargetURL reqBodyReader with
        | Err err =>
            logAndSendError r StatusInternalServerError
              (errMsgFailedToCreateProxyReq err) (errMsgFailedToCreateProxyReq err)
        | Ok proxyReq =>
            let proxyReq :=
              set_Header proxyReq
                (proxy_copy_header (Header_range (Request.Header r))
                   (Request.Header proxyReq)) in
            Do proxyReq ::
            match client_Do proxyReq with
            | Err err =>
                Log ErrorLevel ("Error forwarding proxy request: " +:+ err) ::
                logAndSendError r StatusInternalServerError
                  (errMsgFailedToForwardProxyReq err) (errMsgFailedToForwardProxyReq err)
            | Ok resp =>
                proxy_relay_header (Header_range (Response.Header resp))
                ++ [ WriteHeader (Response.StatusCode resp);
                     Write (Bytes (Response.Body resp)) ]
            end
        end
    end.

(** [ServeHTTP]. *)
Definition ServeHTTP (s : Server) (r : Request.t) : list Event :=
  [ HeaderSet headerAccessControlAllowOrigin corsAllowOriginAll;
    HeaderSet headerAccessControlAllowMethods corsAllowMethodsDefault;
    HeaderSet headerAccessControlAllowHeaders corsAllowHeadersDefault;
    HeaderSet headerAccessControlExposeHeaders corsExposeHeadersDefault ]
  ++
  if String.eqb (Request.Method r) MethodOptions then [ WriteHeader StatusOK ]
  else
    let path := stripBasePath s (Path (Request.URL r)) in
    Log DebugLevel ("Handling request: " +:+ Request.Method r +:+ " " +:+ path) ::
    if String.eqb path httpPathRoot || String.eqb path httpPathIndexHTML then
      serveIndex s r
    else if String.eqb path httpPathSwaggerSpecs then serveSpecs s r
    else if HasPrefix path httpPathAPI then serveIndividualSpec s r
    else if HasPrefix path httpPathProxy then proxyRequest s r
    else serveStaticFiles s r.

End Handlers.

(** ** The handlers of the embedded assets *)

Definition swaggerUIEmbedRoot : string := "swagger-ui".
Definition swaggerUIIndexHTML : string := "index.html".
Definition swaggerUIAssetsSubDir : string := "assets".

Definition headerCacheControl : string := "Cache-Control".
Definition contentTypeHTML : string := "text/html".
Definition contentTypeCSS : string := "text/css".
Definition contentTypeJS : string := "application/javascript".
Definition contentTypePNG : string := "image/png".
Definition contentTypeOctetStream : string := "application/octet-stream".
Definition cacheControlPublicMaxAge3600 : string := "public, max-age=3600".

Definition errMsgFailedToReadIndexHTML : string := "Failed to read index.html".
Definition errMsgStaticFileNotFound : string := "Static file not found".

(** [s[i:]]. *)
Definition string_drop (i : nat) (s : string) : string :=
  String.substring i (String.length s - i) s.

(** [strings.HasSuffix s suffix]. *)
Definition HasSuffix (s suffix : string) : bool :=
  (String.length suffix <=? String.length s)%nat
  && String.eqb (string_drop (String.length s - String.length suffix) s) suffix.

(** [strings.Replace s old new 1]: the first occurrence of [old] replaced by
    [new]; an empty [old] matches at the start. *)
Fixpoint Replace1 (s old new : string) : string :=
  if HasPrefix s old then new +:+ string_drop (String.length old) s
  else
    match s with
    | EmptyString => EmptyString
    | String c s' => String c (Replace1 s' old new)
    end.

(** [getContentType]. *)
Definition getContentType (path : string) : string :=
  if HasSuffix path ".css" then contentTypeCSS
  else if HasSuffix path ".js" then contentTypeJS
  else if HasSuffix path ".png" then contentTypePNG
  else if HasSuffix path ".html" then contentTypeHTML
  else contentTypeOctetStream.

(** The meta tag [serveIndex] adds for a base path. *)
Definition base_path_meta_tag (basePath : string) : string :=
  "<meta name=" +:+ dquote +:+ "base-path" +:+ dquote +:+ " content=" +:+ dquote
  +:+ basePath +:+ dquote +:+ ">".

Section Assets.

(** The embedded file system [swaggerUI] and [filepath.Join]. *)
Variable swaggerUI_ReadFile : string -> result string.
Variable filepath_Join : list string -> string.

(** [serveIndex]. Writing to the client does not fail. *)
Definition serveIndex (s : Server) (r : Request.t) : list Event :=
  let indexFile := filepath_Join [swaggerUIEmbedRoot; swaggerUIIndexHTML] in
  Log DebugLevel ("Serving embedded file: " +:+ indexFile) ::
  match swaggerUI_ReadFile indexFile with
  | Err err =>
      logAndSendError r StatusInternalServerError
        ("Failed to serve embedded file " +:+ indexFile +:+ ": " +:+ err)
        errMsgFailedToReadIndexHTML
  | Ok indexContent =>
      let htmlContent := indexContent in
      (if negb (String.eqb (basePath s) "") then
         let metaTag := base_path_meta_tag (basePath s) in
         let htmlContent := Replace1 htmlContent "</head>" (metaTag +:+ "</head>") in
         [ Log DebugLevel ("Added base path meta tag: " +:+ basePath s);
           HeaderSet headerContentType contentTypeHTML;
           Write (Bytes htmlContent) ]
       else
         [ HeaderSet headerContentType contentTypeHTML;
           Write (Bytes htmlContent) ])
  end.

(** [serveStaticFiles]: what is sent for a file that was found. *)
Definition serveStaticFiles_found (relativePath content : string) : list Event :=
  let contentType := getContentType relativePath in
  [ HeaderSet headerContentType contentType;
    HeaderSet headerCacheControl cacheControlPublicMaxAge3600;
    Log DebugLevel ("Serving file: " +:+ relativePath +:+ ", Content-Type: " +:+ contentType);
    Write (Bytes content) ].

(** [serveStaticFiles]. Writing to the client does not fail. *)
Definition serveStaticFiles (s : Server) (r : Request.t) : list Event :=
  let relativePath := stripBasePath s (Path (Request.URL r)) in
  let filePathInEmbed :=
    filepath_Join [swaggerUIEmbedRoot; swaggerUIAssetsSubDir; relativePath] in
  match swaggerUI_ReadFile filePathInEmbed with
  | Ok content => serveStaticFiles_found relativePath content
  | Err _ =>
      let filePathInEmbed := filepath_Join [swaggerUIEmbedRoot; relativePath] in
      match swaggerUI_ReadFile filePathInEmbed with
      | Ok content => serveStaticFiles_found relativePath content
      | Err err =>
          logAndSendError r StatusNotFound
            (errMsgStaticFileNotFound +:+ ": " +:+ relativePath) errMsgStaticFileNotFound
      end
  end.

End Assets.

(** The server with its own handlers of the embedded assets: [ServeHTTP] as
    the source has it. *)
Definition Server_ServeHTTP `{GoLib} (http_Get : string -> result Response.t)
    (client_Do : Request.t -> result Response.t)
    (swaggerUI_ReadFile : string -> result string)
    (filepath_Join : list string -> string) : Server -> Request.t -> list Event :=
  ServeHTTP http_Get client_Do
    (serveIndex swaggerUI_ReadFile filepath_Join)
    (serveStaticFiles swaggerUI_ReadFile filepath_Join).

(** ** Start-up and the polling loop *)

Definition envVarSwaggerBasePath : string := "SWAGGER_BASE_PATH".
Definition envVarDevMode : string := "DEV_MODE".
Definition devModeTrue : string := "true".

(** [os.Getenv] on an environment. *)
Definition os_Getenv (env : gmap string string) (key : string) : string :=
  default "" (env !! key).

(** [NewServer]: the server, and what its logger is told. *)
Definition NewServer (env : gmap string string) : Server * list Event :=
  ({| specs := ∅; basePath := os_Getenv env envVarSwaggerBasePath |},
   if String.eqb (os_Getenv env envVarDevMode) devModeTrue
   then [Log DebugLevel "DEV_MODE enabled, setting log level to DEBUG"] else []).

(** One round of the loop of [watchSpecsConfigMap], on what [loadSpecs]
    returned; the pause between rounds has no effect on the state. *)
Definition watchSpecsConfigMap_round (namespace configMapName : string)
    (s : Server) (loaded : list APIMetadata.t) : Server * list Event :=
  let attempt :=
    Log InfoLevel ("Attempting to load API specs from ConfigMap '" +:+ configMapName
                   +:+ "' in namespace '" +:+ namespace +:+ "'") in
  let specs := loaded in
  if (0 <? length specs)%nat then
    let (s', log) := UpdateSpecs s specs in
    (s', attempt
         :: Log InfoLevel ("Successfully loaded " +:+ pretty (length specs)
                           +:+ " API spec(s). Updating server...")
         :: log)
  else
    (s, [ attempt;
          Log WarnLevel "No API specs loaded or an error occurred. Server not updated." ]).

(** The loop of [watchSpecsConfigMap] over the results of successive calls
    of [loadSpecs]. *)
Definition watchSpecsConfigMap (namespace configMapName : string)
    (s : Server) (polls : list (list APIMetadata.t)) : Server * list Event :=
  foldl (λ acc loaded,
           let (s', log) := watchSpecsConfigMap_round namespace configMapName acc.1 loaded in
           (s', acc.2 ++ log))
    (s, []) polls.

(** ** A reference implementation of the library interface

    [RefLib] follows [net/url], [net/textproto] and [encoding/json] of the Go
    release the server is built with, on the fragment the examples need:
    authorities without user information and without bracketed or
    percent-escaped hosts, and JSON texts whose numbers are unsigned
    integers and whose strings carry no escapes. Inputs outside the fragment
    are reported as errors. It serves to run the server on concrete inputs;
    no general theorem depends on it. *)

Module RefLib.

(** [strings.Cut s (String sep "")]. *)
Fixpoint Cut (s : string) (sep : ascii) : string * string * bool :=
  match s with
  | EmptyString => ("", "", false)
  | String c s' =>
      if Ascii.eqb c sep then ("", s', true)
      else let '(before, after, found) := Cut s' sep in (String c before, after, found)
  end.

(** [strings.Split s (String sep "")]. *)
Fixpoint Split (s : string) (sep : ascii) : list string :=
  match s with
  | EmptyString => [""]
  | String c s' =>
      if Ascii.eqb c sep then "" :: Split s' sep
      else match Split s' sep with
           | x :: xs => String c x :: xs
           | [] => [String c ""]
           end
  end.

Definition Contains (s : string) (c : ascii) : bool :=
  existsb (Ascii.eqb c) (String.list_ascii_of_string s).

Definition byte_in (lo hi : nat) (c : ascii) : bool :=
  ((lo <=? nat_of_ascii c) && (nat_of_ascii c <=? hi))%nat.
Definition isLower := byte_in 97 122.
Definition isUpper := byte_in 65 90.
Definition isDigit := byte_in 48 57.
Definition isAlpha (c : ascii) : bool := isLower c || isUpper c.

Definition toLowerByte (c : ascii) : ascii :=
  if isUpper c then ascii_of_nat (nat_of_ascii c + 32) else c.
Definition toUpperByte (c : ascii) : ascii :=
  if isLower c then ascii_of_nat (nat_of_ascii c - 32) else c.

Fixpoint map_bytes (f : ascii -> ascii) (s : string) : string :=
  match s with
  | EmptyString => EmptyString
  | String c s' => String (f c) (map_bytes f s')
  end.

(** [strings.ToLower], on ASCII. *)
Definition ToLower : string -> string := map_bytes toLowerByte.

(** [stringContainsCTLByte]. *)
Definition stringContainsCTLByte (s : string) : bool :=
  existsb (λ c, (nat_of_ascii c <? 32)%nat || (nat_of_ascii c =? 127)%nat)
    (String.list_ascii_of_string s).

(** [getScheme]: the scheme and the rest, or an error. [seen] is the part
    of the URL already scanned, [i = len(seen)]. *)
Fixpoint getScheme_from (seen rest rawURL : string) : result (string * string) :=
  match rest with
  | EmptyString => Ok ("", rawURL)
  | String c rest' =>
      if isAlpha c then getScheme_from (seen +:+ String c "") rest' rawURL
      else if isDigit c || Ascii.eqb c "+" || Ascii.eqb c "-" || Ascii.eqb c "." then
        if String.eqb seen "" then Ok ("", rawURL)
        else getScheme_from (seen +:+ String c "") rest' rawURL
      else if Ascii.eqb c ":" then
        if String.eqb seen "" then Err "missing protocol scheme"
        else Ok (seen, rest')
      else Ok ("", rawURL)
  end.
Definition getScheme (rawURL : string) : result (string * string) :=
  getScheme_from "" rawURL rawURL.

(** The escaping modes of [net/url] that the fragment uses. *)
Inductive encoding := encodePath | encodeHost | encodeQueryComponent | encodeFragment.

Definition byte_among (set : string) (c : ascii) : bool := Contains set c.

(** [shouldEscape]. *)
Definition shouldEscape (c : ascii) (mode : encoding) : bool :=
  if isAlpha c || isDigit c then false
  else if match mode with encodeHost => true | _ => false end
          && (byte_among "!$&'()*+,;=:[]<>" c || Ascii.eqb c (ascii_of_nat 34))
  then false
  else if byte_among "-_.~" c then false
  else if byte_among "$&+,/:;=?@" c then
    match mode with
    | encodePath => Ascii.eqb c "?"
    | encodeQueryComponent => true
    | encodeFragment => false
    | encodeHost => true
    end
  else if match mode with encodeFragment => true | _ => false end
          && byte_among "!()*" c
  then false
  else true.

Definition upperhex : string := "0123456789ABCDEF".

Definition hex_digit (n : nat) : ascii :=
  default "0"%char (String.get n upperhex).

(** [ishex] and [unhex]. *)
Definition unhex (c : ascii) : option nat :=
  if isDigit c then Some (nat_of_ascii c - 48)
  else if byte_in 97 102 c then Some (nat_of_ascii c - 97 + 10)
  else if byte_in 65 70 c then Some (nat_of_ascii c - 65 + 10)
  else None.

(** [escape]. *)
Fixpoint escape (s : string) (mode : encoding) : string :=
  match s with
  | EmptyString => EmptyString
  | String c s' =>
      if shouldEscape c mode then
        if Ascii.eqb c " " && match mode with encodeQueryComponent => true | _ => false end
        then String "+" (escape s' mode)
        else String "%" (String (hex_digit (nat_of_ascii c / 16))
               (String (hex_digit (nat_of_ascii c mod 16)) (escape s' mode)))
      else String c (escape s' mode)
  end.

(** [unescape], for the path, query-component and fragment modes. *)
Fixpoint unescape (s : string) (mode : encoding) : result string :=
  match s with
  | EmptyString => Ok EmptyString
  | String c s' =>
      if Ascii.eqb c "%" then
        match s' with
        | String h (String l s'') =>
            match unhex h, unhex l, unescape s'' mode with
            | Some a, Some b, Ok t => Ok (String (ascii_of_nat (a * 16 + b)) t)
            | Some _, Some _, Err e => Err e
            | _, _, _ =>
                Err ("invalid URL escape " +:+ dquote +:+ String.substring 0 3 s +:+ dquote)
            end
        | _ => Err ("invalid URL escape " +:+ dquote +:+ s +:+ dquote)
        end
      else
        match unescape s' mode with
        | Ok t =>
            if Ascii.eqb c "+" && match mode with encodeQueryComponent => true | _ => false end
            then Ok (String " " t) else Ok (String c t)
        | Err e => Err e
        end
  end.

(** [validEncoded]. *)
Definition validEncoded (s : string) (mode : encoding) : bool :=
  forallb (λ c, byte_among "!$&'()*+,;=:@[]%" c || negb (shouldEscape c mode))
    (String.list_ascii_of_string s).

(** [URL.setPath]. *)
Definition setPath (u : URL) (p : string) : result URL :=
  match unescape p encodePath with
  | Err e => Err e
  | Ok path =>
      let escp := escape path encodePath in
      Ok {| Scheme := Scheme u; Opaque := Opaque u; User := User u; Host := Host u;
            Path := path; RawPath := if String.eqb p escp then "" else p;
            OmitHost := OmitHost u; ForceQuery := ForceQuery u;
            RawQuery := RawQuery u; Fragment := Fragment u;
            RawFragment := RawFragment u |}
  end.

(** [URL.setFragment]. *)
Definition setFragment (u : URL) (f : string) : result URL :=
  match unescape f encodeFragment with
  | Err e => Err e
  | Ok frag =>
      let escf := escape frag encodeFragment in
      Ok {| Scheme := Scheme u; Opaque := Opaque u; User := User u; Host := Host u;
            Path := Path u; RawPath := RawPath u;
            OmitHost := OmitHost u; ForceQuery := ForceQuery u;
            RawQuery := RawQuery u; Fragment := frag;
            RawFragment := if String.eqb f escf then "" else f |}
  end.

(** [URL.EscapedPath]. *)
Definition EscapedPath (u : URL) : string :=
  let hint :=
    if negb (String.eqb (RawPath u) "") && validEncoded (RawPath u) encodePath then
      match unescape (RawPath u) encodePath with
      | Ok p => String.eqb p (Path u)
      | Err _ => false
      end
    else false in
  if hint then RawPath u
  else if String.eqb (Path u) "*" then "*"
  else escape (Path u) encodePath.

(** [URL.EscapedFragment]. *)
Definition EscapedFragment (u : URL) : string :=
  let hint :=
    if negb (String.eqb (RawFragment u) "") && validEncoded (RawFragment u) encodeFragment then
      match unescape (RawFragment u) encodeFragment with
      | Ok f => String.eqb f (Fragment u)
      | Err _ => false
      end
    else false in
  if hint then RawFragment u else escape (Fragment u) encodeFragment.

(** [validOptionalPort]. *)
Definition validOptionalPort (port : string) : bool :=
  match port with
  | EmptyString => true
  | String c digits =>
      Ascii.eqb c ":" && forallb isDigit (String.list_ascii_of_string digits)
  end.

(** [strings.Index s (String c "")], with [None] for -1. *)
Fixpoint IndexByte (s : string) (c : ascii) : option nat :=
  match s with
  | EmptyString => None
  | String a s' => if Ascii.eqb a c then Some 0 else S <$> IndexByte s' c
  end.

(** [s[i:]]. *)
Definition from (i : nat) (s : string) : string :=
  String.substring i (String.length s - i) s.

(** [parseHost], on hosts that are not bracketed and carry no escape. *)
Definition parseHost (host : string) : result string :=
  if HasPrefix host "[" || Contains host "%" then
    Err "host outside the reference fragment"
  else
    let port_ok :=
      match LastIndexByte host ":" with
      | Some i => validOptionalPort (from i host)
      | None => true
      end in
    if negb port_ok then
      Err ("invalid port " +:+ dquote
           +:+ from (default 0 (LastIndexByte host ":")) host +:+ dquote
           +:+ " after host")
    else
      match List.find (λ c, (nat_of_ascii c <? 128)%nat && shouldEscape c encodeHost)
              (String.list_ascii_of_string host) with
      | Some c =>
          Err ("invalid character " +:+ dquote +:+ String c "" +:+ dquote
               +:+ " in host name")
      | None => Ok host
      end.

(** [parseAuthority], on authorities without user information. *)
Definition parseAuthority (authority : string) : result (option Userinfo * string) :=
  if Contains authority "@" then Err "user information outside the reference fragment"
  else match parseHost authority with
       | Ok host => Ok (None, host)
       | Err e => Err e
       end.

Definition URL_zero : URL := URL_of_Path "".

(** [strings.Count rest "?"]. *)
Definition Count (s : string) (c : ascii) : nat :=
  length (List.filter (Ascii.eqb c) (String.list_ascii_of_string s)).

(** [parse] with [viaRequest = false]. *)
Definition parse (rawURL : string) : result URL :=
  if stringContainsCTLByte rawURL then
    Err "net/url: invalid control character in URL"
  else if String.eqb rawURL "*" then Ok (URL_of_Path "*")
  else
    match getScheme rawURL with
    | Err e => Err e
    | Ok (scheme, rest) =>
        let scheme := ToLower scheme in
        let '(rest, rawQuery, forceQuery) :=
          if bool_decide (last_byte rest = Some "?"%char) && (Count rest "?" =? 1)%nat
          then (String.substring 0 (String.length rest - 1) rest, "", true)
          else let '(before, after, _) := Cut rest "?" in (before, after, false) in
        let url0 :=
          {| Scheme := scheme; Opaque := ""; User := None; Host := ""; Path := "";
             RawPath := ""; OmitHost := false; ForceQuery := forceQuery;
             RawQuery := rawQuery; Fragment := ""; RawFragment := "" |} in
        if negb (HasPrefix rest "/") && negb (String.eqb scheme "") then
          Ok {| Scheme := scheme; Opaque := rest; User := None; Host := ""; Path := "";
                RawPath := ""; OmitHost := false; ForceQuery := forceQuery;
                RawQuery := rawQuery; Fragment := ""; RawFragment := "" |}
        else if negb (HasPrefix rest "/")
                && Contains (fst (fst (Cut rest "/"))) ":" then
          Err "first path segment in URL cannot contain colon"
        else if (negb (String.eqb scheme "") || negb (HasPrefix rest "///"))
                && HasPrefix rest "//" then
          let authority := from 2 rest in
          let '(authority, rest) :=
            match IndexByte authority "/" with
            | Some i => (String.substring 0 i authority, from i authority)
            | None => (authority, "")
            end in
          match parseAuthority authority with
          | Err e => Err e
          | Ok (user, host) =>
              setPath {| Scheme := scheme; Opaque := ""; User := user; Host := host;
                         Path := ""; RawPath := ""; OmitHost := false;
                         ForceQuery := forceQuery; RawQuery := rawQuery;
                         Fragment := ""; RawFragment := "" |} rest
          end
        else if negb (String.eqb scheme "") && HasPrefix rest "/" then
          setPath {| Scheme := scheme; Opaque := ""; User := None; Host := "";
                     Path := ""; RawPath := ""; OmitHost := true;
                     ForceQuery := forceQuery; RawQuery := rawQuery;
                     Fragment := ""; RawFragment := "" |} rest
        else setPath url0 rest
    end.

(** The text of [url.Error]. *)
Definition parse_error (rawURL : string) (e : error) : error :=
  "parse " +:+ dquote +:+ rawURL +:+ dquote +:+ ": " +:+ e.

(** [url.Parse]. *)
Definition Parse (rawURL : string) : result URL :=
  let '(u, frag, _) := Cut rawURL "#" in
  match parse u with
  | Err e => Err (parse_error u e)
  | Ok url =>
      if String.eqb frag "" then Ok url
      else match setFragment url frag with
           | Ok url => Ok url
           | Err e => Err (parse_error rawURL e)
           end
  end.

(** [resolvePath]: the loop over the segments of [full]; [dst] always
    starts with a slash. *)
Fixpoint resolvePath_loop (elems : list string) (dst : string) (first : bool)
  : string * bool :=
  match elems with
  | [] => (dst, first)
  | elem :: elems' =>
      if String.eqb elem "." then resolvePath_loop elems' dst false
      else if String.eqb elem ".." then
        let str := from 1 dst in
        match LastIndexByte str "/" with
        | None => resolvePath_loop elems' "/" true
        | Some index => resolvePath_loop elems' ("/" +:+ String.substring 0 index str) first
        end
      else
        resolvePath_loop elems'
          ((if first then dst else dst +:+ "/") +:+ elem) false
  end.

(** [resolvePath]. *)
Definition resolvePath (base ref : string) : string :=
  let full :=
    if String.eqb ref "" then base
    else if negb (bool_decide (first_byte ref = Some "/"%char)) then
      match LastIndexByte base "/" with
      | Some i => String.substring 0 (S i) base +:+ ref
      | None => ref
      end
    else ref in
  if String.eqb full "" then ""
  else
    let elems := Split full "/" in
    let '(dst, _) := resolvePath_loop elems "/" true in
    let elem := List.last elems "" in
    let dst := if String.eqb elem "." || String.eqb elem ".." then dst +:+ "/" else dst in
    if (1 <? String.length dst)%nat && bool_decide (String.get 1 dst = Some "/"%char)
    then from 1 dst else dst.

(** [setPath] on a path produced by [resolvePath], whose escapes are
    valid. *)
Definition setPath_valid (u : URL) (p : string) : URL :=
  match setPath u p with
  | Ok u' => u'
  | Err _ => u
  end.

(** [URL.ResolveReference]. *)
Definition ResolveReference (u ref : URL) : URL :=
  let url :=
    {| Scheme := if String.eqb (Scheme ref) "" then Scheme u else Scheme ref;
       Opaque := Opaque ref; User := User ref; Host := Host ref; Path := Path ref;
       RawPath := RawPath ref; OmitHost := OmitHost ref;
       ForceQuery := ForceQuery ref; RawQuery := RawQuery ref;
       Fragment := Fragment ref; RawFragment := RawFragment ref |} in
  if negb (String.eqb (Scheme ref) "") || negb (String.eqb (Host ref) "")
     || bool_decide (is_Some (User ref)) then
    setPath_valid url (resolvePath (EscapedPath ref) "")
  else if negb (String.eqb (Opaque ref) "") then
    {| Scheme := Scheme url; Opaque := Opaque url; User := None; Host := "";
       Path := ""; RawPath := RawPath url; OmitHost := OmitHost url;
       ForceQuery := ForceQuery url; RawQuery := RawQuery url;
       Fragment := Fragment url; RawFragment := RawFragment url |}
  else
    let inherit := String.eqb (Path ref) "" && negb (ForceQuery ref)
                   && String.eqb (RawQuery ref) "" in
    let url :=
      {| Scheme := Scheme url; Opaque := Opaque url; User := User url;
         Host := Host url; Path := Path url; RawPath := RawPath url;
         OmitHost := OmitHost url; ForceQuery := ForceQuery url;
         RawQuery := if inherit then RawQuery u else RawQuery url;
         Fragment := if inherit && String.eqb (Fragment ref) ""
                     then Fragment u else Fragment url;
         RawFragment := if inherit && String.eqb (Fragment ref) ""
                        then RawFragment u else RawFragment url |} in
    if String.eqb (Path ref) "" && negb (String.eqb (Opaque u) "") then
      {| Scheme := Scheme url; Opaque := Opaque u; User := None; Host := "";
         Path := ""; RawPath := RawPath url; OmitHost := OmitHost url;
         ForceQuery := ForceQuery url; RawQuery := RawQuery url;
         Fragment := Fragment url; RawFragment := RawFragment url |}
    else
      setPath_valid
        {| Scheme := Scheme url; Opaque := Opaque url; User := User u;
           Host := Host u; Path := Path url; RawPath := RawPath url;
           OmitHost := OmitHost url; ForceQuery := ForceQuery url;
           RawQuery := RawQuery url; Fragment := Fragment url;
           RawFragment := RawFragment url |}
        (resolvePath (EscapedPath u) (EscapedPath ref)).

(** [Userinfo.String], for user information without reserved bytes. *)
Definition Userinfo_String (ui : Userinfo) : string :=
  username ui +:+ match password ui with Some p => ":" +:+ p | None => "" end.

(** [URL.String]. *)
Definition String_ (u : URL) : string :=
  let buf := if negb (String.eqb (Scheme u) "") then Scheme u +:+ ":" else "" in
  let buf :=
    if negb (String.eqb (Opaque u) "") then buf +:+ Opaque u
    else
      let buf :=
        if negb (String.eqb (Scheme u) "") || negb (String.eqb (Host u) "")
           || bool_decide (is_Some (User u)) then
          if OmitHost u && String.eqb (Host u) "" && bool_decide (User u = None)
          then buf
          else
            let buf :=
              if negb (String.eqb (Host u) "") || negb (String.eqb (Path u) "")
                 || bool_decide (is_Some (User u))
              then buf +:+ "//" else buf in
            let buf :=
              match User u with
              | Some ui => buf +:+ Userinfo_String ui +:+ "@"
              | None => buf
              end in
            if negb (String.eqb (Host u) "") then buf +:+ escape (Host u) encodeHost
            else buf
        else buf in
      let path := EscapedPath u in
      let buf :=
        if negb (String.eqb path "")
           && negb (bool_decide (first_byte path = Some "/"%char))
           && negb (String.eqb (Host u) "")
        then buf +:+ "/" else buf in
      let buf :=
        if String.eqb buf "" && Contains (fst (fst (Cut path "/"))) ":"
        then buf +:+ "./" else buf in
      buf +:+ path in
  let buf :=
    if ForceQuery u || negb (String.eqb (RawQuery u) "")
    then buf +:+ "?" +:+ RawQuery u else buf in
  if negb (String.eqb (Fragment u) "") then buf +:+ "#" +:+ EscapedFragment u
  else buf.

(** [parseQuery]: one [key=value] pair; pairs with a semicolon, an empty
    key text or a bad escape are dropped. *)
Definition parseQuery_pair (m : url_Values) (pair : string) : url_Values :=
  if Contains pair ";" then m
  else if String.eqb pair "" then m
  else
    let '(key, value, _) := Cut pair "=" in
    match unescape key encodeQueryComponent, unescape value encodeQueryComponent with
    | Ok key, Ok value => <[key := default [] (m !! key) ++ [value]]> m
    | _, _ => m
    end.

(** [URL.Query]: [ParseQuery] of the raw query, errors dropped. *)
Definition Query (u : URL) : url_Values :=
  foldl parseQuery_pair ∅ (Split (RawQuery u) "&").

(** The letter-case pass of [canonicalMIMEHeaderKey]. *)
Fixpoint canonical_case (upper : bool) (s : string) : string :=
  match s with
  | EmptyString => EmptyString
  | String c s' =>
      let c := if upper then toUpperByte c else toLowerByte c in
      String c (canonical_case (Ascii.eqb c "-") s')
  end.

(** [textproto.CanonicalMIMEHeaderKey]: keys with a byte that is not a
    token byte are left alone. *)
Definition CanonicalMIMEHeaderKey_ (s : string) : string :=
  if forallb isTokenByte (String.list_ascii_of_string s)
  then canonical_case true s else s.

(** *** JSON texts *)

Definition isSpace (c : ascii) : bool :=
  Ascii.eqb c " " || (nat_of_ascii c =? 9)%nat || (nat_of_ascii c =? 10)%nat
  || (nat_of_ascii c =? 13)%nat.

Fixpoint skip_ws (s : string) : string :=
  match s with
  | String c s' => if isSpace c then skip_ws s' else s
  | EmptyString => s
  end.

(** The text of a string literal after its opening quote, up to the
    closing quote; escapes and control bytes are outside the fragment. *)
Fixpoint scan_string (s : string) : option (string * string) :=
  match s with
  | EmptyString => None
  | String c s' =>
      if Ascii.eqb c (ascii_of_nat 34) then Some ("", s')
      else if Ascii.eqb c (ascii_of_nat 92) || (nat_of_ascii c <? 32)%nat then None
      else '(t, rest) ← scan_string s'; Some (String c t, rest)
  end.

(** The digits at the head of [s], as a number. *)
Fixpoint scan_digits (acc : Z) (s : string) : Z * string :=
  match s with
  | String c s' =>
      if isDigit c then scan_digits (10 * acc + Z.of_nat (nat_of_ascii c - 48)) s'
      else (acc, s)
  | EmptyString => (acc, s)
  end.

(** An unsigned integer below [2^53] as a [float64], exactly. *)
Fixpoint float_of_positive (p : positive) : float :=
  match p with
  | xH => 1%float
  | xO p' => PrimFloat.mul 2%float (float_of_positive p')
  | xI p' => PrimFloat.add (PrimFloat.mul 2%float (float_of_positive p')) 1%float
  end.
Definition float_of_Z (n : Z) : option float :=
  match n with
  | Z0 => Some 0%float
  | Zpos p => if (n <? 2 ^ 53)%Z then Some (float_of_positive p) else None
  | Zneg _ => None
  end.

(** One JSON value at the head of [s], and the rest of the text. *)
Fixpoint scan_value (fuel : nat) (s : string) : option (json * string) :=
  match fuel with
  | O => None
  | S fuel =>
      match skip_ws s with
      | String c rest =>
          if Ascii.eqb c "{" then
            match skip_ws rest with
            | String "}" rest' => Some (JObject ∅, rest')
            | _ => '(m, rest') ← scan_members fuel rest ∅; Some (JObject m, rest')
            end
          else if Ascii.eqb c "[" then
            match skip_ws rest with
            | String "]" rest' => Some (JArray [], rest')
            | _ => '(l, rest') ← scan_elements fuel rest []; Some (JArray l, rest')
            end
          else if Ascii.eqb c (ascii_of_nat 34) then
            '(t, rest') ← scan_string rest; Some (JString t, rest')
          else if isDigit c then
            let '(n, rest') := scan_digits 0 (String c rest) in
            f ← float_of_Z n; Some (JNumber f, rest')
          else if HasPrefix (String c rest) "true" then Some (JBool true, from 4 (String c rest))
          else if HasPrefix (String c rest) "false" then Some (JBool false, from 5 (String c rest))
          else if HasPrefix (String c rest) "null" then Some (JNull, from 4 (String c rest))
          else None
      | EmptyString => None
      end
  end
with scan_elements (fuel : nat) (s : string) (acc : list json)
  : option (list json * string) :=
  match fuel with
  | O => None
  | S fuel =>
      '(v, rest) ← scan_value fuel s;
      match skip_ws rest with
      | String "," rest' => scan_elements fuel rest' (acc ++ [v])
      | String "]" rest' => Some (acc ++ [v], rest')
      | _ => None
      end
  end
with scan_members (fuel : nat) (s : string) (acc : gmap string json)
  : option (gmap string json * string) :=
  match fuel with
  | O => None
  | S fuel =>
      match skip_ws s with
      | String c rest =>
          if Ascii.eqb c (ascii_of_nat 34) then
            '(key, rest) ← scan_string rest;
            match skip_ws rest with
            | String ":" rest =>
                '(v, rest) ← scan_value fuel rest;
                match skip_ws rest with
                | String "," rest' => scan_members fuel rest' (<[key := v]> acc)
                | String "}" rest' => Some (<[key := v]> acc, rest')
                | _ => None
                end
            | _ => None
            end
          else None
      | EmptyString => None
      end
  end.

(** [Decoder.Decode] into a [map[string]interface{}]: the first value of
    the text; [null] leaves the map empty. *)
Definition Decode (body : string) : result (gmap string json) :=
  match scan_value (S (String.length body)) body with
  | Some (JObject m, _) => Ok m
  | Some (JNull, _) => Ok ∅
  | Some (_, _) =>
      Err "json: cannot unmarshal value into Go value of type map[string]interface {}"
  | None => Err "invalid JSON text"
  end.

(** The reference implementation of the interface. *)
Definition lib : GoLib :=
  {| url_Parse := Parse;
     URL_ResolveReference := ResolveReference;
     URL_String := String_;
     URL_Query := Query;
     CanonicalMIMEHeaderKey := CanonicalMIMEHeaderKey_;
     json_Decode := Decode |}.

End RefLib.

(** ** The vocabulary of the specification *)

(** The OpenAPI 3.x marker: a top-level string field [openapi] whose value
    starts with [3.]. *)
Definition isOpenAPI3 (spec : gmap string json) : bool :=
  match asString (spec !! "openapi") with
  | Some v => HasPrefix v "3."
  | None => false
  end.

(** The Swagger 2.0 marker: a top-level [swagger] field equal to [2.0]. *)
Definition isSwagger2 (spec : gmap string json) : bool :=
  match asString (spec !! "swagger") with
  | Some v => String.eqb v "2.0"
  | None => false
  end.

(** The entries of the [servers] array of a document; none when the field is
    absent or not an array. *)
Definition original_servers (spec : gmap string json) : list json :=
  default [] (asArray (spec !! "servers")).

(** The url of the first server, when [servers] is a non-empty array whose
    first entry is an object with a string [url]. *)
Definition first_server_url (spec : gmap string json) : option string :=
  match original_servers spec with
  | JObject first :: _ => asString (first !! "url")
  | _ => None
  end.

(** A path component parses as an absolute URL. *)
Definition parses_absolute `{GoLib} (pathComponent : string) : bool :=
  match url_Parse pathComponent with
  | Ok u => IsAbs u
  | Err _ => false
  end.

(** The base with a path that ends with a slash. *)
Definition with_trailing_slash (base : URL) : URL :=
  if bool_decide (last_byte (Path base) = Some "/"%char) then base
  else set_Path base (Path base +:+ "/").

(** [resolve(base, pathComponent)] as the specification words it, for a
    path component that is neither empty nor an absolute URL. *)
Definition resolve_path `{GoLib} (base : URL) (pathComponent : string) : string :=
  if HasPrefix pathComponent "/" then
    Scheme base +:+ "://" +:+ Host base +:+ pathComponent
  else
    URL_String (URL_ResolveReference (with_trailing_slash base) (URL_of_Path pathComponent)).

(** An event touches the status line or the body. *)
Definition is_write (e : Event) : bool :=
  match e with WriteHeader _ | Write _ => true | _ => false end.

(** A handler answered with a JSON document: it wrote nothing before, set
    the content type and wrote the encoding of the document. *)
Definition returns_document (evs : list Event) (doc : gmap string json) : Prop :=
  exists pre,
    evs = pre ++ [ HeaderSet headerContentType contentTypeJSON; Write (JSONDoc doc) ]
    ∧ existsb is_write pre = false.

(** A handler answered with an error: it wrote nothing before and called
    [http.Error] with a message and a status. *)
Definition returns_error (evs : list Event) (code : Z) (msg : string) : Prop :=
  exists pre, evs = pre ++ http_Error msg code ∧ existsb is_write pre = false.

(** The candidates of a batch that [Replace] accepts under a name, in batch
    order. *)
Definition accepted_as (name : string) (apis : list APIMetadata.t) : list APIMetadata.t :=
  filter (λ api, APIMetadata.Name api = name ∧ APIMetadata.Error api = "") apis.

(** Every key of a header map is in canonical form, as [net/http] delivers
    the header of an inbound request and of an upstream response. *)
Definition canonical_keys `{GoLib} (h : http_Header) : bool :=
  forallb (λ kv, String.eqb (CanonicalMIMEHeaderKey kv.1) kv.1) (map_to_list h).

(** The requests handed to [Client.Do], in order. *)
Definition forwarded (evs : list Event) : list Request.t :=
  omap (λ e, match e with Do req => Some req | _ => None end) evs.

(** ** Further vocabulary *)

(** The document is of neither marked dialect: Swagger 1.2 or unknown. *)
Definition isLegacy (spec : gmap string json) : bool :=
  negb (isOpenAPI3 spec) && negb (isSwagger2 spec).

(** The candidates of a batch that [UpdateSpecs] skips, in batch order. *)
Definition skipped (apis : list APIMetadata.t) : list APIMetadata.t :=
  filter (λ api, APIMetadata.Error api ≠ "") apis.

(** The candidates of a batch that [UpdateSpecs] accepts, in batch order. *)
Definition accepted (apis : list APIMetadata.t) : list APIMetadata.t :=
  filter (λ api, APIMetadata.Error api = "") apis.

(** The polls of the loop that returned at least one candidate. *)
Definition effective_polls (polls : list (list APIMetadata.t)) : list (list APIMetadata.t) :=
  filter (λ loaded, loaded ≠ []) polls.

(** The four headers [ServeHTTP] sets on every response, with their
    values. *)
Definition cors_headers : list (string * string) :=
  [ (headerAccessControlAllowOrigin, corsAllowOriginAll);
    (headerAccessControlAllowMethods, corsAllowMethodsDefault);
    (headerAccessControlAllowHeaders, corsAllowHeadersDefault);
    (headerAccessControlExposeHeaders, corsExposeHeadersDefault) ].

(** The header names the server itself passes to [Header.Set]. *)
Definition server_header_names : list string :=
  cors_headers.*1 ++ [ headerContentType; "X-Content-Type-Options"; headerCacheControl ].

(** The header names of the server are in canonical form, as they are for
    [textproto.CanonicalMIMEHeaderKey]. *)
Definition canonical_names `{GoLib} : bool :=
  forallb (λ k, String.eqb (CanonicalMIMEHeaderKey k) k) server_header_names.

(** A header map carries the four headers, each with the value the server
    set as its first value. *)
Definition carries_cors (h : http_Header) : Prop :=
  Forall (λ kv, exists rest, h !! kv.1 = Some (kv.2 :: rest)) cors_headers.

(** An event that cannot overwrite one of the four headers. *)
Definition cors_safe `{GoLib} (e : Event) : bool :=
  match e with
  | HeaderSet k _ => negb (bool_decide (CanonicalMIMEHeaderKey k ∈ cors_headers.*1))
  | _ => true
  end.

(** The events of a handler other than its log lines. *)
Definition without_log (evs : list Event) : list Event :=
  List.filter (λ e, match e with Log _ _ => false | _ => true end) evs.

(** No value list of a header map is empty, as in every header [net/http]
    builds. *)
Definition no_empty_values (h : http_Header) : bool :=
  forallb (λ kv, negb (bool_decide (kv.2 = []))) (map_to_list h).

(** [old] occurs in [s] at offset [i]. *)
Definition occurs_at (old s : string) (i : nat) : Prop :=
  exists before after, s = before +:+ old +:+ after ∧ String.length before = i.

(** A handler answered with bytes under a content type: it wrote nothing
    before, set the content type and wrote the bytes. *)
Definition returns_bytes (evs : list Event) (contentType content : string) : Prop :=
  exists pre,
    evs = pre ++ [Write (Bytes content)]
    ∧ existsb is_write pre = false
    ∧ In (HeaderSet headerContentType contentType) pre.

(** The four headers are in the header map and in the header that was sent,
    if one was. *)
Definition cors_kept (w : ResponseWriter) : Prop :=
  carries_cors (rw_header w)
  ∧ forall status h, rw_sent w = Some (status, h) -> carries_cors h.


(** The events of [ServeHTTP] before it hands over to a handler. *)
Definition ServeHTTP_prologue (s : Server) (r : Request.t) : list Event :=
  [ HeaderSet headerAccessControlAllowOrigin corsAllowOriginAll;
    HeaderSet headerAccessControlAllowMethods corsAllowMethodsDefault;
    HeaderSet headerAccessControlAllowHeaders corsAllowHeadersDefault;
    HeaderSet headerAccessControlExposeHeaders corsExposeHeadersDefault;
    Log DebugLevel ("Handling request: " +:+ Request.Method r +:+ " "
                    +:+ stripBasePath s (Path (Request.URL r))) ].

(** ** A concrete deployment, to run the server on *)

Module Example.

Definition petstore : APIMetadata.t :=
  {| APIMetadata.Name := "petstore";
     APIMetadata.URL := "http://spec.example/v2/swagger.json";
     APIMetadata.Title := "Pet Store";
     APIMetadata.Version := "1.0.7";
     APIMetadata.Description := "The pet store";
     APIMetadata.ResourceType := "Service";
     APIMetadata.ResourceName := "petstore-svc";
     APIMetadata.Namespace := "default";
     APIMetadata.LastUpdated := "2024-05-01T10:00:00Z";
     APIMetadata.AllowedMethods := ["GET"; "POST"];
     APIMetadata.Error := "" |}.

Definition orders : APIMetadata.t :=
  {| APIMetadata.Name := "orders";
     APIMetadata.URL := "http://orders.example/api/openapi.json";
     APIMetadata.Title := "orders";
     APIMetadata.Version := "";
     APIMetadata.Description := "";
     APIMetadata.ResourceType := "Service";
     APIMetadata.ResourceName := "orders-svc";
     APIMetadata.Namespace := "shop";
     APIMetadata.LastUpdated := "2024-05-01T10:00:00Z";
     APIMetadata.AllowedMethods := [];
     APIMetadata.Error := "" |}.

Definition billing : APIMetadata.t :=
  {| APIMetadata.Name := "billing";
     APIMetadata.URL := "http://billing.example/openapi.json";
     APIMetadata.Title := "billing";
     APIMetadata.Version := "";
     APIMetadata.Description := "";
     APIMetadata.ResourceType := "Service";
     APIMetadata.ResourceName := "billing-svc";
     APIMetadata.Namespace := "shop";
     APIMetadata.LastUpdated := "2024-05-01T10:00:00Z";
     APIMetadata.AllowedMethods := [];
     APIMetadata.Error := "" |}.

Definition broken : APIMetadata.t :=
  {| APIMetadata.Name := "broken";
     APIMetadata.URL := "http://broken.example/openapi.json";
     APIMetadata.Title := "broken";
     APIMetadata.Version := "";
     APIMetadata.Description := "";
     APIMetadata.ResourceType := "Service";
     APIMetadata.ResourceName := "broken-svc";
     APIMetadata.Namespace := "shop";
     APIMetadata.LastUpdated := "2024-05-01T10:00:00Z";
     APIMetadata.AllowedMethods := [];
     APIMetadata.Error := "configmap entry unreadable" |}.

Definition empty_server : Server := {| specs := ∅; basePath := "" |}.

Definition inventory : APIMetadata.t :=
  {| APIMetadata.Name := "inventory";
     APIMetadata.URL := "http://inventory.example/openapi.json";
     APIMetadata.Title := "inventory";
     APIMetadata.Version := "";
     APIMetadata.Description := "";
     APIMetadata.ResourceType := "Service";
     APIMetadata.ResourceName := "inventory-svc";
     APIMetadata.Namespace := "shop";
     APIMetadata.LastUpdated := "2024-05-01T10:00:00Z";
     APIMetadata.AllowedMethods := [];
     APIMetadata.Error := "" |}.

(** The batch the poller delivers, and the server after it. *)
Definition batch : list APIMetadata.t := [petstore; broken; orders; billing; inventory].
Definition server : Server := fst (UpdateSpecs empty_server batch).

Definition q : string := dquote.

(** [{"swagger":"2.0","basePath":"/v2"}] *)
Definition swagger2_body : string :=
  "{" +:+ q +:+ "swagger" +:+ q +:+ ":" +:+ q +:+ "2.0" +:+ q +:+ ","
  +:+ q +:+ "basePath" +:+ q +:+ ":" +:+ q +:+ "/v2" +:+ q +:+ "}".

(** [{"openapi":"3.0.1","servers":[{"url":"v1"},{"url":"https://cdn.example/api"}]}] *)
Definition openapi3_body : string :=
  "{" +:+ q +:+ "openapi" +:+ q +:+ ":" +:+ q +:+ "3.0.1" +:+ q +:+ ","
  +:+ q +:+ "servers" +:+ q +:+ ":[{" +:+ q +:+ "url" +:+ q +:+ ":" +:+ q +:+ "v1" +:+ q
  +:+ "},{" +:+ q +:+ "url" +:+ q +:+ ":" +:+ q +:+ "https://cdn.example/api" +:+ q +:+ "}]}".

(** [{"openapi":"3.1.0","servers":[]}] *)
Definition openapi3_no_servers_body : string :=
  "{" +:+ q +:+ "openapi" +:+ q +:+ ":" +:+ q +:+ "3.1.0" +:+ q +:+ ","
  +:+ q +:+ "servers" +:+ q +:+ ":[]}".

(** The documents these texts decode to. *)
Definition petstore_spec : gmap string json :=
  {[ "swagger" := JString "2.0"; "basePath" := JString "/v2" ]}.
Definition orders_spec : gmap string json :=
  {[ "openapi" := JString "3.0.1";
     "servers" := JArray [ server_entry "v1"; server_entry "https://cdn.example/api" ] ]}.
Definition billing_spec : gmap string json :=
  {[ "openapi" := JString "3.1.0"; "servers" := JArray [] ]}.

Definition petstore_response : Response.t :=
  {| Response.StatusCode := 200; Response.Header := ∅; Response.Body := swagger2_body |}.
Definition orders_response : Response.t :=
  {| Response.StatusCode := 200; Response.Header := ∅; Response.Body := openapi3_body |}.
Definition billing_response : Response.t :=
  {| Response.StatusCode := 201; Response.Header := ∅;
     Response.Body := openapi3_no_servers_body |}.

(** The text of the error of a refused connection. *)
Definition connection_refused (url : string) : error :=
  "Get " +:+ q +:+ url +:+ q +:+ ": dial tcp 10.0.3.7:80: connect: connection refused".

(** The network: the pet store answers 200 with a Swagger 2.0 document,
    the order service 200 with an OpenAPI 3 document, the billing service
    201 with an OpenAPI 3 document, and nothing else is reachable. *)
Definition http_Get (url : string) : result Response.t :=
  if String.eqb url "http://spec.example/v2/swagger.json" then Ok petstore_response
  else if String.eqb url "http://orders.example/api/openapi.json" then Ok orders_response
  else if String.eqb url "http://billing.example/openapi.json" then Ok billing_response
  else Err (connection_refused url).

(** A URL of the form [scheme://host/path?query]. *)
Definition url (scheme host path query : string) : URL :=
  {| Scheme := scheme; Opaque := ""; User := None; Host := host; Path := path;
     RawPath := ""; OmitHost := false; ForceQuery := false; RawQuery := query;
     Fragment := ""; RawFragment := "" |}.

Definition petstore_url : URL := url "http" "spec.example" "/v2/swagger.json" "".
Definition orders_url : URL := url "http" "orders.example" "/api/openapi.json" "".

(** The upstream of the proxy: the order service echoes the request body
    with two cookies; no other host resolves. *)
Definition client_Do (req : Request.t) : result Response.t :=
  if String.eqb (Host (Request.URL req)) "orders.example" then
    Ok {| Response.StatusCode := 202;
          Response.Header :=
            {[ "Set-Cookie" := ["a=1"; "b=2"]; "Content-Type" := ["text/plain"] ]};
          Response.Body :=
            match Request.Body req with
            | Some (Ok b) => b
            | _ => ""
            end |}
  else
    Err ((if String.eqb (Request.Method req) "GET" then "Get " else "Post ")
         +:+ q +:+ RefLib.String_ (Request.URL req) +:+ q
         +:+ ": dial tcp: lookup " +:+ Host (Request.URL req) +:+ ": no such host").

(** The static handlers answer 404 in this deployment. *)
Definition serveStatic (s : Server) (r : Request.t) : list Event :=
  logAndSendError r StatusNotFound "Static file not found" "Static file not found".

(** An inbound request, with the URL given as the request target. *)
Definition request (method target : string) (header : http_Header)
    (body : string) : Request.t :=
  {| Request.Method := method;
     Request.URL := match RefLib.Parse target with
                    | Ok u => u
                    | Err _ => URL_of_Path target
                    end;
     Request.Header := header;
     Request.Body := Some (Ok body) |}.

Definition ServeHTTP : Server -> Request.t -> list Event :=
  @ServeHTTP RefLib.lib http_Get client_Do serveStatic serveStatic.

Definition serveIndividualSpec : Server -> Request.t -> list Event :=
  @serveIndividualSpec RefLib.lib http_Get.

Definition proxyRequest : Server -> Request.t -> list Event :=
  @proxyRequest RefLib.lib client_Do.

(** A call relayed to the order service, and the same call sent through
    another proxy path with other parameters around [proxyUrl]. *)
Definition proxy_header : http_Header :=
  {[ "Accept" := ["text/plain"; "application/json"]; "X-Trace" := ["t1"] ]}.
Definition proxy_request : Request.t :=
  request "POST"
    "/proxy/orders/v1/items?trace=1&proxyUrl=http%3A%2F%2Forders.example%2Fv1%2Forders%3Fpage%3D2"
    proxy_header "id=7".
Definition proxy_request_elsewhere : Request.t :=
  request "POST"
    "/proxy/somewhere/else?proxyUrl=http%3A%2F%2Forders.example%2Fv1%2Forders%3Fpage%3D2&debug=true"
    proxy_header "id=7".
Definition proxy_outbound : Request.t :=
  {| Request.Method := "POST";
     Request.URL := url "http" "orders.example" "/v1/orders" "page=2";
     Request.Header := proxy_header;
     Request.Body := Some (Ok "id=7") |}.
Definition proxy_response : Response.t :=
  {| Response.StatusCode := 202;
     Response.Header :=
       {[ "Set-Cookie" := ["a=1"; "b=2"]; "Content-Type" := ["text/plain"] ]};
     Response.Body := "id=7" |}.

(** A call to the relay that names no target, and one whose target is not
    reachable. *)
Definition proxy_request_no_target : Request.t :=
  request "POST" "/proxy/anything?trace=1" proxy_header "id=7".
Definition proxy_request_unreachable : Request.t :=
  request "GET" "/proxy/x?proxyUrl=http%3A%2F%2Fledger.internal%2Fbalance" ∅ "".

Definition newline : string := String (ascii_of_nat 10) "".

(** A second location of the pet store document: the same scheme and host,
    another path and a query. *)
Definition petstore_mirror_url : URL :=
  url "http" "spec.example" "/mirror/docs/swagger.json" "rev=2".

(** A Swagger 1.2 document. *)
Definition legacy_spec : gmap string json :=
  {[ "swaggerVersion" := JString "1.2"; "basePath" := JString "/v1" ]}.

(** The batch with its first two candidates swapped. *)
Definition batch_swapped : list APIMetadata.t :=
  [broken; petstore; orders; billing; inventory].

(** The server behind an ingress, under the base path [/swagger], before
    and after the batch. *)
Definition ingress_empty_server : Server := {| specs := ∅; basePath := "/swagger" |}.
Definition ingress_server : Server := fst (UpdateSpecs ingress_empty_server batch).

(** A call to the relay whose body cannot be read. *)
Definition proxy_request_unreadable : Request.t :=
  {| Request.Method := "POST";
     Request.URL := Request.URL proxy_request;
     Request.Header := ∅;
     Request.Body := Some (Err "unexpected EOF") |}.

(** [filepath.Join] on the paths of the examples, which have no dot
    elements and no trailing slash: the elements that are not empty, joined
    by a slash, with repeated slashes collapsed. *)
Fixpoint collapse_slashes (s : string) : string :=
  match s with
  | EmptyString => EmptyString
  | String c rest =>
      match rest with
      | String d _ =>
          if Ascii.eqb c "/" && Ascii.eqb d "/" then collapse_slashes rest
          else String c (collapse_slashes rest)
      | EmptyString => String c EmptyString
      end
  end.

Definition filepath_Join (elem : list string) : string :=
  collapse_slashes
    (foldr (λ e joined, if String.eqb joined "" then e else e +:+ "/" +:+ joined) ""
       (List.filter (λ e, negb (String.eqb e "")) elem)).

(** The embedded tree: the index page and a style sheet under the assets
    directory. *)
Definition index_html : string := "<head><title>API</title></head><body></body>".

Definition swaggerUI_ReadFile (name : string) : result string :=
  if String.eqb name "swagger-ui/index.html" then Ok index_html
  else if String.eqb name "swagger-ui/assets/swagger-ui.css" then Ok "body{margin:0}"
  else Err ("open " +:+ name +:+ ": file does not exist").

(** An embedded tree without files. *)
Definition empty_ReadFile (name : string) : result string :=
  Err ("open " +:+ name +:+ ": file does not exist").

Definition Server_ServeHTTP : Server -> Request.t -> list Event :=
  @Server_ServeHTTP RefLib.lib http_Get client_Do swaggerUI_ReadFile filepath_Join.

(** The header of the response to the relayed call. *)
Definition relayed_header : http_Header :=
  {[ "Access-Control-Allow-Origin" := ["*"];
     "Access-Control-Allow-Methods" := ["GET, POST, OPTIONS"];
     "Access-Control-Allow-Headers" := ["Content-Type, Authorization"];
     "Access-Control-Expose-Headers" := ["Content-Length"];
     "Set-Cookie" := ["a=1"; "b=2"];
     "Content-Type" := ["text/plain"] ]}.

End Example.

(** ** Strings *)

Lemma app_nil_l (s : string) : "" +:+ s = s.
Proof. reflexivity. Qed.

Lemma app_cons (c : ascii) (p s : string) : String c p +:+ s = String c (p +:+ s).
Proof. reflexivity. Qed.

(** Unfolds the appends whose left operand is a literal. *)
Ltac string_app := rewrite ?app_cons, ?app_nil_l.

Lemma HasPrefix_app (p s : string) : HasPrefix (p +:+ s) p = true.
Proof.
  induction p as [|c p IH]; string_app; simpl; [done|].
  by rewrite Ascii.eqb_refl.
Qed.

Lemma HasPrefix_inv (p s : string) :
  HasPrefix s p = true -> exists t, s = p +:+ t.
Proof.
  revert s. induction p as [|c p IH]; intros s Hp.
  - by exists s.
  - destruct s as [|d s]; simpl in Hp; [done|].
    apply andb_true_iff in Hp as [Hc Hp]. apply Ascii.eqb_eq in Hc as ->.
    destruct (IH _ Hp) as [t ->]. by exists t.
Qed.

Lemma substring_app_drop (p s : string) :
  String.substring (String.length p) (String.length s) (p +:+ s) = s.
Proof.
  induction p as [|c p IH]; string_app; simpl; [|apply IH].
  induction s as [|d s IHs]; simpl; [done|]. by rewrite IHs.
Qed.

Lemma length_app (p s : string) :
  String.length (p +:+ s) = String.length p + String.length s.
Proof. induction p as [|c p IH]; string_app; simpl; [done|]. by rewrite IH. Qed.

Lemma TrimPrefix_app (p s : string) : TrimPrefix (p +:+ s) p = s.
Proof.
  unfold TrimPrefix. rewrite HasPrefix_app, length_app.
  replace (String.length p + String.length s - String.length p)
    with (String.length s) by lia.
  apply substring_app_drop.
Qed.

Lemma HasPrefix_slash (s : string) :
  HasPrefix s "/" = bool_decide (first_byte s = Some "/"%char).
Proof.
  destruct s as [|c s]; simpl; [done|]. rewrite andb_true_r.
  destruct (Ascii.eqb_spec c "/") as [->|Hne].
  - by rewrite bool_decide_eq_true_2.
  - rewrite bool_decide_eq_false_2; [done|]. intros [=]. by subst.
Qed.

Lemma last_byte_snoc (s : string) (c : ascii) : last_byte (s +:+ String c "") = Some c.
Proof.
  induction s as [|d s IH]; string_app; [done|].
  simpl. rewrite IH. by destruct (s +:+ String c "") eqn:E; [destruct s|].
Qed.

Lemma eqb_empty_false (s : string) : s ≠ "" -> String.eqb s "" = false.
Proof. intros Hs. by apply String.eqb_neq. Qed.

Lemma last_byte_empty_path (p : string) :
  String.eqb p "" || negb (bool_decide (last_byte p = Some "/"%char))
  = negb (bool_decide (last_byte p = Some "/"%char)).
Proof. by destruct p. Qed.

(** ** The rewrite rules *)

Section RewriteFacts.
Context `{GoLib}.

Lemma makeServerURL_empty (base : URL) :
  makeServerURL base "" = Scheme base +:+ "://" +:+ Host base.
Proof. done. Qed.

Lemma makeServerURL_absolute (base : URL) (pc : string) :
  pc ≠ "" -> parses_absolute pc = true -> makeServerURL base pc = pc.
Proof.
  intros Hne Habs. unfold makeServerURL. unfold parses_absolute in Habs.
  by rewrite (eqb_empty_false _ Hne), Habs.
Qed.

(** The document [updateSpecServerInfo] returns for an OpenAPI 3.x
    document. *)
Lemma updateSpecServerInfo_openapi3 (spec : gmap string json) (base : URL) :
  isOpenAPI3 spec = true ->
  updateSpecServerInfo spec base
  = <["servers" :=
        JArray (server_entry (makeServerURL base (default "" (first_server_url spec)))
                :: original_servers spec)]> spec.
Proof.
  unfold isOpenAPI3, updateSpecServerInfo, first_server_url, original_servers.
  destruct (asString (spec !! "openapi")) as [v|] eqn:Hv; [|done].
  intros Hp. change (default "" (Some v)) with v. rewrite Hp.
  assert (String.eqb v "" = false) as -> by (by destruct v).
  cbn [negb andb].
  destruct (default [] (asArray (spec !! "servers"))) as [|first rest]; [done|].
  destruct first as [| | | | |m]; try done.
  cbn [asObject]. by destruct (asString (m !! "url")).
Qed.

(** The document [updateSpecServerInfo] returns for a Swagger 2.0
    document. *)
Lemma updateSpecServerInfo_swagger2 (spec : gmap string json) (base : URL) :
  isOpenAPI3 spec = false -> isSwagger2 spec = true ->
  updateSpecServerInfo spec base = <["host" := JString (Host base)]> spec.
Proof.
  unfold isOpenAPI3, isSwagger2, updateSpecServerInfo.
  intros H3 H2.
  destruct (asString (spec !! "swagger")) as [w|]; [|done].
  change (default "" (Some w)) with w. rewrite H2.
  destruct (asString (spec !! "openapi")) as [v|].
  - change (default "" (Some v)) with v. rewrite H3. by rewrite andb_false_r.
  - done.
Qed.

End RewriteFacts.

(** ** The fetch-and-rewrite handler *)

Section RenderFacts.
Context `{GoLib}.
Variable http_Get : string -> result Response.t.

(** [logAndSendError] answers with an error, after any events that leave
    the status line and the body alone. *)
Lemma logAndSendError_returns (pre : list Event) (r : Request.t) (code : Z)
    (internal user : string) :
  existsb is_write pre = false ->
  returns_error (pre ++ logAndSendError r code internal user) code user.
Proof.
  intros Hpre. unfold logAndSendError.
  eexists (pre ++ [_]). split.
  - by rewrite <- app_assoc.
  - by rewrite existsb_app, Hpre.
Qed.

Lemma final_not_informational (status : Z) :
  final_status status = true -> informational status = false.
Proof. unfold final_status, informational. lia. Qed.

(** Writing a final status and then the body, on a writer that sent
    nothing yet. *)
Lemma rw_finish (w : ResponseWriter) (code : Z) (p : Payload) :
  rw_sent w = None -> rw_body w = [] -> informational code = false ->
  foldl rw_step w [WriteHeader code; Write p]
  = {| rw_header := rw_header w;
       rw_sent := Some (code, rw_header w);
       rw_body := if payload_empty p || negb (bodyAllowedForStatus code)
                  then [] else [p] |}.
Proof.
  intros Hs Hb Hi. simpl. unfold rw_WriteHeader. rewrite Hs, Hi. simpl.
  destruct (_ || _); by rewrite ?Hb.
Qed.

(** Events that leave the status line and the body alone leave the writer
    with nothing sent. *)
Lemma rw_run_no_write (pre : list Event) :
  existsb is_write pre = false ->
  rw_sent (rw_run pre) = None ∧ rw_body (rw_run pre) = [].
Proof.
  unfold rw_run. induction pre as [|e pre IH] using rev_ind; intros Hpre; [done|].
  rewrite existsb_app in Hpre. apply orb_false_iff in Hpre as [Hpre He].
  rewrite foldl_app. destruct (IH Hpre) as [IHs IHb].
  simpl in He. rewrite orb_false_r in He. by destruct e.
Qed.

Lemma snoc_not_empty (s : string) (c : ascii) : String.eqb (s +:+ String c "") "" = false.
Proof. by destruct s. Qed.

(** What the client receives from a handler that answered with a
    document. *)
Lemma returns_document_client (evs : list Event) (doc : gmap string json) :
  returns_document evs doc ->
  client_status evs = Some StatusOK ∧ client_body evs = [JSONDoc doc].
Proof.
  intros (pre & -> & Hpre). destruct (rw_run_no_write pre Hpre) as [Hs Hb].
  unfold client_status, client_body, rw_run in *. rewrite foldl_app. simpl.
  unfold rw_WriteHeader. simpl. rewrite Hs. simpl. by rewrite Hb.
Qed.

(** What the client receives from a handler that answered with an error,
    for a final status. *)
Lemma returns_error_client (evs : list Event) (code : Z) (msg : string) :
  returns_error evs code msg ->
  final_status code = true ->
  client_status evs = Some code
  ∧ client_body evs
    = if bodyAllowedForStatus code
      then [Bytes (msg +:+ String (ascii_of_nat 10) "")] else [].
Proof.
  intros (pre & -> & Hpre) Hfinal. apply final_not_informational in Hfinal.
  destruct (rw_run_no_write pre Hpre) as [Hs Hb].
  unfold client_status, client_body, rw_run in *. rewrite foldl_app.
  unfold http_Error.
  change (foldl rw_step ?w (?a :: ?b :: ?l))
    with (foldl rw_step (rw_step (rw_step w a) b) l).
  rewrite rw_finish; [|done|done|done]. simpl.
  rewrite snoc_not_empty. simpl. by destruct (bodyAllowedForStatus code).
Qed.

(** The events of a successful rendering. *)
Lemma serveIndividualSpec_ok (s : Server) (r : Request.t) (name : string)
    (metadata : APIMetadata.t) (resp : Response.t) (base : URL)
    (spec : gmap string json) :
  Path (Request.URL r) = httpPathAPI +:+ name ->
  specs s !! name = Some metadata ->
  http_Get (APIMetadata.URL metadata) = Ok resp ->
  Response.StatusCode resp = StatusOK ->
  url_Parse (APIMetadata.URL metadata) = Ok base ->
  json_Decode (Response.Body resp) = Ok spec ->
  serveIndividualSpec http_Get s r
  = [ Get (APIMetadata.URL metadata);
      Log DebugLevel ("Updating server info for spec: " +:+ name);
      HeaderSet headerContentType contentTypeJSON;
      Write (JSONDoc (updateSpecServerInfo spec base)) ].
Proof.
  intros Hpath Hreg Hget Hst Hparse Hdec. unfold serveIndividualSpec.
  rewrite Hpath, TrimPrefix_app, Hreg, Hget, Hst, Hparse, Hdec. done.
Qed.

Lemma serveIndividualSpec_returns_document (s : Server) (r : Request.t)
    (name : string) (metadata : APIMetadata.t) (resp : Response.t) (base : URL)
    (spec : gmap string json) :
  Path (Request.URL r) = httpPathAPI +:+ name ->
  specs s !! name = Some metadata ->
  http_Get (APIMetadata.URL metadata) = Ok resp ->
  Response.StatusCode resp = StatusOK ->
  url_Parse (APIMetadata.URL metadata) = Ok base ->
  json_Decode (Response.Body resp) = Ok spec ->
  returns_document (serveIndividualSpec http_Get s r) (updateSpecServerInfo spec base).
Proof.
  intros. erewrite serveIndividualSpec_ok by done. by eexists [_; _].
Qed.

(** C1. For an OpenAPI 3.x document, the rendered document has a [servers]
    array that starts with the server whose url is the first original
    server url resolved against the URL of the registry record, followed
    by the original entries in their order; when [servers] is empty or
    malformed, the array starts with one synthesized entry whose url is
    the resolution of the empty path component. *)
Theorem C1_render_openapi3_servers (s : Server) (r : Request.t) (name : string)
    (metadata : APIMetadata.t) (resp : Response.t) (base : URL)
    (spec : gmap string json) :
  Path (Request.URL r) = httpPathAPI +:+ name ->
  specs s !! name = Some metadata ->
  http_Get (APIMetadata.URL metadata) = Ok resp ->
  Response.StatusCode resp = StatusOK ->
  url_Parse (APIMetadata.URL metadata) = Ok base ->
  json_Decode (Response.Body resp) = Ok spec ->
  isOpenAPI3 spec = true ->
  exists doc,
    returns_document (serveIndividualSpec http_Get s r) doc
    ∧ (forall first rest u,
          spec !! "servers" = Some (JArray (JObject first :: rest)) ->
          first !! "url" = Some (JString u) ->
          doc !! "servers"
          = Some (JArray (server_entry (makeServerURL base u) :: JObject first :: rest)))
    ∧ (first_server_url spec = None ->
          doc !! "servers"
          = Some (JArray (server_entry (makeServerURL base "") :: original_servers spec))).
Proof.
  intros Hpath Hreg Hget Hst Hparse Hdec H3.
  exists (updateSpecServerInfo spec base). split.
  { by eapply serveIndividualSpec_returns_document. }
  rewrite updateSpecServerInfo_openapi3 by done. rewrite lookup_insert_eq. split.
  - intros first rest u Hservers Hurl.
    unfold first_server_url, original_servers. rewrite Hservers. simpl.
    by rewrite Hurl.
  - by intros ->.
Qed.

(** C3. For a Swagger 2.0 document, the rendered document has the host of
    the URL of the registry record as its [host], and every other
    top-level field, [basePath] and [schemes] among them, as it was. *)
Theorem C3_render_swagger2_host (s : Server) (r : Request.t) (name : string)
    (metadata : APIMetadata.t) (resp : Response.t) (base : URL)
    (spec : gmap string json) :
  Path (Request.URL r) = httpPathAPI +:+ name ->
  specs s !! name = Some metadata ->
  http_Get (APIMetadata.URL metadata) = Ok resp ->
  Response.StatusCode resp = StatusOK ->
  url_Parse (APIMetadata.URL metadata) = Ok base ->
  json_Decode (Response.Body resp) = Ok spec ->
  isOpenAPI3 spec = false ->
  isSwagger2 spec = true ->
  exists doc,
    returns_document (serveIndividualSpec http_Get s r) doc
    ∧ doc !! "host" = Some (JString (Host base))
    ∧ doc !! "basePath" = spec !! "basePath"
    ∧ doc !! "schemes" = spec !! "schemes"
    ∧ forall field, field ≠ "host" -> doc !! field = spec !! field.
Proof.
  intros Hpath Hreg Hget Hst Hparse Hdec H3 H2.
  exists (updateSpecServerInfo spec base). split.
  { by eapply serveIndividualSpec_returns_document. }
  rewrite updateSpecServerInfo_swagger2 by done.
  rewrite lookup_insert_eq. repeat split.
  - by rewrite lookup_insert_ne.
  - by rewrite lookup_insert_ne.
  - intros field Hne. by rewrite lookup_insert_ne.
Qed.

End RenderFacts.

Section ResolveFacts.
Context `{GoLib}.

(** C2. For a path component that is not empty and does not parse as an
    absolute URL: one that starts with a slash replaces the path of the
    base, giving scheme, host and the path component; any other is the
    reference resolution of the path component, taken as a path, against
    the base whose path has been made to end with a slash. *)
Theorem C2_resolve_path_component (base : URL) (pathComponent : string) :
  pathComponent ≠ "" ->
  parses_absolute pathComponent = false ->
  makeServerURL base pathComponent = resolve_path base pathComponent
  ∧ (HasPrefix pathComponent "/" = true ->
     makeServerURL base pathComponent
     = Scheme base +:+ "://" +:+ Host base +:+ pathComponent)
  ∧ (HasPrefix pathComponent "/" = false ->
     makeServerURL base pathComponent
     = URL_String (URL_ResolveReference (with_trailing_slash base)
                     (URL_of_Path pathComponent)))
  ∧ last_byte (Path (with_trailing_slash base)) = Some "/"%char
  ∧ set_Path (with_trailing_slash base) (Path base) = base.
Proof.
  intros Hne Hrel.
  assert (makeServerURL base pathComponent = resolve_path base pathComponent) as Heq.
  { unfold makeServerURL, resolve_path, with_trailing_slash.
    unfold parses_absolute in Hrel.
    rewrite (eqb_empty_false _ Hne), Hrel, last_byte_empty_path.
    cbn [negb andb]. rewrite HasPrefix_slash.
    destruct (bool_decide (first_byte pathComponent = Some "/"%char)); [done|].
    rewrite orb_true_r.
    by destruct (bool_decide (last_byte (Path base) = Some "/"%char)). }
  split; [done|]. rewrite Heq. unfold resolve_path.
  split; [by intros ->|]. split; [by intros ->|].
  unfold with_trailing_slash. case_bool_decide as Hlast.
  - split; [done|]. by destruct base.
  - split; [apply last_byte_snoc|]. by destruct base.
Qed.

End ResolveFacts.

Section FetchFacts.
Context `{GoLib}.
Variable http_Get : string -> result Response.t.

(** The reply to a failed rendering: the fetch was issued, and the handler
    answered through [logAndSendError]. *)
Lemma fetch_error_returns (url : string) (r : Request.t) (code : Z)
    (internal user : string) :
  returns_error (Get url :: logAndSendError r code internal user) code user.
Proof. by apply (logAndSendError_returns [Get url]). Qed.

Lemma outbound_logAndSendError (r : Request.t) (code : Z) (internal user : string) :
  outbound (logAndSendError r code internal user) = [].
Proof. done. Qed.

(** C4, as the code has it. For a registered name the handler issues
    exactly one GET, to the URL of the record, and never a second one. It
    answers with an error when the GET fails, when the status is anything
    but 200 (the other 2xx statuses included), and when the record URL or
    the body cannot be decoded; with status 200 and a body that decodes
    as a JSON object it answers with the rewritten document. *)
Theorem C4_render_single_fetch (s : Server) (r : Request.t) (name : string)
    (metadata : APIMetadata.t) :
  Path (Request.URL r) = httpPathAPI +:+ name ->
  specs s !! name = Some metadata ->
  outbound (serveIndividualSpec http_Get s r) = [Get (APIMetadata.URL metadata)]
  ∧ (forall err,
        http_Get (APIMetadata.URL metadata) = Err err ->
        exists msg, returns_error (serveIndividualSpec http_Get s r)
                      StatusInternalServerError msg)
  ∧ (forall resp,
        http_Get (APIMetadata.URL metadata) = Ok resp ->
        Response.StatusCode resp ≠ StatusOK ->
        exists msg, returns_error (serveIndividualSpec http_Get s r)
                      (Response.StatusCode resp) msg)
  ∧ (forall resp,
        http_Get (APIMetadata.URL metadata) = Ok resp ->
        Response.StatusCode resp = StatusOK ->
        match url_Parse (APIMetadata.URL metadata), json_Decode (Response.Body resp) with
        | Ok base, Ok spec =>
            returns_document (serveIndividualSpec http_Get s r)
              (updateSpecServerInfo spec base)
        | _, _ =>
            exists msg, returns_error (serveIndividualSpec http_Get s r)
                          StatusInternalServerError msg
        end).
Proof.
  intros Hpath Hreg.
  assert (serveIndividualSpec http_Get s r
          = Get (APIMetadata.URL metadata) ::
            match http_Get (APIMetadata.URL metadata) with
            | Err err =>
                logAndSendError r StatusInternalServerError
                  (errMsgFailedToFetchSpec err) (errMsgFailedToFetchSpec err)
            | Ok resp =>
                if negb (Response.StatusCode resp =? StatusOK)%Z then
                  logAndSendError r (Response.StatusCode resp)
                    (errMsgFailedToFetchSpecStatus (Response.StatusCode resp))
                    (errMsgFailedToFetchSpecStatus (Response.StatusCode resp))
                else
                  match url_Parse (APIMetadata.URL metadata) with
                  | Err err =>
                      logAndSendError r StatusInternalServerError
                        (errMsgFailedToParseMetaURL err) (errMsgFailedToParseMetaURL err)
                  | Ok metadataURL =>
                      match json_Decode (Response.Body resp) with
                      | Err err =>
                          logAndSendError r StatusInternalServerError
                            (errMsgFailedToDecodeOpenAPISpec err)
                            (errMsgFailedToDecodeOpenAPISpec err)
                      | Ok spec =>
                          [ Log DebugLevel ("Updating server info for spec: " +:+ name);
                            HeaderSet headerContentType contentTypeJSON;
                            Write (JSONDoc (updateSpecServerInfo spec metadataURL)) ]
                      end
                  end
            end) as Hevs.
  { unfold serveIndividualSpec. by rewrite Hpath, TrimPrefix_app, Hreg. }
  rewrite Hevs. clear Hevs. repeat split.
  - destruct (http_Get _) as [resp|err]; [|done].
    destruct (negb _); [done|].
    destruct (url_Parse _); [|done]. by destruct (json_Decode _).
  - intros err ->. eexists. apply fetch_error_returns.
  - intros resp -> Hst.
    assert ((Response.StatusCode resp =? StatusOK)%Z = false) as ->
      by by apply Z.eqb_neq.
    eexists. apply fetch_error_returns.
  - intros resp -> Hst. rewrite Hst, Z.eqb_refl. cbn [negb].
    destruct (url_Parse _) as [base|err].
    + destruct (json_Decode _) as [spec|err]; [by eexists [_; _]|].
      eexists. apply fetch_error_returns.
    + eexists. apply fetch_error_returns.
Qed.

End FetchFacts.

(** ** The registry *)

Lemma accepted_as_snoc (name : string) (apis : list APIMetadata.t) (api : APIMetadata.t) :
  accepted_as name (apis ++ [api])
  = accepted_as name apis
    ++ (if decide (APIMetadata.Name api = name ∧ APIMetadata.Error api = "")
        then [api] else []).
Proof.
  unfold accepted_as. by rewrite filter_app.
Qed.

(** The map under construction holds, under each name, the record built from
    the last candidate accepted under that name. *)
Lemma UpdateSpecs_fold_lookup (apis : list APIMetadata.t) (name : string) :
  (foldl UpdateSpecs_step (∅, []) apis).1 !! name
  = UpdateSpecs_metadata <$> last (accepted_as name apis).
Proof.
  induction apis as [|api apis IH] using rev_ind; [done|].
  rewrite foldl_app, accepted_as_snoc. simpl.
  destruct (foldl UpdateSpecs_step (∅, []) apis) as [newSpecs log]. simpl in *.
  destruct (String.eqb_spec (APIMetadata.Error api) "") as [Herr|Herr]; simpl.
  - destruct (decide (APIMetadata.Name api = name)) as [Hname|Hname].
    + rewrite decide_True by done. rewrite last_snoc. subst name.
      by rewrite lookup_insert_eq.
    + rewrite decide_False by tauto. rewrite app_nil_r.
      by rewrite lookup_insert_ne.
  - rewrite decide_False by tauto. by rewrite app_nil_r.
Qed.

Lemma UpdateSpecs_specs (s : Server) (apis : list APIMetadata.t) :
  specs (UpdateSpecs s apis).1 = (foldl UpdateSpecs_step (∅, []) apis).1.
Proof. unfold UpdateSpecs. by destruct (foldl UpdateSpecs_step (∅, []) apis). Qed.

Lemma UpdateSpecs_lookup (s : Server) (apis : list APIMetadata.t) (name : string) :
  specs (UpdateSpecs s apis).1 !! name
  = UpdateSpecs_metadata <$> last (accepted_as name apis).
Proof. rewrite UpdateSpecs_specs. apply UpdateSpecs_fold_lookup. Qed.

Lemma last_is_Some {A} (l : list A) : is_Some (last l) <-> l ≠ [].
Proof.
  destruct l as [|x l] using rev_ind.
  - split; [by intros [? [=]] | done].
  - rewrite last_snoc. split; [|by eexists]. intros _. by destruct l.
Qed.

(** C5. After [UpdateSpecs] the registry holds, under each name, a record
    for the last candidate of that name whose [error] is empty: the stored
    record has the name, url, resource type, resource name, namespace,
    update time and allowed methods of that candidate and an empty error
    (its title is the name, its description is built from the namespace and
    the resource name, its version is empty). The registry holds nothing
    under a name that no such candidate carries, and a batch of one errored
    and one error-free candidate leaves exactly the record of the
    error-free one, whatever the order of the two. *)
Theorem C5_replace_keeps_error_free (s : Server) (apis : list APIMetadata.t) :
  (forall name api,
      last (accepted_as name apis) = Some api ->
      api ∈ apis ∧ APIMetadata.Name api = name ∧ APIMetadata.Error api = ""
      ∧ exists stored,
          specs (UpdateSpecs s apis).1 !! name = Some stored
          ∧ APIMetadata.Name stored = APIMetadata.Name api
          ∧ APIMetadata.URL stored = APIMetadata.URL api
          ∧ APIMetadata.ResourceType stored = APIMetadata.ResourceType api
          ∧ APIMetadata.ResourceName stored = APIMetadata.ResourceName api
          ∧ APIMetadata.Namespace stored = APIMetadata.Namespace api
          ∧ APIMetadata.LastUpdated stored = APIMetadata.LastUpdated api
          ∧ APIMetadata.AllowedMethods stored = APIMetadata.AllowedMethods api
          ∧ APIMetadata.Error stored = ""
          ∧ APIMetadata.Title stored = APIMetadata.Name api
          ∧ APIMetadata.Description stored
            = "API from " +:+ APIMetadata.Namespace api +:+ "/"
              +:+ APIMetadata.ResourceName api
          ∧ APIMetadata.Version stored = "")
  ∧ (forall name,
        last (accepted_as name apis) = None ->
        specs (UpdateSpecs s apis).1 !! name = None)
  ∧ (forall name,
        is_Some (specs (UpdateSpecs s apis).1 !! name)
        <-> exists api, api ∈ apis ∧ APIMetadata.Name api = name
                        ∧ APIMetadata.Error api = "")
  ∧ (forall bad good,
        APIMetadata.Error bad ≠ "" -> APIMetadata.Error good = "" ->
        let stored :=
          {| APIMetadata.Name := APIMetadata.Name good;
             APIMetadata.URL := APIMetadata.URL good;
             APIMetadata.Title := APIMetadata.Name good;
             APIMetadata.Version := "";
             APIMetadata.Description :=
               "API from " +:+ APIMetadata.Namespace good +:+ "/"
               +:+ APIMetadata.ResourceName good;
             APIMetadata.ResourceType := APIMetadata.ResourceType good;
             APIMetadata.ResourceName := APIMetadata.ResourceName good;
             APIMetadata.Namespace := APIMetadata.Namespace good;
             APIMetadata.LastUpdated := APIMetadata.LastUpdated good;
             APIMetadata.AllowedMethods := APIMetadata.AllowedMethods good;
             APIMetadata.Error := "" |} in
        specs (UpdateSpecs s [bad; good]).1 = {[ APIMetadata.Name good := stored ]}
        ∧ specs (UpdateSpecs s [good; bad]).1 = {[ APIMetadata.Name good := stored ]}).
Proof.
  split; [|split; [|split]].
  - intros name api Hlast.
    assert (api ∈ accepted_as name apis) as Hin by by apply last_Some_elem_of.
    apply list_elem_of_filter in Hin as [[Hname Herr] Hin].
    repeat (split; [done|]).
    exists (UpdateSpecs_metadata api). rewrite UpdateSpecs_lookup, Hlast.
    repeat split.
  - intros name Hlast. by rewrite UpdateSpecs_lookup, Hlast.
  - intros name. rewrite UpdateSpecs_lookup, fmap_is_Some, last_is_Some.
    unfold accepted_as. split.
    + intros Hne. destruct (filter _ apis) as [|api l] eqn:Hf; [done|].
      assert (api ∈ filter (λ api, APIMetadata.Name api = name
                                   ∧ APIMetadata.Error api = "") apis) as Hin.
      { rewrite Hf. left. }
      apply list_elem_of_filter in Hin as [[? ?] ?]. eauto.
    + intros (api & Hin & Hname & Herr) Hnil.
      assert (api ∈ filter (λ api, APIMetadata.Name api = name
                                   ∧ APIMetadata.Error api = "") apis) as Hin'.
      { apply list_elem_of_filter. eauto. }
      rewrite Hnil in Hin'. by apply not_elem_of_nil in Hin'.
  - intros bad good Hbad Hgood stored.
    change stored with (UpdateSpecs_metadata good).
    split; apply map_eq; intros name; rewrite UpdateSpecs_lookup;
      unfold accepted_as; rewrite !filter_cons, filter_nil;
      (rewrite (decide_False (P := _ ∧ APIMetadata.Error bad = "")) by tauto);
      destruct (decide (APIMetadata.Name good = name)) as [<-|Hne].
    + rewrite decide_True by done. by rewrite lookup_singleton_eq.
    + rewrite decide_False by tauto. by rewrite lookup_singleton_ne.
    + rewrite decide_True by done. by rewrite lookup_singleton_eq.
    + rewrite decide_False by tauto. by rewrite lookup_singleton_ne.
Qed.

(** C7, as the code has it. The record stored for an accepted candidate
    keeps its name, url, resource type, resource name, namespace, update
    time, allowed methods and (empty) error; its title is the name, its
    description is built from the namespace and the resource name, and its
    version is empty. *)
Theorem C7_stored_record_fields (s : Server) (apis : list APIMetadata.t)
    (api : APIMetadata.t) :
  last (accepted_as (APIMetadata.Name api) apis) = Some api ->
  exists stored,
    specs (UpdateSpecs s apis).1 !! APIMetadata.Name api = Some stored
    ∧ APIMetadata.Name stored = APIMetadata.Name api
    ∧ APIMetadata.URL stored = APIMetadata.URL api
    ∧ APIMetadata.ResourceType stored = APIMetadata.ResourceType api
    ∧ APIMetadata.ResourceName stored = APIMetadata.ResourceName api
    ∧ APIMetadata.Namespace stored = APIMetadata.Namespace api
    ∧ APIMetadata.LastUpdated stored = APIMetadata.LastUpdated api
    ∧ APIMetadata.AllowedMethods stored = APIMetadata.AllowedMethods api
    ∧ APIMetadata.Error stored = APIMetadata.Error api
    ∧ APIMetadata.Title stored = APIMetadata.Name api
    ∧ APIMetadata.Description stored
      = "API from " +:+ APIMetadata.Namespace api +:+ "/" +:+ APIMetadata.ResourceName api
    ∧ APIMetadata.Version stored = "".
Proof.
  intros Hlast. exists (UpdateSpecs_metadata api).
  rewrite UpdateSpecs_lookup, Hlast. repeat split.
  assert (api ∈ accepted_as (APIMetadata.Name api) apis) as Hin.
  { by apply last_Some_elem_of. }
  apply list_elem_of_filter in Hin as [[_ ->] _]. done.
Qed.

(** ** Header maps *)

Section HeaderFacts.
Context `{GoLib}.

(** Adding the values [vs] under the key [n] appends them, in order, to
    the values of the canonical key. *)
Lemma Header_Add_fold_lookup (h0 : http_Header) (n : string) (vs : list string)
    (k : string) :
  default [] (foldl (λ h v, Header_Add h n v) h0 vs !! k)
  = if decide (k = CanonicalMIMEHeaderKey n)
    then default [] (h0 !! k) ++ vs else default [] (h0 !! k).
Proof.
  revert h0. induction vs as [|v vs IH]; intros h0; simpl.
  - case_decide; by rewrite ?app_nil_r.
  - rewrite IH. unfold Header_Add. case_decide as Hk.
    + subst k. rewrite lookup_insert_eq. simpl. by rewrite <- app_assoc.
    + by rewrite lookup_insert_ne.
Qed.

Lemma proxy_copy_header_cons (n : string) (vs : list string)
    (entries : list (string * list string)) (h0 : http_Header) :
  proxy_copy_header ((n, vs) :: entries) h0
  = proxy_copy_header entries (foldl (λ h v, Header_Add h n v) h0 vs).
Proof. done. Qed.

(** Copying entries with distinct canonical keys appends, under each key,
    the values of that key; in whatever order the entries come. *)
Lemma proxy_copy_header_lookup (entries : list (string * list string))
    (h0 : http_Header) (k : string) :
  NoDup entries.*1 ->
  (forall n vs, (n, vs) ∈ entries -> CanonicalMIMEHeaderKey n = n) ->
  default [] (proxy_copy_header entries h0 !! k)
  = default [] (h0 !! k)
    ++ default [] ((list_to_map entries : gmap string (list string)) !! k).
Proof.
  revert h0. induction entries as [|[n vs] entries IH]; intros h0 Hnd Hc.
  - simpl. rewrite lookup_empty. simpl. by rewrite app_nil_r.
  - rewrite proxy_copy_header_cons. rewrite fmap_cons in Hnd.
    apply NoDup_cons in Hnd as [Hn Hnd].
    rewrite IH; [|done|]; last first.
    { intros n' vs' Hin. apply (Hc n' vs'). by right. }
    rewrite Header_Add_fold_lookup.
    rewrite (Hc n vs) by left. simpl.
    destruct (decide (k = n)) as [->|Hk].
    + rewrite lookup_insert_eq.
      rewrite (not_elem_of_list_to_map_1 _ _ Hn). simpl.
      by rewrite app_nil_r.
    + by rewrite lookup_insert_ne.
Qed.

(** The entries a [range] loop visits are those of the map. *)
Lemma proxy_copy_header_range (h h0 : http_Header) (k : string) :
  (forall n, is_Some (h !! n) -> CanonicalMIMEHeaderKey n = n) ->
  default [] (proxy_copy_header (Header_range h) h0 !! k)
  = default [] (h0 !! k) ++ default [] (h !! k).
Proof.
  intros Hc. unfold Header_range. rewrite proxy_copy_header_lookup.
  - by rewrite list_to_map_to_list.
  - apply NoDup_fst_map_to_list.
  - intros n vs Hin. apply Hc. exists vs. by apply elem_of_map_to_list.
Qed.

(** The order of the entries does not matter. *)
Lemma proxy_copy_header_order (entries entries' : list (string * list string))
    (h0 : http_Header) (k : string) :
  entries ≡ₚ entries' ->
  NoDup entries.*1 ->
  (forall n vs, (n, vs) ∈ entries -> CanonicalMIMEHeaderKey n = n) ->
  default [] (proxy_copy_header entries h0 !! k)
  = default [] (proxy_copy_header entries' h0 !! k).
Proof.
  intros Hp Hnd Hc.
  rewrite !proxy_copy_header_lookup; try done.
  - by rewrite (list_to_map_proper entries entries' Hnd Hp).
  - by rewrite <- Hp.
  - intros n vs Hin. apply (Hc n vs). by rewrite Hp.
Qed.

Lemma rw_run_adds (n : string) (vs : list string) (w : ResponseWriter) :
  foldl rw_step w (map (HeaderAdd n) vs)
  = {| rw_header := foldl (λ h v, Header_Add h n v) (rw_header w) vs;
       rw_sent := rw_sent w; rw_body := rw_body w |}.
Proof.
  revert w. induction vs as [|v vs IH]; intros w; simpl; [by destruct w|].
  by rewrite IH.
Qed.

(** Relaying a header edits the header map of the writer and nothing
    else. *)
Lemma rw_run_relay (entries : list (string * list string)) (w : ResponseWriter) :
  foldl rw_step w (proxy_relay_header entries)
  = {| rw_header := proxy_copy_header entries (rw_header w);
       rw_sent := rw_sent w; rw_body := rw_body w |}.
Proof.
  revert w. induction entries as [|[n vs] entries IH]; intros w.
  - by destruct w.
  - unfold proxy_relay_header. simpl. rewrite foldl_app, rw_run_adds.
    fold (proxy_relay_header entries). by rewrite IH.
Qed.

Lemma relay_header_events (entries : list (string * list string)) (e : Event) :
  In e (proxy_relay_header entries) -> exists k v, e = HeaderAdd k v.
Proof.
  unfold proxy_relay_header. rewrite in_flat_map.
  intros ([n vs] & _ & Hin). apply in_map_iff in Hin as (v & <- & _). eauto.
Qed.

Lemma relay_header_no_write (entries : list (string * list string)) :
  existsb is_write (proxy_relay_header entries) = false.
Proof.
  destruct (existsb is_write _) eqn:Hex; [|done].
  apply existsb_exists in Hex as (e & Hin & Hw).
  apply relay_header_events in Hin as (k & v & ->). done.
Qed.

Lemma outbound_relay (entries : list (string * list string)) :
  outbound (proxy_relay_header entries) = [].
Proof.
  unfold outbound.
  assert (forall l, (forall e, In e l -> is_outbound e = false) ->
                    List.filter is_outbound l = []) as Hnone.
  { induction l as [|e l IH]; intros Hl; [done|]. simpl.
    rewrite (Hl e) by by left. apply IH. intros e' He'. apply Hl. by right. }
  apply Hnone. intros e He.
  by apply relay_header_events in He as (k & v & ->).
Qed.

Lemma forwarded_relay (entries : list (string * list string)) :
  forwarded (proxy_relay_header entries) = [].
Proof.
  unfold forwarded.
  destruct (omap _ (proxy_relay_header entries)) as [|req l] eqn:Ho; [done|].
  assert (req ∈ omap (λ e, match e with Do req => Some req | _ => None end)
                 (proxy_relay_header entries)) as Hin.
  { rewrite Ho. left. }
  apply list_elem_of_omap in Hin as (e & Hin & He).
  apply list_elem_of_In, relay_header_events in Hin as (k & v & ->). done.
Qed.

End HeaderFacts.

(** ** The proxy relay *)

Section RelayFacts.
Context `{GoLib}.
Variable client_Do : Request.t -> result Response.t.

(** What [proxyRequest] did when it forwarded a request. *)
Lemma proxyRequest_forwarded_inv (s : Server) (r : Request.t) (req : Request.t) :
  In (Do req) (proxyRequest client_Do s r) ->
  let target := Values_Get (URL_Query (Request.URL r)) queryParamProxyURL in
  exists body req0,
    target ≠ ""
    ∧ Request.Body r = Ok <$> body
    ∧ http_NewRequest (Request.Method r) target body = Ok req0
    ∧ req = set_Header req0
              (proxy_copy_header (Header_range (Request.Header r)) (Request.Header req0))
    ∧ proxyRequest client_Do s r
      = Log DebugLevel ("Proxying request for " +:+ Path (Request.URL r)
                        +:+ " to " +:+ target)
        :: Do req
        :: match client_Do req with
           | Err err =>
               Log ErrorLevel ("Error forwarding proxy request: " +:+ err) ::
               logAndSendError r StatusInternalServerError
                 (errMsgFailedToForwardProxyReq err) (errMsgFailedToForwardProxyReq err)
           | Ok resp =>
               proxy_relay_header (Header_range (Response.Header resp))
               ++ [ WriteHeader (Response.StatusCode resp);
                    Write (Bytes (Response.Body resp)) ]
           end.
Proof.
  intros Hin target. unfold proxyRequest in Hin |- *. fold target in Hin |- *.
  destruct (String.eqb_spec target "") as [Ht|Ht].
  { simpl in Hin. intuition discriminate. }
  assert (exists body, Request.Body r = Ok <$> body
                       ∧ match Request.Body r with
                         | None => Ok None
                         | Some (Ok bodyBytes) => Ok (Some bodyBytes)
                         | Some (Err err) => Err err
                         end = Ok body) as (body & Hbody & Hread).
  { destruct (Request.Body r) as [[b|e]|].
    - by exists (Some b).
    - simpl in Hin. intuition discriminate.
    - by exists None. }
  rewrite Hread in Hin |- *. exists body.
  destruct (http_NewRequest (Request.Method r) target body) as [req0|err].
  2: { simpl in Hin. intuition discriminate. }
  exists req0. destruct Hin as [Hin|[Hin|Hin]]; [discriminate| |].
  - injection Hin as <-. done.
  - exfalso. destruct (client_Do _) as [resp|err].
    + apply in_app_or in Hin as [Hin|Hin].
      * apply relay_header_events in Hin as (k & v & [=]).
      * simpl in Hin. intuition discriminate.
    + simpl in Hin. intuition discriminate.
Qed.

Lemma http_NewRequest_inv (method url : string) (body : option string)
    (req0 : Request.t) :
  http_NewRequest method url body = Ok req0 ->
  exists u,
    url_Parse url = Ok u
    ∧ req0 = {| Request.Method := if String.eqb method "" then "GET" else method;
                Request.URL := set_Host u (removeEmptyPort (Host u));
                Request.Header := ∅;
                Request.Body := Ok <$> body |}.
Proof.
  unfold http_NewRequest. destruct (negb _); [done|].
  destruct (url_Parse url) as [u|]; [|done]. intros [= <-]. by exists u.
Qed.

Lemma forwarded_In (evs : list Event) (req : Request.t) :
  req ∈ forwarded evs -> In (Do req) evs.
Proof.
  unfold forwarded. rewrite list_elem_of_omap. intros (e & Hin & He).
  destruct e; try done. injection He as ->. by apply list_elem_of_In.
Qed.

Lemma canonical_keys_spec (h : http_Header) (k : string) :
  canonical_keys h = true -> is_Some (h !! k) -> CanonicalMIMEHeaderKey k = k.
Proof.
  unfold canonical_keys. rewrite forallb_forall. intros Hall [vs Hk].
  apply String.eqb_eq. apply (Hall (k, vs)).
  apply list_elem_of_In. by apply elem_of_map_to_list.
Qed.

(** C10. The URL of a forwarded request is the one [http.NewRequest]
    builds from the value of the [proxyUrl] parameter alone: two inbound
    requests with the same method, header, body and [proxyUrl] value are
    forwarded alike, whatever their paths and other query parameters. *)
Theorem C10_proxy_target_only (s : Server) (r req : Request.t) :
  forwarded (proxyRequest client_Do s r) = [req] ->
  (exists u,
      url_Parse (Values_Get (URL_Query (Request.URL r)) queryParamProxyURL) = Ok u
      ∧ Request.URL req = set_Host u (removeEmptyPort (Host u)))
  ∧ forall s' r',
      Request.Method r' = Request.Method r ->
      Request.Header r' = Request.Header r ->
      Request.Body r' = Request.Body r ->
      Values_Get (URL_Query (Request.URL r')) queryParamProxyURL
      = Values_Get (URL_Query (Request.URL r)) queryParamProxyURL ->
      forwarded (proxyRequest client_Do s' r') = [req].
Proof.
  intros Hfw.
  assert (In (Do req) (proxyRequest client_Do s r)) as Hin.
  { apply forwarded_In. rewrite Hfw. left. }
  destruct (proxyRequest_forwarded_inv _ _ _ Hin)
    as (body & req0 & Ht & Hbody & Hnew & Hreq & Hevs).
  destruct (http_NewRequest_inv _ _ _ _ Hnew) as (u & Hu & Hreq0).
  split.
  { exists u. split; [done|]. subst req req0. done. }
  intros s' r' Hm' Hh' Hb' Ht'.
  unfold proxyRequest. rewrite Ht', Hm', Hh', Hb', Hbody.
  rewrite (eqb_empty_false _ Ht).
  assert (match Ok <$> body with
          | None => Ok None
          | Some (Ok bodyBytes) => Ok (Some bodyBytes)
          | Some (Err err) => Err err
          end = Ok body) as -> by by destruct body.
  rewrite Hnew, <- Hreq. unfold forwarded. simpl.
  destruct (client_Do req) as [resp|err]; [|done].
  rewrite omap_app.
  fold (forwarded (proxy_relay_header (Header_range (Response.Header resp)))).
  by rewrite forwarded_relay.
Qed.

End RelayFacts.

Section ProxyFacts.
Context `{GoLib}.
Variable http_Get : string -> result Response.t.
Variable client_Do : Request.t -> result Response.t.
Variable serveIndex serveStaticFiles : Server -> Request.t -> list Event.

Abbreviation ServeHTTP := (ServeHTTP http_Get client_Do serveIndex serveStaticFiles).

(** A request that is not a preflight and whose path has the proxy prefix
    reaches [proxyRequest]. *)
Lemma ServeHTTP_proxy (s : Server) (r : Request.t) :
  Request.Method r ≠ MethodOptions ->
  HasPrefix (stripBasePath s (Path (Request.URL r))) httpPathProxy = true ->
  ServeHTTP s r
  = [ HeaderSet headerAccessControlAllowOrigin corsAllowOriginAll;
      HeaderSet headerAccessControlAllowMethods corsAllowMethodsDefault;
      HeaderSet headerAccessControlAllowHeaders corsAllowHeadersDefault;
      HeaderSet headerAccessControlExposeHeaders corsExposeHeadersDefault;
      Log DebugLevel ("Handling request: " +:+ Request.Method r +:+ " "
                      +:+ stripBasePath s (Path (Request.URL r))) ]
    ++ proxyRequest client_Do s r.
Proof.
  intros Hm Hp. unfold ServeHTTP.
  apply String.eqb_neq in Hm. rewrite Hm.
  destruct (HasPrefix_inv _ _ Hp) as [t Ht]. rewrite Ht.
  unfold httpPathProxy. string_app. done.
Qed.

(** C8. When the relay forwards a request and the upstream answers, the
    outbound request has the method, the header values (per name, in
    order, duplicates included) and the body of the inbound request; the
    handler writes the upstream status before the body, and the client
    receives that status, a header that carries, per name, the upstream
    values in order after the values the server set itself, and the
    upstream body, byte for byte. *)
Theorem C8_proxy_relays_verbatim (s : Server) (r req : Request.t)
    (resp : Response.t) :
  Request.Method r ≠ MethodOptions ->
  Request.Method r ≠ "" ->
  HasPrefix (stripBasePath s (Path (Request.URL r))) httpPathProxy = true ->
  canonical_keys (Request.Header r) = true ->
  canonical_keys (Response.Header resp) = true ->
  forwarded (ServeHTTP s r) = [req] ->
  client_Do req = Ok resp ->
  outbound (ServeHTTP s r) = [Do req]
  ∧ Request.Method req = Request.Method r
  ∧ (forall k, default [] (Request.Header req !! k)
               = default [] (Request.Header r !! k))
  ∧ Request.Body req = Request.Body r
  ∧ (exists pre,
        ServeHTTP s r
        = pre ++ [ WriteHeader (Response.StatusCode resp);
                   Write (Bytes (Response.Body resp)) ]
        ∧ existsb is_write pre = false)
  ∧ (final_status (Response.StatusCode resp) = true ->
     client_status (ServeHTTP s r) = Some (Response.StatusCode resp)
     ∧ client_body (ServeHTTP s r)
       = (if bodyAllowedForStatus (Response.StatusCode resp)
             && negb (String.eqb (Response.Body resp) "")
          then [Bytes (Response.Body resp)] else [])
     ∧ exists hdr,
         client_header (ServeHTTP s r) = Some hdr
         ∧ forall k, exists own,
             default [] (hdr !! k) = own ++ default [] (Response.Header resp !! k)).
Proof.
  intros Hopt Hm Hp Hcr Hcu Hfw Hdo.
  assert (In (Do req) (ServeHTTP s r)) as Hin.
  { apply forwarded_In. rewrite Hfw. left. }
  clear Hfw. rewrite ServeHTTP_proxy in Hin |- * by done.
  apply in_app_or in Hin as [Hin|Hin].
  { simpl in Hin. intuition discriminate. }
  destruct (proxyRequest_forwarded_inv _ _ _ _ Hin)
    as (body & req0 & Ht & Hbody & Hnew & Hreq & Hevs).
  rewrite Hevs, Hdo. clear Hevs Hin.
  destruct (http_NewRequest_inv _ _ _ _ Hnew) as (u & Hu & ->).
  rewrite (eqb_empty_false _ Hm) in Hreq.
  split; [|split; [|split; [|split; [|split]]]].
  - unfold outbound. simpl. rewrite List.filter_app. simpl.
    fold (outbound (proxy_relay_header (Header_range (Response.Header resp)))).
    by rewrite outbound_relay.
  - by subst req.
  - intros k. subst req. simpl.
    rewrite proxy_copy_header_range by (intros n; by apply canonical_keys_spec).
    by rewrite lookup_empty.
  - by subst req.
  - eexists (_ :: _ :: _ :: _ :: _ :: _ :: _ :: proxy_relay_header _). split.
    + simpl. reflexivity.
    + simpl. apply relay_header_no_write.
  - intros Hfinal. apply final_not_informational in Hfinal.
    unfold client_status, client_body, client_header, rw_run. simpl.
    rewrite foldl_app, rw_run_relay, rw_finish by done. simpl.
    split; [done|]. split.
    + by destruct (String.eqb (Response.Body resp) ""),
                (bodyAllowedForStatus (Response.StatusCode resp)).
    + eexists. split; [done|]. intros k.
      rewrite proxy_copy_header_range by (intros n; by apply canonical_keys_spec).
      by eexists.
Qed.

(** C9. A request that is not a preflight, whose path has the proxy prefix
    and whose [proxyUrl] parameter is absent or empty is answered with
    status 400 and the message that the parameter is required, and
    nothing is sent upstream. *)
Theorem C9_proxy_requires_target (s : Server) (r : Request.t) :
  Request.Method r ≠ MethodOptions ->
  HasPrefix (stripBasePath s (Path (Request.URL r))) httpPathProxy = true ->
  Values_Get (URL_Query (Request.URL r)) queryParamProxyURL = "" ->
  returns_error (ServeHTTP s r) StatusBadRequest
    "proxyUrl query parameter is required for all requests"
  ∧ client_status (ServeHTTP s r) = Some 400%Z
  ∧ client_body (ServeHTTP s r)
    = [Bytes ("proxyUrl query parameter is required for all requests"
              +:+ String (ascii_of_nat 10) "")]
  ∧ outbound (ServeHTTP s r) = [].
Proof.
  intros Hopt Hp Ht. rewrite ServeHTTP_proxy by done.
  unfold proxyRequest. rewrite Ht. simpl String.eqb. cbv iota.
  split; [|done]. by apply logAndSendError_returns.
Qed.

End ProxyFacts.

(** ** The server on the example deployment *)

(** Closes a goal on the reply of a run of the server, given the number of
    events before the reply. *)
Ltac reply_after n :=
  lazymatch goal with
  | |- returns_error ?evs _ _ =>
      let pre := eval vm_compute in (take n evs) in
      exists pre; split; vm_compute; reflexivity
  | |- returns_document ?evs _ =>
      let pre := eval vm_compute in (take n evs) in
      exists pre; split; vm_compute; reflexivity
  end.

(** C1 on the order service: the first server url [v1] is resolved against
    the URL the document was fetched from, and the two original entries
    follow. *)
Lemma C1_witness :
  exists doc,
    returns_document
      (Example.serveIndividualSpec Example.server
         (Example.request "GET" "/api/orders" ∅ "")) doc
    ∧ doc !! "servers"
      = Some (JArray [ server_entry "http://orders.example/api/openapi.json/v1";
                       server_entry "v1"; server_entry "https://cdn.example/api" ]).
Proof.
  destruct (@C1_render_openapi3_servers RefLib.lib Example.http_Get Example.server
              (Example.request "GET" "/api/orders" ∅ "") "orders"
              (UpdateSpecs_metadata Example.orders) Example.orders_response
              Example.orders_url Example.orders_spec)
    as (doc & Hdoc & Hfirst & _); [vm_compute; reflexivity ..|].
  exists doc. split; [exact Hdoc|].
  rewrite (Hfirst {[ "url" := JString "v1" ]} [server_entry "https://cdn.example/api"] "v1");
    vm_compute; reflexivity.
Defined.

(** C2 on the pet store URL: a relative path component is joined under the
    whole path of the base, and one that starts with a slash replaces it. *)
Lemma C2_witness :
  makeServerURL (H := RefLib.lib) Example.petstore_url "api/v1"
  = "http://spec.example/v2/swagger.json/api/v1"
  ∧ makeServerURL (H := RefLib.lib) Example.petstore_url "/v3"
    = "http://spec.example/v3".
Proof.
  split.
  - destruct (@C2_resolve_path_component RefLib.lib Example.petstore_url "api/v1")
      as (Heq & _); [done | vm_compute; reflexivity |].
    rewrite Heq. vm_compute. reflexivity.
  - destruct (@C2_resolve_path_component RefLib.lib Example.petstore_url "/v3")
      as (_ & Hslash & _); [done | vm_compute; reflexivity |].
    rewrite Hslash by reflexivity. vm_compute. reflexivity.
Defined.

(** C3 on the pet store: the scenario of the specification. *)
Lemma C3_witness :
  exists doc,
    returns_document
      (Example.serveIndividualSpec Example.server
         (Example.request "GET" "/api/petstore" ∅ "")) doc
    ∧ doc !! "host" = Some (JString "spec.example")
    ∧ doc !! "basePath" = Some (JString "/v2").
Proof.
  destruct (@C3_render_swagger2_host RefLib.lib Example.http_Get Example.server
              (Example.request "GET" "/api/petstore" ∅ "") "petstore"
              (UpdateSpecs_metadata Example.petstore) Example.petstore_response
              Example.petstore_url Example.petstore_spec)
    as (doc & Hdoc & Hhost & Hbase & _); [vm_compute; reflexivity ..|].
  exists doc. split; [exact Hdoc|]. split; [exact Hhost|].
  rewrite Hbase. vm_compute. reflexivity.
Defined.

(** C4 on the pet store: one GET, and the document. *)
Lemma C4_witness :
  outbound (Example.serveIndividualSpec Example.server
              (Example.request "GET" "/api/petstore" ∅ ""))
  = [Get "http://spec.example/v2/swagger.json"].
Proof.
  destruct (@C4_render_single_fetch RefLib.lib Example.http_Get Example.server
              (Example.request "GET" "/api/petstore" ∅ "") "petstore"
              (UpdateSpecs_metadata Example.petstore))
    as (Hout & _); [vm_compute; reflexivity ..|].
  exact Hout.
Defined.

(** The claim C4 fails on the billing service: its answer has status 201, a
    2xx status, and a body that decodes as a JSON object, and yet the
    handler answers with an error and no document. *)
Lemma C4_counterexample :
  specs Example.server !! "billing" = Some (UpdateSpecs_metadata Example.billing)
  ∧ Example.http_Get (APIMetadata.URL (UpdateSpecs_metadata Example.billing))
    = Ok Example.billing_response
  ∧ (200 <= Response.StatusCode Example.billing_response < 300)%Z
  ∧ json_Decode (GoLib := RefLib.lib) (Response.Body Example.billing_response)
    = Ok Example.billing_spec
  ∧ returns_error
      (Example.serveIndividualSpec Example.server
         (Example.request "GET" "/api/billing" ∅ ""))
      201 "Failed to fetch spec, status: 201"
  ∧ ¬ exists doc,
        returns_document
          (Example.serveIndividualSpec Example.server
             (Example.request "GET" "/api/billing" ∅ "")) doc.
Proof.
  split; [vm_compute; reflexivity|]. split; [vm_compute; reflexivity|].
  split; [done|]. split; [vm_compute; reflexivity|].
  split; [reply_after 2|].
  intros (doc & pre & Hevs & _).
  apply (f_equal last) in Hevs. rewrite last_app in Hevs.
  vm_compute in Hevs. discriminate.
Qed.

(** C5 on a batch of one errored and one error-free candidate: the
    registry holds the record of the pet store and nothing else. *)
Lemma C5_witness :
  specs (UpdateSpecs Example.empty_server [Example.broken; Example.petstore]).1
  = {[ "petstore" :=
         {| APIMetadata.Name := "petstore";
            APIMetadata.URL := "http://spec.example/v2/swagger.json";
            APIMetadata.Title := "petstore";
            APIMetadata.Version := "";
            APIMetadata.Description := "API from default/petstore-svc";
            APIMetadata.ResourceType := "Service";
            APIMetadata.ResourceName := "petstore-svc";
            APIMetadata.Namespace := "default";
            APIMetadata.LastUpdated := "2024-05-01T10:00:00Z";
            APIMetadata.AllowedMethods := ["GET"; "POST"];
            APIMetadata.Error := "" |} ]}.
Proof.
  destruct (C5_replace_keeps_error_free Example.empty_server []) as (_ & _ & _ & Hpair).
  destruct (Hpair Example.broken Example.petstore) as [Hsnap _]; [done | done |].
  exact Hsnap.
Defined.

(** C6 fails on the inventory service, which is registered and refuses the
    connection: the body the client receives is the text written to the
    log, with the cause of the failure in it (the address dialled). The same
    happens for a relay target that cannot be reached; the reply to an
    unknown name is the generic one, and only its log line has the name. *)
Theorem C6_error_reply_carries_cause :
  let fetch := Example.ServeHTTP Example.server (Example.request "GET" "/api/inventory" ∅ "") in
  let relay := Example.ServeHTTP Example.server Example.proxy_request_unreachable in
  let unknown := Example.ServeHTTP Example.server (Example.request "GET" "/api/unknown" ∅ "") in
  let cause :=
    "Get " +:+ dquote +:+ "http://inventory.example/openapi.json" +:+ dquote
    +:+ ": dial tcp 10.0.3.7:80: connect: connection refused" in
  Example.http_Get "http://inventory.example/openapi.json" = Err cause
  ∧ client_status (H := RefLib.lib) fetch = Some 500%Z
  ∧ client_body (H := RefLib.lib) fetch
    = [Bytes ("Failed to fetch spec: " +:+ cause +:+ Example.newline)]
  ∧ logged fetch
    = [ "Handling request: GET /api/inventory";
        "[GET /api/inventory] HTTP 500 - Failed to fetch spec: " +:+ cause ]
  ∧ client_body (H := RefLib.lib) relay
    = [Bytes ("Failed to forward request: Get " +:+ dquote
              +:+ "http://ledger.internal/balance" +:+ dquote
              +:+ ": dial tcp: lookup ledger.internal: no such host"
              +:+ Example.newline)]
  ∧ client_status (H := RefLib.lib) unknown = Some 404%Z
  ∧ client_body (H := RefLib.lib) unknown = [Bytes ("API not found" +:+ Example.newline)]
  ∧ logged unknown
    = [ "Handling request: GET /api/unknown";
        "[GET /api/unknown] HTTP 404 - API not found: unknown" ].
Proof.
  repeat split; vm_compute; reflexivity.
Qed.

(** C7 on the pet store: the candidate is accepted. *)
Lemma C7_witness :
  exists stored,
    specs Example.server !! "petstore" = Some stored
    ∧ APIMetadata.URL stored = "http://spec.example/v2/swagger.json"
    ∧ APIMetadata.Title stored = "petstore"
    ∧ APIMetadata.Description stored = "API from default/petstore-svc".
Proof.
  destruct (C7_stored_record_fields Example.empty_server Example.batch Example.petstore)
    as (stored & Hstored & _ & Hurl & _ & _ & _ & _ & _ & _ & Htitle & Hdesc & _);
    [vm_compute; reflexivity|].
  exists stored. split; [exact Hstored|]. split; [exact Hurl|].
  split; [exact Htitle|]. rewrite Hdesc. vm_compute. reflexivity.
Defined.

(** The claim C7 fails on the pet store: the candidate is accepted, and the
    stored title, description and version are not the ones supplied. *)
Lemma C7_counterexample :
  Example.petstore ∈ Example.batch
  ∧ APIMetadata.Error Example.petstore = ""
  ∧ exists stored,
      specs (UpdateSpecs Example.empty_server Example.batch).1 !! "petstore" = Some stored
      ∧ APIMetadata.Title Example.petstore = "Pet Store"
      ∧ APIMetadata.Title stored = "petstore"
      ∧ APIMetadata.Description Example.petstore = "The pet store"
      ∧ APIMetadata.Description stored = "API from default/petstore-svc"
      ∧ APIMetadata.Version Example.petstore = "1.0.7"
      ∧ APIMetadata.Version stored = ""
      ∧ stored ≠ Example.petstore.
Proof.
  split; [left|]. split; [done|].
  exists (UpdateSpecs_metadata Example.petstore).
  split; [vm_compute; reflexivity|]. repeat split. discriminate.
Qed.

(** C8 on a call relayed to the order service: the two cookies of the
    upstream arrive in order, after the headers the server set itself. *)
Lemma C8_witness :
  outbound (Example.ServeHTTP Example.server Example.proxy_request)
  = [Do Example.proxy_outbound]
  ∧ client_status (H := RefLib.lib)
      (Example.ServeHTTP Example.server Example.proxy_request) = Some 202%Z
  ∧ client_body (H := RefLib.lib)
      (Example.ServeHTTP Example.server Example.proxy_request) = [Bytes "id=7"]
  ∧ client_header (H := RefLib.lib)
      (Example.ServeHTTP Example.server Example.proxy_request)
    = Some {[ "Access-Control-Allow-Origin" := ["*"];
              "Access-Control-Allow-Methods" := ["GET, POST, OPTIONS"];
              "Access-Control-Allow-Headers" := ["Content-Type, Authorization"];
              "Access-Control-Expose-Headers" := ["Content-Length"];
              "Set-Cookie" := ["a=1"; "b=2"];
              "Content-Type" := ["text/plain"] ]}.
Proof.
  destruct (@C8_proxy_relays_verbatim RefLib.lib Example.http_Get Example.client_Do
              Example.serveStatic Example.serveStatic Example.server
              Example.proxy_request Example.proxy_outbound Example.proxy_response)
    as (Hout & _ & _ & _ & _ & Hclient);
    [done | done | vm_compute; reflexivity ..|].
  destruct Hclient as (Hst & Hbody & _); [reflexivity|].
  split; [exact Hout|]. split; [exact Hst|]. split; [exact Hbody|].
  vm_compute. reflexivity.
Defined.

(** C9 on a call to the relay that names no target. *)
Lemma C9_witness :
  returns_error
    (Example.ServeHTTP Example.server Example.proxy_request_no_target)
    400 "proxyUrl query parameter is required for all requests"
  ∧ outbound (Example.ServeHTTP Example.server Example.proxy_request_no_target) = [].
Proof.
  destruct (@C9_proxy_requires_target RefLib.lib Example.http_Get Example.client_Do
              Example.serveStatic Example.serveStatic Example.server
              Example.proxy_request_no_target)
    as (Herr & _ & _ & Hout); [done | vm_compute; reflexivity ..|].
  split; [exact Herr | exact Hout].
Defined.

(** C10 on the relayed call: the outbound URL is the decoded [proxyUrl]
    value, and the same call through another path is forwarded alike. *)
Lemma C10_witness :
  Request.URL Example.proxy_outbound
  = Example.url "http" "orders.example" "/v1/orders" "page=2"
  ∧ forwarded (Example.proxyRequest Example.server Example.proxy_request_elsewhere)
    = [Example.proxy_outbound].
Proof.
  destruct (@C10_proxy_target_only RefLib.lib Example.client_Do Example.server
              Example.proxy_request Example.proxy_outbound)
    as (_ & Hsame); [vm_compute; reflexivity|].
  split; [reflexivity|].
  apply (Hsame Example.server Example.proxy_request_elsewhere); vm_compute; reflexivity.
Defined.

(** * Further properties of the code *)

(** ** Paths and location rewriting *)

(** X1. [stripBasePath] removes a configured base path from the front of a
    path, whatever follows it, and leaves every other path as it is; with
    no base path configured it changes nothing. *)
Theorem X1_stripBasePath_removes_prefix (s : Server) (rest path : string) :
  (basePath s ≠ "" -> stripBasePath s (basePath s +:+ rest) = rest)
  ∧ (HasPrefix path (basePath s) = false -> stripBasePath s path = path)
  ∧ (basePath s = "" -> stripBasePath s path = path).
Proof.
  unfold stripBasePath. split; [|split].
  - intros Hb. by rewrite (eqb_empty_false _ Hb), HasPrefix_app, TrimPrefix_app.
  - intros ->. by rewrite andb_false_r.
  - by intros ->.
Qed.

Section LocationFacts.
Context `{GoLib}.

(** X2. For a path component that is empty, parses as an absolute URL or
    starts with a slash, [makeServerURL] uses the scheme and the host of
    the base and nothing else of it: its path, query and fragment do not
    matter. *)
Theorem X2_makeServerURL_scheme_host_only (base base' : URL) (pathComponent : string) :
  Scheme base' = Scheme base ->
  Host base' = Host base ->
  pathComponent = "" ∨ parses_absolute pathComponent = true
  ∨ HasPrefix pathComponent "/" = true ->
  makeServerURL base' pathComponent = makeServerURL base pathComponent.
Proof.
  intros Hs Hh Hpc. unfold makeServerURL. rewrite Hs, Hh.
  destruct (String.eqb_spec pathComponent "") as [Hempty|Hne]; [done|].
  fold (parses_absolute pathComponent).
  destruct (parses_absolute pathComponent); [done|].
  destruct Hpc as [->|[?|Hslash]]; [done|done|]. by rewrite Hslash.
Qed.

(** The document [updateSpecServerInfo] returns for a document of neither
    marked dialect. *)
Lemma updateSpecServerInfo_legacy (spec : gmap string json) (base : URL) :
  isLegacy spec = true ->
  updateSpecServerInfo spec base
  = match asString (spec !! "basePath") with
    | Some basePath => <["basePath" := JString (makeServerURL base basePath)]> spec
    | None => spec
    end.
Proof.
  unfold isLegacy, isOpenAPI3, isSwagger2, updateSpecServerInfo.
  intros Hl. apply andb_true_iff in Hl as [H3 H2].
  apply negb_true_iff in H3, H2.
  assert (negb (String.eqb (default "" (asString (spec !! "openapi"))) "")
          && HasPrefix (default "" (asString (spec !! "openapi"))) "3." = false) as ->.
  { destruct (asString (spec !! "openapi")) as [v|]; [|done].
    change (default "" (Some v)) with v. by rewrite H3, andb_false_r. }
  assert (String.eqb (default "" (asString (spec !! "swagger"))) "2.0" = false) as ->.
  { by destruct (asString (spec !! "swagger")). }
  done.
Qed.

(** X3. [updateSpecServerInfo] touches one top-level field, chosen by the
    dialect: [servers] for OpenAPI 3.x (also when the document carries the
    Swagger 2.0 marker as well), [host] for Swagger 2.0, [basePath]
    otherwise. Every other field keeps its value, and no field is
    removed. *)
Theorem X3_updateSpecServerInfo_frame (spec : gmap string json) (base : URL) :
  (forall field,
      field ≠ (if isOpenAPI3 spec then "servers"
               else if isSwagger2 spec then "host" else "basePath") ->
      updateSpecServerInfo spec base !! field = spec !! field)
  ∧ (forall field,
        is_Some (spec !! field) -> is_Some (updateSpecServerInfo spec base !! field)).
Proof.
  assert (exists key v,
             ((key = if isOpenAPI3 spec then "servers"
                     else if isSwagger2 spec then "host" else "basePath")
              ∧ updateSpecServerInfo spec base = <[key := v]> spec)
             ∨ updateSpecServerInfo spec base = spec) as (key & v & Hcases).
  { destruct (isOpenAPI3 spec) eqn:H3.
    - eexists _, _. left. split; [done|]. by apply updateSpecServerInfo_openapi3.
    - destruct (isSwagger2 spec) eqn:H2.
      + eexists _, _. left. split; [done|]. by apply updateSpecServerInfo_swagger2.
      + rewrite updateSpecServerInfo_legacy by (unfold isLegacy; by rewrite H3, H2).
        destruct (asString (spec !! "basePath")).
        * eexists _, _. left. done.
        * exists "", JNull. by right. }
  destruct Hcases as [[-> ->]| ->]; [|done]. split.
  - intros field Hne. by rewrite lookup_insert_ne.
  - intros field Hsome. rewrite lookup_insert. by case_decide.
Qed.

(** X4. For a document of neither marked dialect, a string [basePath] is
    replaced by its resolution against the base and nothing else changes; a
    document without a string [basePath] is returned as it is. *)
Theorem X4_updateSpecServerInfo_legacy_basePath (spec : gmap string json) (base : URL) :
  isLegacy spec = true ->
  (forall basePath,
      spec !! "basePath" = Some (JString basePath) ->
      updateSpecServerInfo spec base
      = <["basePath" := JString (makeServerURL base basePath)]> spec)
  ∧ (asString (spec !! "basePath") = None -> updateSpecServerInfo spec base = spec).
Proof.
  intros Hl. rewrite updateSpecServerInfo_legacy by done. split.
  - by intros basePath ->.
  - by intros ->.
Qed.

Lemma isOpenAPI3_insert (spec : gmap string json) (key : string) (v : json) :
  key ≠ "openapi" -> isOpenAPI3 (<[key := v]> spec) = isOpenAPI3 spec.
Proof. intros Hk. unfold isOpenAPI3. by rewrite lookup_insert_ne. Qed.

Lemma isSwagger2_insert (spec : gmap string json) (key : string) (v : json) :
  key ≠ "swagger" -> isSwagger2 (<[key := v]> spec) = isSwagger2 spec.
Proof. intros Hk. unfold isSwagger2. by rewrite lookup_insert_ne. Qed.

(** X5. Rewriting a document that was already rewritten: a Swagger 2.0
    document does not change any more, and an OpenAPI 3.x document gains
    one more entry at the head of [servers] each time. *)
Theorem X5_updateSpecServerInfo_again (spec : gmap string json) (base : URL) :
  (isOpenAPI3 spec = false -> isSwagger2 spec = true ->
   updateSpecServerInfo (updateSpecServerInfo spec base) base
   = updateSpecServerInfo spec base)
  ∧ (isOpenAPI3 spec = true ->
     isOpenAPI3 (updateSpecServerInfo spec base) = true
     ∧ length (original_servers (updateSpecServerInfo spec base))
       = S (length (original_servers spec))
     ∧ exists entry,
         original_servers (updateSpecServerInfo spec base)
         = entry :: original_servers spec).
Proof.
  split.
  - intros H3 H2. rewrite (updateSpecServerInfo_swagger2 spec) by done.
    rewrite updateSpecServerInfo_swagger2.
    + by rewrite insert_insert_eq.
    + by rewrite isOpenAPI3_insert.
    + by rewrite isSwagger2_insert.
  - intros H3. rewrite updateSpecServerInfo_openapi3 by done.
    rewrite isOpenAPI3_insert by done. split; [done|].
    assert (original_servers
              (<["servers" :=
                   JArray (server_entry
                             (makeServerURL base (default "" (first_server_url spec)))
                           :: original_servers spec)]> spec)
            = server_entry (makeServerURL base (default "" (first_server_url spec)))
              :: original_servers spec) as ->.
    { unfold original_servers at 1. by rewrite lookup_insert_eq. }
    split; [done|]. by eexists.
Qed.

End LocationFacts.

(** ** The registry and the polling loop *)

Lemma UpdateSpecs_basePath (s : Server) (apis : list APIMetadata.t) :
  basePath (UpdateSpecs s apis).1 = basePath s.
Proof. unfold UpdateSpecs. by destruct (foldl UpdateSpecs_step (∅, []) apis). Qed.

Lemma UpdateSpecs_server (s s' : Server) (apis : list APIMetadata.t) :
  basePath s' = basePath s -> (UpdateSpecs s' apis).1 = (UpdateSpecs s apis).1.
Proof.
  intros Hb. unfold UpdateSpecs.
  destruct (foldl UpdateSpecs_step (∅, []) apis). simpl. by rewrite Hb.
Qed.

(** X6. [UpdateSpecs] replaces the registry as a whole: the new registry
    depends on the batch alone, not on what the server held before, a name
    that no accepted candidate of the batch carries is no longer known, and
    the base path of the server stays. *)
Theorem X6_UpdateSpecs_replaces_whole_registry (s s' : Server)
    (apis : list APIMetadata.t) :
  specs (UpdateSpecs s apis).1 = specs (UpdateSpecs s' apis).1
  ∧ (forall name, accepted_as name apis = [] ->
                  specs (UpdateSpecs s apis).1 !! name = None)
  ∧ basePath (UpdateSpecs s apis).1 = basePath s.
Proof.
  split; [by rewrite !UpdateSpecs_specs|]. split; [|apply UpdateSpecs_basePath].
  intros name Hnone. by rewrite UpdateSpecs_lookup, Hnone.
Qed.

Lemma UpdateSpecs_metadata_fixed (api : APIMetadata.t) :
  UpdateSpecs_metadata (UpdateSpecs_metadata api) = UpdateSpecs_metadata api.
Proof. done. Qed.

Lemma UpdateSpecs_stored (s : Server) (apis : list APIMetadata.t) (name : string)
    (stored : APIMetadata.t) :
  specs (UpdateSpecs s apis).1 !! name = Some stored ->
  APIMetadata.Name stored = name ∧ APIMetadata.Error stored = ""
  ∧ UpdateSpecs_metadata stored = stored.
Proof.
  rewrite UpdateSpecs_lookup. intros Hl. apply fmap_Some in Hl as (api & Hlast & ->).
  apply last_Some_elem_of, list_elem_of_filter in Hlast as [[Hname _] _].
  done.
Qed.

(** X7. In the registry that [UpdateSpecs] installs, every record is stored
    under its own name, has an empty error and its name as title; and
    handing the stored records back to [UpdateSpecs], in any order,
    installs the same registry again. *)
Theorem X7_registry_keyed_by_name (s s0 : Server) (apis : list APIMetadata.t) :
  (forall name stored,
      specs (UpdateSpecs s apis).1 !! name = Some stored ->
      APIMetadata.Name stored = name ∧ APIMetadata.Error stored = ""
      ∧ APIMetadata.Title stored = name)
  ∧ (forall records,
        records ≡ₚ (map_to_list (specs (UpdateSpecs s apis).1)).*2 ->
        specs (UpdateSpecs s0 records).1 = specs (UpdateSpecs s apis).1).
Proof.
  split.
  - intros name stored Hl. destruct (UpdateSpecs_stored _ _ _ _ Hl) as (Hn & He & Hfix).
    repeat split; [done..|]. rewrite <- Hfix. simpl. by rewrite Hn.
  - intros records Hperm. set (m := specs (UpdateSpecs s apis).1) in *.
    apply map_eq. intros name. rewrite UpdateSpecs_lookup.
    assert (forall x, x ∈ accepted_as name records <-> m !! name = Some x) as Hin.
    { intros x. unfold accepted_as. rewrite list_elem_of_filter, Hperm, list_elem_of_fmap.
      split.
      - intros [[Hn _] ([k y] & -> & Hky)]. apply elem_of_map_to_list in Hky.
        destruct (UpdateSpecs_stored _ _ _ _ Hky) as (Hk & _). simpl in *. congruence.
      - intros Hx. destruct (UpdateSpecs_stored _ _ _ _ Hx) as (Hn & He & _).
        split; [done|]. exists (name, x). split; [done|].
        by apply elem_of_map_to_list. }
    destruct (last (accepted_as name records)) as [x|] eqn:Hlast.
    + apply last_Some_elem_of, Hin in Hlast as Hx. rewrite Hx. simpl. f_equal.
      by destruct (UpdateSpecs_stored _ _ _ _ Hx) as (_ & _ & ?).
    + apply last_None in Hlast. destruct (m !! name) as [x|] eqn:Hx; [|done].
      assert (x ∈ accepted_as name records) as Hx' by by apply Hin.
      rewrite Hlast in Hx'. by apply not_elem_of_nil in Hx'.
Qed.

Lemma accepted_as_accepted (name : string) (apis : list APIMetadata.t) :
  accepted_as name apis = filter (λ api, APIMetadata.Name api = name) (accepted apis).
Proof. unfold accepted_as, accepted. by rewrite list_filter_filter. Qed.

(** Under names that are distinct, at most one candidate is accepted under
    a name. *)
Lemma accepted_as_unique (name : string) (apis : list APIMetadata.t) :
  NoDup (APIMetadata.Name <$> accepted apis) ->
  (length (accepted_as name apis) <= 1)%nat.
Proof.
  rewrite accepted_as_accepted. generalize (accepted apis). intros l.
  induction l as [|a l IH]; intros Hnd; [simpl; lia|].
  rewrite fmap_cons in Hnd. apply NoDup_cons in Hnd as [Ha Hnd].
  rewrite filter_cons. case_decide as Hname; [|by apply IH].
  assert (filter (λ api, APIMetadata.Name api = name) l = []) as ->; [|simpl; lia].
  destruct (filter _ l) as [|b l'] eqn:Hf; [done|]. exfalso. apply Ha.
  assert (b ∈ filter (λ api, APIMetadata.Name api = name) l) as Hb
    by (rewrite Hf; left).
  apply list_elem_of_filter in Hb as [Hbn Hbl].
  apply list_elem_of_fmap. exists b. split; [congruence|done].
Qed.

(** X8. When the accepted candidates of a batch have distinct names, the
    registry does not depend on the order of the batch. *)
Theorem X8_UpdateSpecs_order_independent (s : Server) (apis apis' : list APIMetadata.t) :
  apis ≡ₚ apis' ->
  NoDup (APIMetadata.Name <$> accepted apis) ->
  specs (UpdateSpecs s apis).1 = specs (UpdateSpecs s apis').1.
Proof.
  intros Hp Hnd. apply map_eq. intros name. rewrite !UpdateSpecs_lookup. f_equal.
  assert (accepted_as name apis ≡ₚ accepted_as name apis') as Hpa.
  { unfold accepted_as. by rewrite Hp. }
  pose proof (accepted_as_unique name apis Hnd) as Hlen.
  destruct (accepted_as name apis) as [|a [|b l]]; simpl in Hlen; [| |lia].
  - by apply Permutation_nil in Hpa as ->.
  - by apply Permutation_singleton_l in Hpa as ->.
Qed.

Lemma UpdateSpecs_fold_log (apis : list APIMetadata.t) :
  (foldl UpdateSpecs_step (∅, []) apis).2
  = (λ api, Log WarnLevel ("Skipping API spec for " +:+ APIMetadata.Name api
                           +:+ " due to existing error: " +:+ APIMetadata.Error api))
    <$> skipped apis.
Proof.
  induction apis as [|api apis IH] using rev_ind; [done|].
  rewrite foldl_app. unfold skipped in *. rewrite filter_app, fmap_app, <- IH.
  simpl. destruct (foldl UpdateSpecs_step (∅, []) apis) as [newSpecs log]. simpl.
  rewrite filter_cons, filter_nil.
  destruct (String.eqb_spec (APIMetadata.Error api) "") as [Herr|Herr]; simpl.
  - rewrite decide_False by tauto. by rewrite app_nil_r.
  - by rewrite decide_True by done.
Qed.

(** X9. [UpdateSpecs] logs one warning for each candidate it skips, in batch
    order and with the candidate's name and error, and then one line with
    the number of records now in the registry. *)
Theorem X9_UpdateSpecs_log (s : Server) (apis : list APIMetadata.t) :
  (UpdateSpecs s apis).2
  = ((λ api, Log WarnLevel ("Skipping API spec for " +:+ APIMetadata.Name api
                            +:+ " due to existing error: " +:+ APIMetadata.Error api))
     <$> skipped apis)
    ++ [Log InfoLevel ("API specs updated. Total specs: "
                       +:+ pretty (size (specs (UpdateSpecs s apis).1)))].
Proof.
  rewrite <- UpdateSpecs_fold_log. unfold UpdateSpecs.
  by destruct (foldl UpdateSpecs_step (∅, []) apis).
Qed.

Lemma accepted_as_all_skipped (name : string) (apis : list APIMetadata.t) :
  Forall (λ api, APIMetadata.Error api ≠ "") apis -> accepted_as name apis = [].
Proof.
  intros Hall. unfold accepted_as. induction Hall as [|api apis Herr _ IH]; [done|].
  rewrite filter_cons. by rewrite decide_False by tauto.
Qed.

Lemma watchSpecsConfigMap_round_server (namespace configMapName : string)
    (s : Server) (loaded : list APIMetadata.t) :
  (watchSpecsConfigMap_round namespace configMapName s loaded).1
  = match loaded with
    | [] => s
    | _ :: _ => (UpdateSpecs s loaded).1
    end.
Proof.
  unfold watchSpecsConfigMap_round. destruct loaded as [|api loaded]; [done|].
  change (0 <? length (api :: loaded))%nat with true. cbv iota.
  by destruct (UpdateSpecs s (api :: loaded)).
Qed.

(** X10. A round of the polling loop that loaded nothing leaves the server
    as it was. A round that loaded candidates hands them to [UpdateSpecs];
    when every one of them carries an error, the registry is left empty,
    whatever it held before. *)
Theorem X10_poll_round (namespace configMapName : string) (s : Server)
    (loaded : list APIMetadata.t) :
  (watchSpecsConfigMap_round namespace configMapName s []).1 = s
  ∧ (loaded ≠ [] ->
     (watchSpecsConfigMap_round namespace configMapName s loaded).1
     = (UpdateSpecs s loaded).1)
  ∧ (loaded ≠ [] ->
     Forall (λ api, APIMetadata.Error api ≠ "") loaded ->
     specs (watchSpecsConfigMap_round namespace configMapName s loaded).1 = ∅).
Proof.
  rewrite !watchSpecsConfigMap_round_server. split; [done|].
  destruct loaded as [|api loaded]; [done|]. split; [done|].
  intros _ Hall. apply map_eq. intros name.
  by rewrite UpdateSpecs_lookup, accepted_as_all_skipped, lookup_empty.
Qed.

(** The server after the loop. *)
Lemma watchSpecsConfigMap_server (namespace configMapName : string) (s : Server)
    (polls : list (list APIMetadata.t)) :
  (watchSpecsConfigMap namespace configMapName s polls).1
  = match last (effective_polls polls) with
    | Some loaded => (UpdateSpecs s loaded).1
    | None => s
    end.
Proof.
  unfold watchSpecsConfigMap, effective_polls.
  induction polls as [|loaded polls IH] using rev_ind; [done|].
  rewrite foldl_app, filter_app. simpl.
  set (acc := foldl _ (s, []) polls) in *.
  assert (basePath acc.1 = basePath s) as Hbase.
  { rewrite IH. destruct (last _); [apply UpdateSpecs_basePath|done]. }
  pose proof (watchSpecsConfigMap_round_server namespace configMapName acc.1 loaded)
    as Hround.
  destruct (watchSpecsConfigMap_round namespace configMapName acc.1 loaded)
    as [s' log]. simpl in *. subst s'.
  rewrite filter_cons, filter_nil. destruct loaded as [|api loaded].
  - rewrite decide_False by (by intros ?). by rewrite app_nil_r.
  - rewrite decide_True by done. rewrite last_snoc.
    by apply UpdateSpecs_server.
Qed.

(** X11. After any number of rounds of the polling loop, the server is the
    one that [UpdateSpecs] makes from the last round that loaded anything,
    and the server the loop started with when no round did. *)
Theorem X11_poll_loop_last_effective (namespace configMapName : string) (s : Server)
    (polls : list (list APIMetadata.t)) :
  (watchSpecsConfigMap namespace configMapName s polls).1
  = match last (effective_polls polls) with
    | Some loaded => (UpdateSpecs s loaded).1
    | None => s
    end.
Proof. apply watchSpecsConfigMap_server. Qed.

(** X25. The base path of the server is fixed when it is made: it is the
    value of [SWAGGER_BASE_PATH] in the environment, empty when the
    variable is not set, and no round of the polling loop changes it.
    Until a round loads candidates the registry is empty. *)
Theorem X25_base_path_fixed_at_start (env : gmap string string)
    (namespace configMapName : string) (polls : list (list APIMetadata.t)) :
  basePath (watchSpecsConfigMap namespace configMapName (NewServer env).1 polls).1
  = default "" (env !! "SWAGGER_BASE_PATH")
  ∧ (effective_polls polls = [] ->
     specs (watchSpecsConfigMap namespace configMapName (NewServer env).1 polls).1 = ∅).
Proof.
  rewrite watchSpecsConfigMap_server. split.
  - destruct (last _); [by rewrite UpdateSpecs_basePath|done].
  - by intros ->.
Qed.

(** ** Routing *)

Section RoutingFacts.
Context `{GoLib}.
Variable http_Get : string -> result Response.t.
Variable client_Do : Request.t -> result Response.t.
Variable serveIndex serveStaticFiles : Server -> Request.t -> list Event.

Abbreviation ServeHTTP := (ServeHTTP http_Get client_Do serveIndex serveStaticFiles).

(** A request that is not a preflight and whose path, without the base
    path, has the prefix of the specifications reaches
    [serveIndividualSpec]. *)
Lemma ServeHTTP_api (s : Server) (r : Request.t) :
  Request.Method r ≠ MethodOptions ->
  HasPrefix (stripBasePath s (Path (Request.URL r))) httpPathAPI = true ->
  ServeHTTP s r = ServeHTTP_prologue s r ++ serveIndividualSpec http_Get s r.
Proof.
  intros Hm Hp. unfold ServeHTTP, ServeHTTP_prologue.
  apply String.eqb_neq in Hm. rewrite Hm.
  destruct (HasPrefix_inv _ _ Hp) as [t Ht]. rewrite Ht.
  unfold httpPathAPI. string_app. done.
Qed.


Lemma ServeHTTP_not_found (s : Server) (r : Request.t) :
  Request.Method r ≠ MethodOptions ->
  HasPrefix (stripBasePath s (Path (Request.URL r))) httpPathAPI = true ->
  specs s !! TrimPrefix (Path (Request.URL r)) httpPathAPI = None ->
  ServeHTTP s r
  = ServeHTTP_prologue s r
    ++ logAndSendError r StatusNotFound
         (errMsgAPINotFound +:+ ": " +:+ TrimPrefix (Path (Request.URL r)) httpPathAPI)
         errMsgAPINotFound.
Proof.
  intros Hm Hp Hnone. rewrite ServeHTTP_api by done.
  unfold serveIndividualSpec. by rewrite Hnone.
Qed.

(** X12. A request for a specification under a name the registry does not
    hold is answered with status 404 and the fixed text [API not found];
    nothing is fetched, and only the log line carries the name. *)
Theorem X12_unknown_name_not_found (s : Server) (r : Request.t) :
  Request.Method r ≠ MethodOptions ->
  HasPrefix (stripBasePath s (Path (Request.URL r))) httpPathAPI = true ->
  specs s !! TrimPrefix (Path (Request.URL r)) httpPathAPI = None ->
  returns_error (ServeHTTP s r) StatusNotFound "API not found"
  ∧ client_status (ServeHTTP s r) = Some 404%Z
  ∧ client_body (ServeHTTP s r)
    = [Bytes ("API not found" +:+ String (ascii_of_nat 10) "")]
  ∧ outbound (ServeHTTP s r) = []
  ∧ last (logged (ServeHTTP s r))
    = Some ("[" +:+ Request.Method r +:+ " " +:+ Path (Request.URL r)
            +:+ "] HTTP 404 - API not found: "
            +:+ TrimPrefix (Path (Request.URL r)) httpPathAPI).
Proof.
  intros Hm Hp Hnone. rewrite ServeHTTP_not_found by done.
  split; [|done]. by apply logAndSendError_returns.
Qed.

(** X13. With a base path configured, the name of a requested specification
    is cut from the path as the client sent it, base path included. A
    request for a registered name through the base path is therefore
    answered with 404, without a fetch, unless the whole path is itself a
    registered name. *)
Theorem X13_base_path_hides_registered_names (s : Server) (r : Request.t)
    (name : string) (metadata : APIMetadata.t) :
  Request.Method r ≠ MethodOptions ->
  basePath s ≠ "" ->
  Path (Request.URL r) = basePath s +:+ httpPathAPI +:+ name ->
  HasPrefix (Path (Request.URL r)) httpPathAPI = false ->
  specs s !! name = Some metadata ->
  specs s !! Path (Request.URL r) = None ->
  returns_error (ServeHTTP s r) StatusNotFound "API not found"
  ∧ outbound (ServeHTTP s r) = [].
Proof.
  intros Hm Hb Hpath Hnp _ Hnone.
  assert (TrimPrefix (Path (Request.URL r)) httpPathAPI = Path (Request.URL r)) as Htrim.
  { unfold TrimPrefix. by rewrite Hnp. }
  rewrite ServeHTTP_not_found; [| done | | by rewrite Htrim].
  - split; [|done]. by apply logAndSendError_returns.
  - unfold stripBasePath.
    rewrite Hpath, (eqb_empty_false _ Hb), HasPrefix_app, TrimPrefix_app.
    apply HasPrefix_app.
Qed.



(** X15. A preflight request is answered with status 200 and no body on
    every path: no handler runs, nothing is fetched or relayed, and nothing
    is logged. *)
Theorem X15_preflight_short_circuit (s : Server) (r : Request.t) :
  Request.Method r = MethodOptions ->
  client_status (ServeHTTP s r) = Some 200%Z
  ∧ client_body (ServeHTTP s r) = []
  ∧ outbound (ServeHTTP s r) = []
  ∧ logged (ServeHTTP s r) = [].
Proof.
  intros Hm. unfold ServeHTTP. rewrite Hm. done.
Qed.

Lemma without_log_logAndSendError (r : Request.t) (code : Z) (internal user : string) :
  without_log (logAndSendError r code internal user) = http_Error user code.
Proof. done. Qed.

(** X16. A request for a specification is served alike for every method
    other than [OPTIONS], and whatever its header and body: two such
    requests with the same URL cause the same fetch and the same
    response. *)
Theorem X16_render_ignores_method (s : Server) (r r' : Request.t) :
  Request.Method r ≠ MethodOptions ->
  Request.Method r' ≠ MethodOptions ->
  Request.URL r' = Request.URL r ->
  HasPrefix (stripBasePath s (Path (Request.URL r))) httpPathAPI = true ->
  without_log (ServeHTTP s r') = without_log (ServeHTTP s r).
Proof.
  intros Hm Hm' Hurl Hp. rewrite !ServeHTTP_api by (by rewrite ?Hurl).
  unfold without_log. rewrite !List.filter_app. f_equal.
  unfold serveIndividualSpec. rewrite Hurl.
  destruct (specs s !! _) as [metadata|]; [|done]. simpl.
  destruct (http_Get _) as [resp|err]; [|done].
  destruct (negb _); [done|].
  destruct (url_Parse _); [|done]. by destruct (json_Decode _).
Qed.

End RoutingFacts.

(** ** The relay: failures and headers *)

Section RelayMoreFacts.
Context `{GoLib}.
Variable client_Do : Request.t -> result Response.t.

(** X17. For one inbound request the relay makes at most one outbound call,
    a call of [Client.Do], and never a second attempt. *)
Theorem X17_relay_at_most_one_call (s : Server) (r : Request.t) :
  outbound (proxyRequest client_Do s r) = []
  ∨ exists req, outbound (proxyRequest client_Do s r) = [Do req].
Proof.
  unfold proxyRequest.
  destruct (String.eqb _ ""); [by left|].
  destruct (Request.Body r) as [[b|e]|]; [|by left|].
  - destruct (http_NewRequest _ _ _) as [req0|err]; [|by left].
    right. eexists. unfold outbound. simpl. f_equal.
    destruct (client_Do _) as [resp|err]; [|done].
    rewrite List.filter_app. simpl.
    fold (outbound (proxy_relay_header (Header_range (Response.Header resp)))).
    by rewrite outbound_relay.
  - destruct (http_NewRequest _ _ _) as [req0|err]; [|by left].
    right. eexists. unfold outbound. simpl. f_equal.
    destruct (client_Do _) as [resp|err]; [|done].
    rewrite List.filter_app. simpl.
    fold (outbound (proxy_relay_header (Header_range (Response.Header resp)))).
    by rewrite outbound_relay.
Qed.

(** X18. When the relay has a target but cannot forward, it answers with
    status 500 and makes no outbound call: for a request body that cannot
    be read, with the fixed text [Failed to read request body], and for a
    target that [http.NewRequest] rejects. When the upstream call fails, it
    answers with status 500 after that one call. *)
Theorem X18_relay_failures (s : Server) (r : Request.t) :
  Values_Get (URL_Query (Request.URL r)) queryParamProxyURL ≠ "" ->
  (forall err,
      Request.Body r = Some (Err err) ->
      returns_error (proxyRequest client_Do s r) StatusInternalServerError
        "Failed to read request body"
      ∧ outbound (proxyRequest client_Do s r) = [])
  ∧ (forall body err,
        Request.Body r = Ok <$> body ->
        http_NewRequest (Request.Method r)
          (Values_Get (URL_Query (Request.URL r)) queryParamProxyURL) body = Err err ->
        (exists msg, returns_error (proxyRequest client_Do s r)
                       StatusInternalServerError msg)
        ∧ outbound (proxyRequest client_Do s r) = [])
  ∧ (forall req err,
        forwarded (proxyRequest client_Do s r) = [req] ->
        client_Do req = Err err ->
        (exists msg, returns_error (proxyRequest client_Do s r)
                       StatusInternalServerError msg)
        ∧ outbound (proxyRequest client_Do s r) = [Do req]).
Proof.
  intros Ht. split; [|split].
  - intros err Hbody. unfold proxyRequest.
    rewrite (eqb_empty_false _ Ht), Hbody. split; [|done].
    by apply (logAndSendError_returns [_]).
  - intros body err Hbody Hnew. unfold proxyRequest.
    rewrite (eqb_empty_false _ Ht), Hbody.
    assert (match Ok <$> body with
            | None => Ok None
            | Some (Ok bodyBytes) => Ok (Some bodyBytes)
            | Some (Err err) => Err err
            end = Ok body) as -> by by destruct body.
    rewrite Hnew. split; [|done].
    eexists. by apply (logAndSendError_returns [_]).
  - intros req err Hfw Hdo.
    assert (In (Do req) (proxyRequest client_Do s r)) as Hin.
    { apply forwarded_In. rewrite Hfw. left. }
    destruct (proxyRequest_forwarded_inv _ _ _ _ Hin)
      as (body & req0 & _ & _ & _ & _ & Hevs).
    rewrite Hevs, Hdo. split; [|done].
    eexists. by apply (logAndSendError_returns [_; _; _]).
Qed.

Lemma no_empty_values_spec (h : http_Header) (k : string) (vs : list string) :
  no_empty_values h = true -> h !! k = Some vs -> vs ≠ [].
Proof.
  unfold no_empty_values. rewrite forallb_forall. intros Hall Hk Hnil.
  specialize (Hall (k, vs)). simpl in Hall.
  rewrite bool_decide_eq_true_2 in Hall by done.
  assert (false = true) by (apply Hall, list_elem_of_In; by apply elem_of_map_to_list).
  done.
Qed.

Lemma Header_Add_fold_nonempty (h0 : http_Header) (n : string) (values : list string) :
  (forall k vs, h0 !! k = Some vs -> vs ≠ []) ->
  forall k vs, foldl (λ h v, Header_Add h n v) h0 values !! k = Some vs -> vs ≠ [].
Proof.
  revert h0. induction values as [|v values IH]; intros h0 Hh0; [done|].
  simpl. apply IH. intros k vs. unfold Header_Add. rewrite lookup_insert.
  case_decide; [|by apply Hh0]. intros [= <-]. by destruct (default [] _).
Qed.

(** Copying a header never stores an empty list of values. *)
Lemma proxy_copy_header_nonempty (entries : list (string * list string))
    (h0 : http_Header) :
  (forall k vs, h0 !! k = Some vs -> vs ≠ []) ->
  forall k vs, proxy_copy_header entries h0 !! k = Some vs -> vs ≠ [].
Proof.
  revert h0. induction entries as [|[n values] entries IH]; intros h0 Hh0; [done|].
  rewrite proxy_copy_header_cons. apply IH. by apply Header_Add_fold_nonempty.
Qed.

(** X19. The header of the forwarded request is the header of the inbound
    request, as a map: the same names with the same values in the same
    order, and none besides. *)
Theorem X19_relay_header_exact (s : Server) (r req : Request.t) :
  canonical_keys (Request.Header r) = true ->
  no_empty_values (Request.Header r) = true ->
  forwarded (proxyRequest client_Do s r) = [req] ->
  Request.Header req = Request.Header r.
Proof.
  intros Hc Hne Hfw.
  assert (In (Do req) (proxyRequest client_Do s r)) as Hin.
  { apply forwarded_In. rewrite Hfw. left. }
  destruct (proxyRequest_forwarded_inv _ _ _ _ Hin)
    as (body & req0 & _ & _ & Hnew & -> & _).
  destruct (http_NewRequest_inv _ _ _ _ Hnew) as (u & _ & ->). simpl.
  apply map_eq. intros k.
  pose proof (proxy_copy_header_range (Request.Header r) ∅ k
                (λ n, canonical_keys_spec _ n Hc)) as Hk.
  rewrite lookup_empty in Hk. simpl in Hk.
  destruct (proxy_copy_header _ ∅ !! k) as [vs|] eqn:Hcopy.
  - apply proxy_copy_header_nonempty in Hcopy as Hvs; [|by intros ? ?; rewrite lookup_empty].
    simpl in Hk. destruct (Request.Header r !! k) as [ws|]; simpl in Hk; congruence.
  - simpl in Hk. destruct (Request.Header r !! k) as [ws|] eqn:Hr; [|done].
    simpl in Hk. subst ws. by apply no_empty_values_spec in Hr.
Qed.

End RelayMoreFacts.

(** ** The embedded assets *)

Lemma string_drop_app (p s : string) : string_drop (String.length p) (p +:+ s) = s.
Proof.
  unfold string_drop. rewrite length_app.
  replace (String.length p + String.length s - String.length p)
    with (String.length s) by lia.
  apply substring_app_drop.
Qed.

Lemma substring_full (s : string) : String.substring 0 (String.length s) s = s.
Proof. induction s as [|c s IH]; [done|]. simpl. by rewrite IH. Qed.

Lemma substring_0_0 (s : string) : String.substring 0 0 s = "".
Proof. by destruct s. Qed.

Lemma string_take_drop (n : nat) (s : string) :
  s = String.substring 0 n s +:+ string_drop n s.
Proof.
  unfold string_drop. revert s. induction n as [|n IH]; intros s.
  - by rewrite Nat.sub_0_r, substring_0_0, substring_full, app_nil_l.
  - destruct s as [|c s]; [done|].
    change (String.substring 0 (S n) (String c s)) with (String c (String.substring 0 n s)).
    change (String.length (String c s) - S n) with (String.length s - n).
    change (String.substring (S n) (String.length s - n) (String c s))
      with (String.substring n (String.length s - n) s).
    rewrite app_cons. f_equal. apply IH.
Qed.

Lemma HasSuffix_app (t suffix : string) : HasSuffix (t +:+ suffix) suffix = true.
Proof.
  unfold HasSuffix. rewrite length_app.
  replace (String.length t + String.length suffix - String.length suffix)
    with (String.length t) by lia.
  rewrite string_drop_app, String.eqb_refl, andb_true_r.
  apply Nat.leb_le. lia.
Qed.

Lemma HasSuffix_inv (s suffix : string) :
  HasSuffix s suffix = true -> exists t, s = t +:+ suffix.
Proof.
  unfold HasSuffix. intros Hs. apply andb_true_iff in Hs as [_ Hs].
  apply String.eqb_eq in Hs.
  exists (String.substring 0 (String.length s - String.length suffix) s).
  rewrite <- Hs at 2. apply string_take_drop.
Qed.

Lemma list_ascii_app (a b : string) :
  String.list_ascii_of_string (a +:+ b)
  = String.list_ascii_of_string a ++ String.list_ascii_of_string b.
Proof. induction a as [|c a IH]; string_app; simpl; [done|]. by rewrite IH. Qed.

Lemma list_ascii_inj (a b : string) :
  String.list_ascii_of_string a = String.list_ascii_of_string b -> a = b.
Proof.
  intros Heq. rewrite <- (String.string_of_list_ascii_of_string a),
    <- (String.string_of_list_ascii_of_string b). by rewrite Heq.
Qed.

(** Of two suffixes of one string, the shorter is a suffix of the longer. *)
Lemma HasSuffix_nested (s a b : string) :
  HasSuffix s a = true -> HasSuffix s b = true ->
  (String.length a <= String.length b)%nat -> HasSuffix b a = true.
Proof.
  intros [t Ha]%HasSuffix_inv [t' Hb]%HasSuffix_inv Hlen.
  assert (exists u, b = u +:+ a) as [u ->]; [|apply HasSuffix_app].
  rewrite Ha in Hb. apply (f_equal String.list_ascii_of_string) in Hb.
  rewrite !list_ascii_app in Hb.
  apply app_eq_inv in Hb as [(k & Ht & Hk)|(k & Ht & Hk)].
  - exists (String.string_of_list_ascii k). apply list_ascii_inj.
    by rewrite list_ascii_app, String.list_ascii_of_string_of_list_ascii.
  - exists "". apply list_ascii_inj. rewrite app_nil_l.
    assert (forall x, length (String.list_ascii_of_string x) = String.length x) as Hsl.
    { induction x as [|c x IHx]; [done|]. simpl. by rewrite IHx. }
    assert (length (String.list_ascii_of_string a)
            = length k + length (String.list_ascii_of_string b)) as Hl
      by by rewrite Hk, List.length_app.
    rewrite !Hsl in Hl. destruct k; [by rewrite Hk|]. simpl in Hl. lia.
Qed.

(** X20. [getContentType] decides by the end of the path, letter case
    included: a path gets the type of style sheets, scripts, images or
    pages exactly when it ends with [.css], [.js], [.png] or [.html], and
    the type of plain bytes in every other case. *)
Theorem X20_getContentType_by_suffix (path : string) :
  (getContentType path = "text/css" <-> HasSuffix path ".css" = true)
  ∧ (getContentType path = "application/javascript" <-> HasSuffix path ".js" = true)
  ∧ (getContentType path = "image/png" <-> HasSuffix path ".png" = true)
  ∧ (getContentType path = "text/html" <-> HasSuffix path ".html" = true)
  ∧ (getContentType path = "application/octet-stream"
     <-> HasSuffix path ".css" = false ∧ HasSuffix path ".js" = false
         ∧ HasSuffix path ".png" = false ∧ HasSuffix path ".html" = false).
Proof.
  assert (forall a b,
             (String.length a <= String.length b)%nat -> HasSuffix b a = false ->
             HasSuffix path a = true -> HasSuffix path b = true -> False) as Hex.
  { intros a b Hlen Hno Ha Hb.
    by rewrite (HasSuffix_nested path a b Ha Hb Hlen) in Hno. }
  unfold getContentType.
  destruct (HasSuffix path ".css") eqn:Hcss; destruct (HasSuffix path ".js") eqn:Hjs;
    destruct (HasSuffix path ".png") eqn:Hpng;
    destruct (HasSuffix path ".html") eqn:Hhtml;
    try (exfalso; apply (Hex ".js" ".css"); [simpl; lia|done..]);
    try (exfalso; apply (Hex ".css" ".png"); [simpl; lia|done..]);
    try (exfalso; apply (Hex ".css" ".html"); [simpl; lia|done..]);
    try (exfalso; apply (Hex ".js" ".png"); [simpl; lia|done..]);
    try (exfalso; apply (Hex ".js" ".html"); [simpl; lia|done..]);
    try (exfalso; apply (Hex ".png" ".html"); [simpl; lia|done..]);
    repeat split; try done; try (intros (? & ? & ? & ?); done).
Qed.

Lemma Replace1_unfold (s old new : string) :
  Replace1 s old new
  = if HasPrefix s old then new +:+ string_drop (String.length old) s
    else match s with
         | EmptyString => EmptyString
         | String c s' => String c (Replace1 s' old new)
         end.
Proof. by destruct s. Qed.

(** [Replace1] replaces the first occurrence. *)
Lemma Replace1_first (before after old new : string) :
  (forall i, occurs_at old (before +:+ old +:+ after) i -> (String.length before <= i)%nat) ->
  Replace1 (before +:+ old +:+ after) old new = before +:+ new +:+ after.
Proof.
  induction before as [|c before IH]; intros Hfirst; string_app.
  - by rewrite Replace1_unfold, HasPrefix_app, string_drop_app.
  - rewrite Replace1_unfold.
    destruct (HasPrefix (String c (before +:+ old +:+ after)) old) eqn:Hp.
    + apply HasPrefix_inv in Hp as [t Ht].
      assert (String.length (String c before) <= 0)%nat as Hle; [|simpl in Hle; lia].
      apply Hfirst. exists "", t. by string_app.
    + f_equal. apply IH. intros i (x & y & Hxy & Hlen).
      assert (String.length (String c before) <= S i)%nat as Hle; [|simpl in Hle; lia].
      apply Hfirst. exists (String c x), y. string_app. simpl. by rewrite Hxy, Hlen.
Qed.

(** [Replace1] leaves a string without an occurrence as it is. *)
Lemma Replace1_none (s old new : string) :
  (forall i, ¬ occurs_at old s i) -> Replace1 s old new = s.
Proof.
  induction s as [|c s IH]; intros Hnone; rewrite Replace1_unfold.
  - destruct (HasPrefix "" old) eqn:Hp; [|done].
    apply HasPrefix_inv in Hp as [t Ht]. exfalso. apply (Hnone 0).
    exists "", t. by string_app.
  - destruct (HasPrefix (String c s) old) eqn:Hp.
    + apply HasPrefix_inv in Hp as [t Ht]. exfalso. apply (Hnone 0).
      exists "", t. by string_app.
    + f_equal. apply IH. intros i (x & y & Hxy & Hlen). apply (Hnone (S i)).
      exists (String c x), y. string_app. simpl. by rewrite Hxy, Hlen.
Qed.

Section AssetFacts.
Context `{GoLib}.
Variable http_Get : string -> result Response.t.
Variable client_Do : Request.t -> result Response.t.
Variable swaggerUI_ReadFile : string -> result string.
Variable filepath_Join : list string -> string.

Abbreviation serveIndex := (serveIndex swaggerUI_ReadFile filepath_Join).
Abbreviation serveStaticFiles := (serveStaticFiles swaggerUI_ReadFile filepath_Join).

(** X21. [serveStaticFiles] looks a path up under the assets directory
    first and under the root of the embedded tree second, and serves the
    first file it finds with the caching header and the content type of
    the requested path; a file under the assets directory hides one of the
    same path under the root. When neither exists it answers with status
    404 and a fixed text. It never makes an outbound call. *)
Theorem X21_serveStaticFiles_lookup_order (s : Server) (r : Request.t) :
  let relativePath := stripBasePath s (Path (Request.URL r)) in
  let in_assets :=
    swaggerUI_ReadFile
      (filepath_Join [swaggerUIEmbedRoot; swaggerUIAssetsSubDir; relativePath]) in
  let in_root := swaggerUI_ReadFile (filepath_Join [swaggerUIEmbedRoot; relativePath]) in
  (forall content,
      in_assets = Ok content
      ∨ (exists err, in_assets = Err err) ∧ in_root = Ok content ->
      returns_bytes (serveStaticFiles s r) (getContentType relativePath) content
      ∧ In (HeaderSet headerCacheControl "public, max-age=3600") (serveStaticFiles s r))
  ∧ (forall err err',
        in_assets = Err err -> in_root = Err err' ->
        returns_error (serveStaticFiles s r) StatusNotFound "Static file not found")
  ∧ outbound (serveStaticFiles s r) = [].
Proof.
  intros relativePath in_assets in_root. unfold serveStaticFiles.
  fold relativePath. fold in_assets. fold in_root.
  assert (forall content,
             returns_bytes (serveStaticFiles_found relativePath content)
               (getContentType relativePath) content
             ∧ In (HeaderSet headerCacheControl "public, max-age=3600")
                 (serveStaticFiles_found relativePath content)) as Hfound.
  { intros content. split.
    - eexists [_; _; _]. split; [done|]. split; [done|]. by left.
    - right. by left. }
  split; [|split].
  - intros content [->|[[err ->] ->]]; apply Hfound.
  - intros err err' -> ->. by apply (logAndSendError_returns []).
  - destruct in_assets; [done|]. by destruct in_root.
Qed.

(** X22. [serveIndex] sends the embedded index page. With a base path
    configured it puts the meta tag that carries the base path, as it is,
    right before the first closing tag of the head, and changes nothing
    else; a page without that closing tag is sent unchanged, as is every
    page when no base path is configured. *)
Theorem X22_serveIndex_base_path_tag (s : Server) (r : Request.t) (html : string) :
  swaggerUI_ReadFile (filepath_Join [swaggerUIEmbedRoot; swaggerUIIndexHTML]) = Ok html ->
  (basePath s = "" -> returns_bytes (serveIndex s r) "text/html" html)
  ∧ (basePath s ≠ "" ->
     (forall i, ¬ occurs_at "</head>" html i) ->
     returns_bytes (serveIndex s r) "text/html" html)
  ∧ (basePath s ≠ "" ->
     forall before after,
       html = before +:+ "</head>" +:+ after ->
       (forall i, occurs_at "</head>" html i -> (String.length before <= i)%nat) ->
       returns_bytes (serveIndex s r) "text/html"
         (before +:+ base_path_meta_tag (basePath s) +:+ "</head>" +:+ after))
  ∧ outbound (serveIndex s r) = [].
Proof.
  intros Hread. unfold serveIndex. rewrite Hread. split; [|split; [|split]].
  - intros ->. eexists [_; _]. split; [done|]. split; [done|]. right. by left.
  - intros Hb Hnone. rewrite (eqb_empty_false _ Hb). cbn [negb].
    rewrite Replace1_none by done.
    eexists [_; _; _]. split; [done|]. split; [done|]. right. right. by left.
  - intros Hb before after -> Hfirst. rewrite (eqb_empty_false _ Hb). cbn [negb].
    rewrite Replace1_first by done.
    assert ((base_path_meta_tag (basePath s) +:+ "</head>") +:+ after
            = base_path_meta_tag (basePath s) +:+ "</head>" +:+ after) as ->.
    { generalize (base_path_meta_tag (basePath s)). intros tag.
      induction tag as [|c tag IH]; string_app; [done|]. by rewrite IH. }
    eexists [_; _; _]. split; [done|]. split; [done|]. right. right. by left.
  - by destruct (negb _).
Qed.

(** X23. When the index page cannot be read from the embedded tree, the
    client gets status 500 and the fixed text [Failed to read index.html];
    the error of the file system goes to the log only. *)
Theorem X23_serveIndex_unreadable (s : Server) (r : Request.t) (err : error) :
  swaggerUI_ReadFile (filepath_Join [swaggerUIEmbedRoot; swaggerUIIndexHTML]) = Err err ->
  returns_error (serveIndex s r) StatusInternalServerError "Failed to read index.html"
  ∧ client_body (serveIndex s r)
    = [Bytes ("Failed to read index.html" +:+ String (ascii_of_nat 10) "")]
  ∧ last (logged (serveIndex s r))
    = Some ("[" +:+ Request.Method r +:+ " " +:+ Path (Request.URL r)
            +:+ "] HTTP 500 - Failed to serve embedded file "
            +:+ filepath_Join [swaggerUIEmbedRoot; swaggerUIIndexHTML] +:+ ": " +:+ err).
Proof.
  intros Hread. unfold serveIndex. rewrite Hread. split; [|done].
  by apply (logAndSendError_returns [_]).
Qed.

End AssetFacts.

(** ** The headers of cross-origin access *)

Section CorsFacts.
Context `{GoLib}.
Variable http_Get : string -> result Response.t.
Variable client_Do : Request.t -> result Response.t.
Variable swaggerUI_ReadFile : string -> result string.
Variable filepath_Join : list string -> string.

Lemma canonical_names_spec (k : string) :
  canonical_names = true -> In k server_header_names -> CanonicalMIMEHeaderKey k = k.
Proof.
  unfold canonical_names. intros Hc Hin.
  rewrite forallb_forall in Hc. by apply String.eqb_eq, Hc.
Qed.

Lemma carries_cors_Set (h : http_Header) (k v : string) :
  CanonicalMIMEHeaderKey k ∉ cors_headers.*1 ->
  carries_cors h -> carries_cors (Header_Set h k v).
Proof.
  unfold carries_cors, Header_Set. rewrite !Forall_forall.
  intros Hk Hh kv Hkv. destruct (Hh kv Hkv) as [rest Hrest]. exists rest.
  rewrite lookup_insert_ne; [done|]. intros Heq. apply Hk. rewrite Heq.
  by apply list_elem_of_fmap_2.
Qed.

Lemma carries_cors_Add (h : http_Header) (k v : string) :
  carries_cors h -> carries_cors (Header_Add h k v).
Proof.
  unfold carries_cors, Header_Add. rewrite !Forall_forall.
  intros Hh kv Hkv. destruct (Hh kv Hkv) as [rest Hrest].
  destruct (decide (CanonicalMIMEHeaderKey k = kv.1)) as [Heq|Hne].
  - exists (rest ++ [v]). by rewrite Heq, lookup_insert_eq, Hrest.
  - exists rest. by rewrite lookup_insert_ne.
Qed.

Lemma rw_WriteHeader_cors (w : ResponseWriter) (c : Z) :
  cors_kept w -> cors_kept (rw_WriteHeader w c).
Proof.
  intros [Hh Hs]. unfold rw_WriteHeader.
  destruct (rw_sent w) as [sent|] eqn:Hsent; [by split; [|rewrite Hsent]|].
  destruct (informational c); [by split; [|rewrite Hsent]|].
  split; [done|]. simpl. intros status h [= _ <-]. done.
Qed.

Lemma rw_step_cors (w : ResponseWriter) (e : Event) :
  cors_safe e = true -> cors_kept w -> cors_kept (rw_step w e).
Proof.
  intros Hsafe Hw. destruct e as [| k v | k v | c | p | |]; simpl; try done.
  - destruct Hw as [Hh Hs]. split; [|done]. simpl. apply carries_cors_Set; [|done].
    simpl in Hsafe. apply negb_true_iff, bool_decide_eq_false in Hsafe. done.
  - destruct Hw as [Hh Hs]. split; [|done]. simpl. by apply carries_cors_Add.
  - by apply rw_WriteHeader_cors.
  - pose proof (rw_WriteHeader_cors w StatusOK Hw) as Hw'.
    destruct (payload_empty p || negb _); [done|].
    destruct Hw' as [Hh Hs]. by split.
Qed.

Lemma rw_run_cors (evs : list Event) (w : ResponseWriter) :
  forallb cors_safe evs = true -> cors_kept w -> cors_kept (foldl rw_step w evs).
Proof.
  revert w. induction evs as [|e evs IH]; intros w Hsafe Hw; [done|].
  simpl in Hsafe. apply andb_true_iff in Hsafe as [He Hevs].
  simpl. apply IH; [done|]. by apply rw_step_cors.
Qed.

Lemma cors_safe_server_header (k v : string) :
  canonical_names = true ->
  In k [headerContentType; "X-Content-Type-Options"; headerCacheControl] ->
  cors_safe (HeaderSet k v) = true.
Proof.
  intros Hc Hin. simpl. rewrite (canonical_names_spec k Hc).
  - simpl in Hin. by destruct Hin as [<-|[<-|[<-|[]]]].
  - unfold server_header_names. apply in_or_app. by right.
Qed.

Lemma cors_safe_logAndSendError (r : Request.t) (code : Z) (internal user : string) :
  canonical_names = true ->
  forallb cors_safe (logAndSendError r code internal user) = true.
Proof.
  intros Hc. unfold logAndSendError, http_Error. cbn [forallb].
  rewrite !cors_safe_server_header; try done; simpl; tauto.
Qed.

Lemma cors_safe_relay_header (entries : list (string * list string)) :
  forallb cors_safe (proxy_relay_header entries) = true.
Proof.
  unfold proxy_relay_header. apply forallb_forall. intros e Hin.
  apply in_flat_map in Hin as ([name values] & _ & Hin).
  apply in_map_iff in Hin as (v & <- & _). done.
Qed.

Lemma cors_safe_handlers (s : Server) (r : Request.t) :
  canonical_names = true ->
  forallb cors_safe (serveIndex swaggerUI_ReadFile filepath_Join s r) = true
  ∧ forallb cors_safe (serveSpecs s r) = true
  ∧ forallb cors_safe (serveIndividualSpec http_Get s r) = true
  ∧ forallb cors_safe (proxyRequest client_Do s r) = true
  ∧ forallb cors_safe (serveStaticFiles swaggerUI_ReadFile filepath_Join s r) = true.
Proof.
  intros Hc.
  assert (forall v, cors_safe (HeaderSet headerContentType v) = true) as Hct
    by (intros v; apply cors_safe_server_header; simpl; tauto).
  assert (forall v, cors_safe (HeaderSet headerCacheControl v) = true) as Hcc
    by (intros v; apply cors_safe_server_header; simpl; tauto).
  pose proof (fun code a b => cors_safe_logAndSendError r code a b Hc) as Herr.
  repeat split.
  - unfold serveIndex. cbn [forallb].
    destruct (swaggerUI_ReadFile _); [|by rewrite Herr].
    destruct (negb _); cbn [forallb]; by rewrite Hct.
  - unfold serveSpecs. cbn [forallb]. by rewrite Hct.
  - unfold serveIndividualSpec.
    destruct (specs s !! _); [|apply Herr]. cbn [forallb].
    destruct (http_Get _); [|by rewrite Herr].
    destruct (negb _); [by rewrite Herr|].
    destruct (url_Parse _); [|by rewrite Herr].
    destruct (json_Decode _); [|by rewrite Herr].
    cbn [forallb]. by rewrite Hct.
  - unfold proxyRequest.
    destruct (String.eqb _ ""); [apply Herr|]. cbn [forallb].
    destruct (Request.Body r) as [[b|e]|]; try by rewrite Herr.
    + destruct (http_NewRequest _ _ _); [|by rewrite Herr]. cbn [forallb].
      destruct (client_Do _); [|cbn [forallb]; by rewrite Herr].
      by rewrite forallb_app, cors_safe_relay_header.
    + destruct (http_NewRequest _ _ _); [|by rewrite Herr]. cbn [forallb].
      destruct (client_Do _); [|cbn [forallb]; by rewrite Herr].
      by rewrite forallb_app, cors_safe_relay_header.
  - unfold serveStaticFiles, serveStaticFiles_found.
    destruct (swaggerUI_ReadFile _).
    + cbn [forallb]. by rewrite Hct, Hcc.
    + destruct (swaggerUI_ReadFile _); [|apply Herr].
      cbn [forallb]. by rewrite Hct, Hcc.
Qed.

(** X24. Whatever the route and the outcome, errors of the handlers
    included, the response [ServeHTTP] sends carries the four headers of
    cross-origin access, each with the value the server set as its first
    value: no handler replaces or removes one, and the header of an
    upstream response that the relay copies can only add values after it. *)
Theorem X24_every_response_carries_cors (s : Server) (r : Request.t)
    (status : Z) (h : http_Header) :
  canonical_names = true ->
  rw_sent (rw_run (Server_ServeHTTP http_Get client_Do swaggerUI_ReadFile filepath_Join s r))
  = Some (status, h) ->
  h !! "Access-Control-Allow-Origin" ≫= head = Some "*"
  ∧ h !! "Access-Control-Allow-Methods" ≫= head = Some "GET, POST, OPTIONS"
  ∧ h !! "Access-Control-Allow-Headers" ≫= head = Some "Content-Type, Authorization"
  ∧ h !! "Access-Control-Expose-Headers" ≫= head = Some "Content-Length".
Proof.
  intros Hc Hsent.
  assert (carries_cors h) as Hh.
  { unfold Server_ServeHTTP, ServeHTTP, rw_run in Hsent.
    rewrite foldl_app in Hsent.
    match type of Hsent with
    | rw_sent (foldl rw_step ?w ?evs) = _ =>
        assert (cors_kept (foldl rw_step w evs)) as [_ Hkept]
    end; [|by apply (Hkept status)].
    apply rw_run_cors.
    - destruct (cors_safe_handlers s r Hc) as (Hi & Hs & Ha & Hp & Hf).
      destruct (String.eqb (Request.Method r) MethodOptions); [done|].
      cbn [forallb cors_safe andb].
      destruct (_ || _); [done|]. destruct (String.eqb _ _); [done|].
      destruct (HasPrefix _ httpPathAPI); [done|].
      by destruct (HasPrefix _ httpPathProxy).
    - cbn [foldl rw_step rw_init rw_header rw_sent rw_body]. unfold Header_Set.
      rewrite !(canonical_names_spec _ Hc)
        by (unfold server_header_names; apply in_or_app; left; simpl; tauto).
      split; [|done]. cbn [rw_header]. unfold carries_cors, cors_headers.
      repeat apply Forall_cons_2; try apply Forall_nil_2; by eexists. }
  unfold carries_cors, cors_headers in Hh.
  apply Forall_cons in Hh as [[? H1] Hh]. apply Forall_cons in Hh as [[? H2] Hh].
  apply Forall_cons in Hh as [[? H3] Hh]. apply Forall_cons in Hh as [[? H4] _].
  cbv [fst snd headerAccessControlAllowOrigin headerAccessControlAllowMethods
       headerAccessControlAllowHeaders headerAccessControlExposeHeaders
       corsAllowOriginAll corsAllowMethodsDefault corsAllowHeadersDefault
       corsExposeHeadersDefault] in H1, H2, H3, H4.
  by rewrite H1, H2, H3, H4.
Qed.

End CorsFacts.

(** ** The further properties on the deployment *)

(** Closes an equation between closed terms by evaluation. *)
Ltac by_vm :=
  lazymatch goal with
  | |- ?l = ?r => exact (@eq_refl _ r <: l = r)
  end.

(** X2 on the pet store: its document at another path of the same host
    gives the same location for the path [/v3]. *)
Lemma X2_witness :
  makeServerURL (H := RefLib.lib) Example.petstore_mirror_url "/v3"
  = makeServerURL (H := RefLib.lib) Example.petstore_url "/v3".
Proof.
  apply (@X2_makeServerURL_scheme_host_only RefLib.lib Example.petstore_url
           Example.petstore_mirror_url "/v3");
    [reflexivity | reflexivity | right; right; reflexivity].
Defined.

(** X4 on a Swagger 1.2 document fetched from the order service. *)
Lemma X4_witness :
  isLegacy Example.legacy_spec = true
  ∧ updateSpecServerInfo (H := RefLib.lib) Example.legacy_spec Example.orders_url
    = <["basePath" := JString "http://orders.example/v1"]> Example.legacy_spec.
Proof.
  split; [by_vm|].
  destruct (@X4_updateSpecServerInfo_legacy_basePath RefLib.lib Example.legacy_spec
              Example.orders_url) as [Hstring _]; [by_vm|].
  exact (Hstring "/v1" eq_refl).
Defined.

(** X8 on the batch and the batch with its first two candidates swapped. *)
Lemma X8_witness :
  specs (UpdateSpecs Example.empty_server Example.batch).1
  = specs (UpdateSpecs Example.empty_server Example.batch_swapped).1.
Proof.
  apply (X8_UpdateSpecs_order_independent Example.empty_server Example.batch
           Example.batch_swapped).
  - apply perm_swap.
  - apply (bool_decide_unpack _). vm_compute. exact I.
Defined.

(** X12 on a name the deployment does not know. *)
Lemma X12_witness :
  returns_error
    (Example.ServeHTTP Example.server (Example.request "GET" "/api/unknown" ∅ ""))
    404 "API not found"
  ∧ outbound
      (Example.ServeHTTP Example.server (Example.request "GET" "/api/unknown" ∅ ""))
    = [].
Proof.
  destruct (@X12_unknown_name_not_found RefLib.lib Example.http_Get Example.client_Do
              Example.serveStatic Example.serveStatic Example.server
              (Example.request "GET" "/api/unknown" ∅ ""))
    as (Herr & _ & _ & Hout & _);
    [vm_compute; discriminate | by_vm | by_vm |].
  split; [exact Herr | exact Hout].
Defined.

(** X13 behind the ingress: the pet store is registered, and a request for
    it under the base path is answered with 404. *)
Lemma X13_witness :
  specs Example.ingress_server !! "petstore"
  = Some (UpdateSpecs_metadata Example.petstore)
  ∧ returns_error
      (Example.ServeHTTP Example.ingress_server
         (Example.request "GET" "/swagger/api/petstore" ∅ ""))
      404 "API not found".
Proof.
  split; [by_vm|].
  destruct (@X13_base_path_hides_registered_names RefLib.lib Example.http_Get
              Example.client_Do Example.serveStatic Example.serveStatic
              Example.ingress_server
              (Example.request "GET" "/swagger/api/petstore" ∅ "")
              "petstore" (UpdateSpecs_metadata Example.petstore))
    as (Herr & _);
    [vm_compute; discriminate | vm_compute; discriminate | by_vm ..|].
  exact Herr.
Defined.


(** X15 on a preflight request to the relay. *)
Lemma X15_witness :
  client_status (H := RefLib.lib)
    (Example.ServeHTTP Example.server (Example.request "OPTIONS" "/proxy/orders" ∅ ""))
  = Some 200%Z
  ∧ outbound
      (Example.ServeHTTP Example.server (Example.request "OPTIONS" "/proxy/orders" ∅ ""))
    = [].
Proof.
  destruct (@X15_preflight_short_circuit RefLib.lib Example.http_Get Example.client_Do
              Example.serveStatic Example.serveStatic Example.server
              (Example.request "OPTIONS" "/proxy/orders" ∅ ""))
    as (Hstatus & _ & Hout & _); [by_vm|].
  split; [exact Hstatus | exact Hout].
Defined.

(** X16 on the pet store: a POST with a header and a body is served as a
    GET is. *)
Lemma X16_witness :
  without_log
    (Example.ServeHTTP Example.server
       (Example.request "POST" "/api/petstore" Example.proxy_header "id=7"))
  = without_log
      (Example.ServeHTTP Example.server (Example.request "GET" "/api/petstore" ∅ "")).
Proof.
  apply (@X16_render_ignores_method RefLib.lib Example.http_Get Example.client_Do
           Example.serveStatic Example.serveStatic Example.server
           (Example.request "GET" "/api/petstore" ∅ "")
           (Example.request "POST" "/api/petstore" Example.proxy_header "id=7"));
    [vm_compute; discriminate | vm_compute; discriminate
     | by_vm | by_vm].
Defined.

(** X18 on a call whose body cannot be read. *)
Lemma X18_witness :
  returns_error
    (Example.proxyRequest Example.server Example.proxy_request_unreadable)
    500 "Failed to read request body"
  ∧ outbound (Example.proxyRequest Example.server Example.proxy_request_unreadable) = [].
Proof.
  destruct (@X18_relay_failures RefLib.lib Example.client_Do Example.server
              Example.proxy_request_unreadable) as (Hbody & _);
    [vm_compute; discriminate|].
  exact (Hbody "unexpected EOF" eq_refl).
Defined.

(** X19 on the relayed call. *)
Lemma X19_witness :
  Request.Header Example.proxy_outbound = Request.Header Example.proxy_request.
Proof.
  apply (@X19_relay_header_exact RefLib.lib Example.client_Do Example.server
           Example.proxy_request Example.proxy_outbound);
    by_vm.
Defined.

Lemma occurs_at_prefix (old s : string) (i : nat) :
  occurs_at old s i -> HasPrefix (string_drop i s) old = true.
Proof.
  intros (before & after & -> & <-). rewrite string_drop_app. apply HasPrefix_app.
Qed.

(** X22 behind the ingress: the tag with the base path stands right before
    the end of the head of the index page. *)
Lemma X22_witness :
  Example.swaggerUI_ReadFile (Example.filepath_Join ["swagger-ui"; "index.html"])
  = Ok Example.index_html
  ∧ returns_bytes
      (serveIndex Example.swaggerUI_ReadFile Example.filepath_Join Example.ingress_server
         (Example.request "GET" "/swagger/" ∅ ""))
      "text/html"
      ("<head><title>API</title>" +:+ "<meta name=" +:+ dquote +:+ "base-path" +:+ dquote
       +:+ " content=" +:+ dquote +:+ "/swagger" +:+ dquote +:+ ">"
       +:+ "</head>" +:+ "<body></body>").
Proof.
  split; [by_vm|].
  destruct (X22_serveIndex_base_path_tag Example.swaggerUI_ReadFile Example.filepath_Join
              Example.ingress_server (Example.request "GET" "/swagger/" ∅ "")
              Example.index_html) as (_ & _ & Htag & _); [by_vm|].
  assert (basePath Example.ingress_server ≠ "") as Hbase by (vm_compute; discriminate).
  specialize (Htag Hbase "<head><title>API</title>" "<body></body>" eq_refl).
  apply Htag. intros i Hocc. apply occurs_at_prefix in Hocc.
  do 24 (destruct i as [|i]; [vm_compute in Hocc; discriminate|]).
  simpl. lia.
Defined.

(** X23 on an embedded tree without the index page. *)
Lemma X23_witness :
  returns_error
    (serveIndex Example.empty_ReadFile Example.filepath_Join Example.server
       (Example.request "GET" "/" ∅ ""))
    500 "Failed to read index.html".
Proof.
  destruct (@X23_serveIndex_unreadable RefLib.lib Example.empty_ReadFile
              Example.filepath_Join Example.server (Example.request "GET" "/" ∅ "")
              "open swagger-ui/index.html: file does not exist")
    as (Herr & _); [by_vm|].
  exact Herr.
Defined.

(** X24 on the relayed call: the response carries the four headers besides
    the header of the upstream response. *)
Lemma X24_witness :
  rw_sent (rw_run (H := RefLib.lib)
             (Example.Server_ServeHTTP Example.server Example.proxy_request))
  = Some (202%Z, Example.relayed_header)
  ∧ Example.relayed_header !! "Access-Control-Allow-Origin" ≫= head = Some "*".
Proof.
  split; [by_vm|].
  destruct (@X24_every_response_carries_cors RefLib.lib Example.http_Get
              Example.client_Do Example.swaggerUI_ReadFile Example.filepath_Join
              Example.server Example.proxy_request 202%Z Example.relayed_header)
    as (Horigin & _); [by_vm | by_vm |].
  exact Horigin.
Defined.
